(** * QCTools capture control: [Core/BlackmagicDeckLink.cpp]

    A shallow embedding of [CaptureHelper], the object that drives a
    DeckLink capture card and a tape deck, and of the callbacks the
    DeckLink driver invokes on it.

    - Every method of [CaptureHelper] is a computation in a small
      state-and-fault monad [M]: it threads the object's fields, the
      ordered list of calls made on the collaborators (card, input,
      deck control, glue) and a call clock, and it stops with a [Fault]
      where the C++ code would dereference a null pointer.
    - What the driver answers is not decided by the program: every
      driver entry point is a field of [Hardware], a function of the
      call clock, so that two calls of the same entry point may answer
      differently.
    - Diagnostics written to [cout] are not modelled. *)

From Stdlib Require Import ZArith List Bool Lia RelationClasses.
From Stdlib Require String.
Import ListNotations.
Import String.StringSyntax.
Delimit Scope string_scope with string.
Open Scope Z_scope.

(** ** Machine integers *)

(** Value of a 32-bit unsigned object holding [z] (conversion to
    [uint32_t], the type behind [BMDTimecodeBCD]). *)
Definition to_u32 (z : Z) : Z := z mod 2 ^ 32.

(** Value of a 32-bit signed object holding [z] (conversion to [int]). *)
Definition to_i32 (z : Z) : Z :=
  let u := z mod 2 ^ 32 in if u <? 2 ^ 31 then u else u - 2 ^ 32.

(** ** Types of the DeckLink API used by the unit *)

Inductive HRESULT := S_OK | S_FALSE | E_FAIL | E_other (code : Z).

Definition is_S_OK (hr : HRESULT) : bool :=
  match hr with S_OK => true | _ => false end.

Inductive BMDDeckControlError :=
| bmdDeckControlNoError
| bmdDeckControlModeError
| bmdDeckControlMissedInPointError
| bmdDeckControlDeckTimeoutError
| bmdDeckControlCommandFailedError
| bmdDeckControlDeviceAlreadyOpenedError
| bmdDeckControlFailedToOpenDeviceError
| bmdDeckControlInLocalModeError
| bmdDeckControlEndOfTapeError
| bmdDeckControlUserAbortError
| bmdDeckControlNoTapeInDeckError
| bmdDeckControlNoVideoFromCardError
| bmdDeckControlNoCommunicationError
| bmdDeckControlUnknownError
| bmdDeckControlReservedError (code : Z).

Definition is_NoCommunicationError (e : BMDDeckControlError) : bool :=
  match e with bmdDeckControlNoCommunicationError => true | _ => false end.

(** The five events the unit names, and any other event code. *)
Inductive BMDDeckControlEvent :=
| bmdDeckControlAbortedEvent
| bmdDeckControlPrepareForExportEvent
| bmdDeckControlPrepareForCaptureEvent
| bmdDeckControlExportCompleteEvent
| bmdDeckControlCaptureCompleteEvent
| bmdDeckControlReservedEvent (code : Z).

Inductive BMDDisplayMode := bmdModeNTSC | bmdModeOther (code : Z).

Definition is_bmdModeNTSC (m : BMDDisplayMode) : bool :=
  match m with bmdModeNTSC => true | _ => false end.

Inductive BMDPixelFormat := bmdFormat8BitYUV | bmdFormat10BitYUV.

Inductive BMDAudioSampleType :=
| bmdAudioSampleType16bitInteger
| bmdAudioSampleType32bitInteger.

(** What [IDeckLinkDisplayMode] answers for one mode of the iterator. *)
Record IDeckLinkDisplayMode := {
  GetDisplayMode : BMDDisplayMode;
  GetWidth : Z;
  GetHeight : Z;
  GetFrameRate : Z * Z   (* frameDuration, timeScale *)
}.

(** An arrived video frame: its serial timecode ([None] when
    [GetTimecode] leaves the pointer null), its geometry and buffer. *)
Record IDeckLinkVideoInputFrame := {
  GetTimecode_Serial : option Z;
  GetRowBytes : Z;
  Frame_GetHeight : Z;
  Frame_GetBytes : nat
}.

Record IDeckLinkAudioInputPacket := {
  GetSampleFrameCount : Z;
  Packet_GetBytes : nat
}.

(** ** Configuration shared with the caller *)

Module BlackmagicDeckLink_Glue.

(** Modelled from the spec: the header declaring the [status]
    enumeration is not part of the sources; the unit names
    [capturing], [aborting] and [finished], the specification names
    the initial state idle. *)
Inductive status := idle | capturing | aborting | finished.

Definition status_eqb (a b : status) : bool :=
  match a, b with
  | idle, idle | capturing, capturing
  | aborting, aborting | finished, finished => true
  | _, _ => false
  end.

(** Modelled from the spec: the fields of [config_in] read by the
    unit; the declaring header is not part of the sources.  The
    integer fields are compared with [-1] and are taken as [int]. *)
Record config_in := {
  FrameCount : Z;
  TC_in : Z;
  TC_out : Z;
  VideoBitDepth : Z;
  AudioBitDepth : Z;
  ChannelsCount : Z;
  DropFrame : bool;
  VideoInputConnection : Z;
  TimeCodeIsAvailable_Callback : bool   (* the function pointer is set *)
}.

(** Modelled from the spec: the fields of [config_out] written by the
    unit. *)
Record config_out := {
  Status : status;
  TC_current : Z;
  VideoInputConnections : Z
}.

End BlackmagicDeckLink_Glue.
Import BlackmagicDeckLink_Glue.

(** ** The object *)

(** Fields of [CaptureHelper].  Interface pointers are [true] when
    non-null.  [Glue] is [true] when [Glue && *Glue] holds.  The counter
    [m_FramePos] is declared in a header that is not part of the
    sources; it is an unbounded integer here. *)
Record CaptureHelper := {
  m_card : bool;
  m_input : bool;
  m_control : bool;
  m_width : Z;
  m_height : Z;
  m_timeScale : Z;
  m_frameDuration : Z;
  m_FramePos : Z;
  Glue : bool;
  Config_In : config_in;
  Config_Out : config_out;
  WantTimeCode : bool
}.

Definition set_m_card (v : bool) (s : CaptureHelper) : CaptureHelper :=
  {| m_card := v; m_input := m_input s; m_control := m_control s;
     m_width := m_width s; m_height := m_height s;
     m_timeScale := m_timeScale s; m_frameDuration := m_frameDuration s;
     m_FramePos := m_FramePos s; Glue := Glue s;
     Config_In := Config_In s; Config_Out := Config_Out s;
     WantTimeCode := WantTimeCode s |}.

Definition set_m_input (v : bool) (s : CaptureHelper) : CaptureHelper :=
  {| m_card := m_card s; m_input := v; m_control := m_control s;
     m_width := m_width s; m_height := m_height s;
     m_timeScale := m_timeScale s; m_frameDuration := m_frameDuration s;
     m_FramePos := m_FramePos s; Glue := Glue s;
     Config_In := Config_In s; Config_Out := Config_Out s;
     WantTimeCode := WantTimeCode s |}.

Definition set_m_control (v : bool) (s : CaptureHelper) : CaptureHelper :=
  {| m_card := m_card s; m_input := m_input s; m_control := v;
     m_width := m_width s; m_height := m_height s;
     m_timeScale := m_timeScale s; m_frameDuration := m_frameDuration s;
     m_FramePos := m_FramePos s; Glue := Glue s;
     Config_In := Config_In s; Config_Out := Config_Out s;
     WantTimeCode := WantTimeCode s |}.

Definition set_m_width (v : Z) (s : CaptureHelper) : CaptureHelper :=
  {| m_card := m_card s; m_input := m_input s; m_control := m_control s;
     m_width := v; m_height := m_height s;
     m_timeScale := m_timeScale s; m_frameDuration := m_frameDuration s;
     m_FramePos := m_FramePos s; Glue := Glue s;
     Config_In := Config_In s; Config_Out := Config_Out s;
     WantTimeCode := WantTimeCode s |}.

(** The assignments made for the NTSC mode: width, height, and the two
    out-parameters of [GetFrameRate]. *)
Definition set_mode (d : IDeckLinkDisplayMode) (s : CaptureHelper)
  : CaptureHelper :=
  {| m_card := m_card s; m_input := m_input s; m_control := m_control s;
     m_width := GetWidth d; m_height := GetHeight d;
     m_timeScale := snd (GetFrameRate d);
     m_frameDuration := fst (GetFrameRate d);
     m_FramePos := m_FramePos s; Glue := Glue s;
     Config_In := Config_In s; Config_Out := Config_Out s;
     WantTimeCode := WantTimeCode s |}.

Definition set_m_FramePos (v : Z) (s : CaptureHelper) : CaptureHelper :=
  {| m_card := m_card s; m_input := m_input s; m_control := m_control s;
     m_width := m_width s; m_height := m_height s;
     m_timeScale := m_timeScale s; m_frameDuration := m_frameDuration s;
     m_FramePos := v; Glue := Glue s;
     Config_In := Config_In s; Config_Out := Config_Out s;
     WantTimeCode := WantTimeCode s |}.

Definition set_Config_Out (v : config_out) (s : CaptureHelper)
  : CaptureHelper :=
  {| m_card := m_card s; m_input := m_input s; m_control := m_control s;
     m_width := m_width s; m_height := m_height s;
     m_timeScale := m_timeScale s; m_frameDuration := m_frameDuration s;
     m_FramePos := m_FramePos s; Glue := Glue s;
     Config_In := Config_In s; Config_Out := v;
     WantTimeCode := WantTimeCode s |}.

Definition set_WantTimeCode (v : bool) (s : CaptureHelper) : CaptureHelper :=
  {| m_card := m_card s; m_input := m_input s; m_control := m_control s;
     m_width := m_width s; m_height := m_height s;
     m_timeScale := m_timeScale s; m_frameDuration := m_frameDuration s;
     m_FramePos := m_FramePos s; Glue := Glue s;
     Config_In := Config_In s; Config_Out := Config_Out s;
     WantTimeCode := v |}.

Definition set_Status (v : status) (s : CaptureHelper) : CaptureHelper :=
  set_Config_Out
    {| Status := v; TC_current := TC_current (Config_Out s);
       VideoInputConnections := VideoInputConnections (Config_Out s) |} s.

Definition set_TC_current (v : Z) (s : CaptureHelper) : CaptureHelper :=
  set_Config_Out
    {| Status := Status (Config_Out s); TC_current := v;
       VideoInputConnections := VideoInputConnections (Config_Out s) |} s.

Definition set_VideoInputConnections (v : Z) (s : CaptureHelper)
  : CaptureHelper :=
  set_Config_Out
    {| Status := Status (Config_Out s);
       TC_current := TC_current (Config_Out s);
       VideoInputConnections := v |} s.

(** ** Calls on the collaborators, in the order they are made *)

Inductive Call :=
| card_AddRef
| card_Release
| configuration_SetInt (connection : Z)
| input_SetCallback (this : bool)
| input_EnableVideoInput (f : BMDPixelFormat)
| input_EnableAudioInput (t : BMDAudioSampleType) (channels : Z)
| input_StartStreams
| input_StopStreams
| input_DisableVideoInput
| input_Release
| control_SetCallback (this : bool)
| control_Open (timeScale frameDuration : Z) (dropFrame : bool)
| control_Play
| control_StartCapture (tcIn tcOut : Z)
| control_Abort
| control_Stop
| control_GetTimecode
| control_Close (standbyOn : bool)
| control_Release
| TimeCodeIsAvailable
| Glue_OutputFrame (buffer : nat) (size : Z) (kind : Z) (FramePos : Z)
| Glue_CloseOutput.

(** ** What the driver answers *)

(** Every entry point of the driver whose answer the unit looks at, as
    a function of the call clock. *)
Record Hardware := {
  CreateDeckLinkIteratorInstance : nat -> bool;
  (* result, and the value left in the out-parameter *)
  IDeckLinkIterator_Next : nat -> HRESULT * bool;
  QueryInterface_Attributes : nat -> HRESULT;
  GetInt_VideoInputConnections : nat -> HRESULT * Z;
  QueryInterface_Configuration : nat -> HRESULT;
  QueryInterface_Input : nat -> HRESULT;
  (* result, and the modes the iterator then enumerates *)
  GetDisplayModeIterator : nat -> HRESULT * list IDeckLinkDisplayMode;
  EnableVideoInput : nat -> HRESULT;
  EnableAudioInput : nat -> HRESULT;
  StartStreams : nat -> HRESULT;
  QueryInterface_DeckControl : nat -> HRESULT;
  Open : nat -> HRESULT;
  Play : nat -> HRESULT;
  StartCapture : nat -> HRESULT;
  Abort : nat -> HRESULT;
  Stop : nat -> HRESULT;
  (* result, error out-parameter, BCD value of the returned timecode *)
  GetTimecode : nat -> HRESULT * BMDDeckControlError * Z
}.

(** ** The monad *)

Inductive Fault :=
| NullCard | NullInput | NullControl | NullVideoFrame | NullAudioPacket.

Record World := {
  self : CaptureHelper;
  now : nat;
  calls : list Call
}.

Inductive Outcome (A : Type) :=
| Returns (a : A) (w : World)
| Faults (f : Fault) (w : World).
Arguments Returns {A} a w.
Arguments Faults {A} f w.

Definition M (A : Type) : Type := World -> Outcome A.

Definition ret {A} (a : A) : M A := fun w => Returns a w.

Definition bind {A B} (m : M A) (k : A -> M B) : M B :=
  fun w => match m w with
           | Returns a w' => k a w'
           | Faults f w' => Faults f w'
           end.

Declare Scope capture_scope.
Delimit Scope capture_scope with capture.
Notation "x <- m ;; k" := (bind m (fun x => k))
  (at level 61, m at next level, right associativity) : capture_scope.
Notation "m ;;; k" := (bind m (fun _ => k))
  (at level 61, right associativity) : capture_scope.
Open Scope capture_scope.

Definition this : M CaptureHelper := fun w => Returns (self w) w.

Definition assign (f : CaptureHelper -> CaptureHelper) : M unit :=
  fun w => Returns tt {| self := f (self w); now := now w; calls := calls w |}.

Definition call (c : Call) : M unit :=
  fun w => Returns tt {| self := self w; now := now w;
                         calls := calls w ++ [c] |}.

Definition fault {A} (f : Fault) : M A := fun w => Faults f w.

Definition skip : M unit := ret tt.

(** Dereference of an interface pointer. *)
Definition deref (p : CaptureHelper -> bool) (f : Fault) : M unit :=
  s <- this ;; if p s then skip else fault f.

(** ** Methods of [CaptureHelper] *)

Section Methods.

Variable hw : Hardware.

(** The flag [bmdDeckControlStatusDeckConnected] of the DeckLink API;
    its value is declared outside the sources. *)
Variable bmdDeckControlStatusDeckConnected : Z.

(** One call of a driver entry point: read its answer at the current
    clock and advance the clock. *)
Definition ask {A} (entry : Hardware -> nat -> A) : M A :=
  fun w => Returns (entry hw (now w))
                   {| self := self w; now := S (now w); calls := calls w |}.

(** *** Helpers *)

(** The [for (;;)] loop of [getDeckLinkCard]; it runs at most
    [Pos + 1] times since [Pos] decreases at every turn. *)
Fixpoint getDeckLinkCard_loop (Pos : nat) : M bool :=
  r <- ask IDeckLinkIterator_Next ;;
  match fst r with
  | E_FAIL => ret (snd r)
  | S_FALSE => ret (snd r)
  | _ => match Pos with
         | O => ret (snd r)
         | S Pos' => getDeckLinkCard_loop Pos'
         end
  end.

Definition getDeckLinkCard (Pos : nat) : M bool :=
  deckLinkIter <- ask CreateDeckLinkIteratorInstance ;;
  if negb deckLinkIter then ret false
  else getDeckLinkCard_loop Pos.

(** *** Deck *)

Definition setupCard (CardPos : nat) : M bool :=
  s <- this ;;
  if m_card s then ret true
  else
    card <- getDeckLinkCard CardPos ;;
    assign (set_m_card card) ;;;
    if negb card then ret false
    else
      call card_AddRef ;;;
      hr <- ask QueryInterface_Attributes ;;
      (if is_S_OK hr then
         r <- ask GetInt_VideoInputConnections ;;
         if is_S_OK (fst r)
         then assign (set_VideoInputConnections (to_i32 (snd r)))
         else skip
       else skip) ;;;
      hr <- ask QueryInterface_Configuration ;;
      (if is_S_OK hr then
         s <- this ;;
         if negb (VideoInputConnection (Config_In s) =? -1)
         then call (configuration_SetInt (VideoInputConnection (Config_In s)))
         else skip
       else skip) ;;;
      ret true.

Definition cleanupCard : M bool :=
  s <- this ;;
  if negb (m_card s) then ret true
  else
    call card_Release ;;;
    assign (set_m_card false) ;;;
    ret true.

(** *** Input *)

(** [QueryInterface] leaves the out-parameter null when it fails.  The
    display-mode iterator enumerates the finite list of modes the
    driver answered with. *)
Definition setupInput : M bool :=
  s <- this ;;
  if m_input s then ret true
  else
    assign (set_m_width (-1)) ;;;
    deref m_card NullCard ;;;
    hr <- ask QueryInterface_Input ;;
    assign (set_m_input (is_S_OK hr)) ;;;
    if negb (is_S_OK hr) then ret false
    else
      r <- ask GetDisplayModeIterator ;;
      if negb (is_S_OK (fst r)) then ret false
      else
        match find (fun d => is_bmdModeNTSC (GetDisplayMode d)) (snd r) with
        | Some d => assign (set_mode d)
        | None => skip
        end ;;;
        s <- this ;;
        if m_width s =? -1 then ret false
        else
          call (input_SetCallback true) ;;;
          call (input_EnableVideoInput
                  (if VideoBitDepth (Config_In s) =? 10
                   then bmdFormat10BitYUV else bmdFormat8BitYUV)) ;;;
          hr <- ask EnableVideoInput ;;
          if negb (is_S_OK hr) then ret false
          else
            call (input_EnableAudioInput
                    (if (AudioBitDepth (Config_In s) =? 24)
                        || (AudioBitDepth (Config_In s) =? 32)
                     then bmdAudioSampleType32bitInteger
                     else bmdAudioSampleType16bitInteger)
                    (to_u32 (ChannelsCount (Config_In s)))) ;;;
            hr <- ask EnableAudioInput ;;
            if negb (is_S_OK hr) then ret false
            else
              call input_StartStreams ;;;
              hr <- ask StartStreams ;;
              if negb (is_S_OK hr) then ret false
              else ret true.

Definition cleanupInput : M bool :=
  s <- this ;;
  if negb (m_input s) then ret true
  else
    call input_StopStreams ;;;
    call input_DisableVideoInput ;;;
    call (input_SetCallback false) ;;;
    call input_Release ;;;
    assign (set_m_input false) ;;;
    ret true.

(** *** Control *)

Definition setupControl : M bool :=
  ok <- setupInput ;;
  if negb ok then ret false
  else
    s <- this ;;
    if m_control s then ret true
    else
      deref m_card NullCard ;;;
      hr <- ask QueryInterface_DeckControl ;;
      assign (set_m_control (is_S_OK hr)) ;;;
      if negb (is_S_OK hr) then ret false
      else
        call (control_SetCallback true) ;;;
        call (control_Open (m_timeScale s) (m_frameDuration s)
                           (DropFrame (Config_In s))) ;;;
        hr <- ask Open ;;
        if negb (is_S_OK hr) then ret false
        else ret true.

(** The part of [cleanupControl] after the [switch]. *)
Definition cleanupControl_Close : M bool :=
  call (control_Close false) ;;;
  call (control_SetCallback false) ;;;
  call control_Release ;;;
  assign (set_m_control false) ;;;
  ret true.

Definition cleanupControl : M bool :=
  s <- this ;;
  if negb (m_control s) then ret true
  else
    match Status (Config_Out s) with
    | capturing =>
        if negb (TC_in (Config_In s) =? -1) then
          assign (set_Status aborting) ;;;
          call control_Abort ;;;
          _ <- ask Abort ;;
          ret false
        else cleanupControl_Close
    | _ => cleanupControl_Close
    end.

Definition readTimeCode : M unit :=
  deref m_control NullControl ;;;
  call control_GetTimecode ;;;
  r <- ask GetTimecode ;;
  let '(hr, bmdDeckControlError, bcd) := r in
  if negb (is_S_OK hr) then
    (if is_NoCommunicationError bmdDeckControlError
     then assign (set_WantTimeCode true)
     else skip) ;;;
    assign (set_TC_current (-1))
  else
    assign (set_TC_current (to_i32 bcd)) ;;;
    s <- this ;;
    if TimeCodeIsAvailable_Callback (Config_In s)
    then call TimeCodeIsAvailable
    else skip.

Definition getTimeCode : M unit :=
  ok <- setupControl ;;
  if negb ok then skip
  else readTimeCode.

Definition finishCapture : M bool :=
  s <- this ;;
  if status_eqb (Status (Config_Out s)) finished then ret false
  else
    (if Glue s then call Glue_CloseOutput else skip) ;;;
    assign (set_Status finished) ;;;
    ret true.

Definition startCapture : M unit :=
  _ <- cleanupInput ;;
  _ <- setupInput ;;
  ok <- setupInput ;;
  if negb ok then skip
  else
    s <- this ;;
    if TC_in (Config_In s) =? -1 then
      deref m_control NullControl ;;;
      call control_Play ;;;
      _ <- ask Play ;;
      assign (set_Status capturing)
    else
      ok <- setupControl ;;
      if negb ok then skip
      else
        deref m_control NullControl ;;;
        call (control_StartCapture (to_u32 (TC_in (Config_In s)))
                                   (to_u32 (TC_out (Config_In s)))) ;;;
        hr <- ask StartCapture ;;
        if negb (is_S_OK hr) then assign (set_Status finished)
        else assign (set_Status capturing).

Definition stop : M unit :=
  s <- this ;;
  if negb (TC_in (Config_In s) =? -1) then
    deref m_control NullControl ;;;
    call control_Abort ;;;
    _ <- ask Abort ;;
    assign (set_Status aborting)
  else
    deref m_control NullControl ;;;
    call control_Stop ;;;
    _ <- ask Stop ;;
    _ <- finishCapture ;;
    skip.

(** *** Callbacks invoked by the driver *)

Definition TimecodeUpdate (currentTimecode : Z) : M HRESULT := ret S_OK.

Definition DeckControlEventReceived
    (bmdDeckControlEvent : BMDDeckControlEvent)
    (bmdDeckControlError : BMDDeckControlError) : M HRESULT :=
  match bmdDeckControlEvent with
  | bmdDeckControlPrepareForCaptureEvent => skip
  | bmdDeckControlCaptureCompleteEvent => _ <- finishCapture ;; skip
  | bmdDeckControlAbortedEvent => _ <- finishCapture ;; skip
  | _ => _ <- finishCapture ;; skip
  end ;;;
  ret S_OK.

Definition VTRControlStateChanged (newState : Z)
    (error : BMDDeckControlError) : M HRESULT := ret S_OK.

Definition DeckControlStatusChanged
    (bmdDeckControlStatusFlags mask : Z) : M HRESULT :=
  (if negb (Z.land mask bmdDeckControlStatusDeckConnected =? 0)
      && negb (Z.land bmdDeckControlStatusFlags
                      bmdDeckControlStatusDeckConnected =? 0)
   then
     s <- this ;;
     if WantTimeCode s then
       readTimeCode ;;;
       assign (set_WantTimeCode false)
     else skip
   else skip) ;;;
  ret S_OK.

(** The value of [ShouldDecode] when the [if (ShouldDecode)] test of
    [VideoInputFrameArrived] is reached, for a frame whose serial
    timecode is [timecode]. *)
Definition ShouldDecode (s : CaptureHelper) (timecode : option Z) : bool :=
  let ShouldDecode :=
    if negb (FrameCount (Config_In s) =? -1)
       && (m_FramePos s >=? FrameCount (Config_In s))
    then false else true in
  match timecode with
  | Some bcd =>
      let tcBCD := to_u32 bcd in
      if negb (TC_in (Config_In s) =? -1)
         && ((negb (TC_current (Config_Out s) =? -1)
              && (tcBCD =? to_u32 (TC_current (Config_Out s))))
             || (tcBCD <? to_u32 (TC_in (Config_In s)))
             || (tcBCD >=? to_u32 (TC_out (Config_In s))))
      then false else ShouldDecode
  | None =>
      if negb (TC_in (Config_In s) =? -1) then false else ShouldDecode
  end.

Definition VideoInputFrameArrived
    (arrivedVideoFrame : option IDeckLinkVideoInputFrame)
    (arrivedAudioFrame : option IDeckLinkAudioInputPacket) : M HRESULT :=
  s <- this ;;
  if negb (status_eqb (Status (Config_Out s)) capturing) then ret S_OK
  else
    match arrivedVideoFrame with
    | None => fault NullVideoFrame
    | Some video =>
        let timecode := GetTimecode_Serial video in
        match timecode with
        | Some bcd => assign (set_TC_current (to_i32 bcd))
        | None => skip
        end ;;;
        (if ShouldDecode s timecode then
           match arrivedAudioFrame with
           | None => fault NullAudioPacket
           | Some audio =>
               (if Glue s then
                  call (Glue_OutputFrame
                          (Frame_GetBytes video)
                          (GetRowBytes video * Frame_GetHeight video)
                          0 (m_FramePos s)) ;;;
                  call (Glue_OutputFrame
                          (Packet_GetBytes audio)
                          (Z.quot (GetSampleFrameCount audio * 2 * 16) 8)
                          1 (m_FramePos s))
                else skip) ;;;
               assign (fun s => set_m_FramePos (m_FramePos s + 1) s) ;;;
               s <- this ;;
               if negb (FrameCount (Config_In s) =? -1)
                  && (m_FramePos s >=? FrameCount (Config_In s))
               then stop
               else skip
           end
         else skip) ;;;
        ret S_OK
    end.

(** *** Constructor and destructor *)

(** The member initialisers of the constructor. *)
Definition CaptureHelper_init (Config_In_ : config_in)
    (Config_Out_ : config_out) : CaptureHelper :=
  {| m_card := false; m_input := false; m_control := false;
     m_width := -1; m_height := -1;
     m_timeScale := 0; m_frameDuration := 0;
     m_FramePos := 0; Glue := false;
     Config_In := Config_In_; Config_Out := Config_Out_;
     WantTimeCode := false |}.

(** The body of the constructor. *)
Definition CaptureHelper_ctor (CardPos : nat) : M unit :=
  ok <- setupCard CardPos ;;
  if negb ok then skip else skip.

Definition CaptureHelper_dtor : M unit :=
  _ <- finishCapture ;;
  _ <- cleanupControl ;;
  _ <- cleanupInput ;;
  _ <- cleanupCard ;;
  skip.

End Methods.

(** The world in which the constructor body starts. *)
Definition new_world (Config_In_ : config_in) (Config_Out_ : config_out)
  : World :=
  {| self := CaptureHelper_init Config_In_ Config_Out_;
     now := O; calls := [] |}.

(** ** Observations *)

Definition is_OutputFrame (c : Call) : bool :=
  match c with Glue_OutputFrame _ _ _ _ => true | _ => false end.

Definition is_CloseOutput (c : Call) : bool :=
  match c with Glue_CloseOutput => true | _ => false end.

Definition is_stop_request (c : Call) : bool :=
  match c with control_Stop | control_Abort => true | _ => false end.

Definition is_GetTimecode (c : Call) : bool :=
  match c with control_GetTimecode => true | _ => false end.

(** Frame positions handed to the glue with the video buffers. *)
Definition video_positions (l : list Call) : list Z :=
  flat_map (fun c => match c with
                     | Glue_OutputFrame _ _ 0 pos => [pos]
                     | _ => []
                     end) l.

(** The world after a computation, whether it returned or faulted. *)
Definition world_of {A} (o : Outcome A) : World :=
  match o with Returns _ w => w | Faults _ w => w end.

Definition returned {A} (o : Outcome A) : bool :=
  match o with Returns _ _ => true | Faults _ _ => false end.

(** Run a computation and keep the world only. *)
Definition exec {A} (m : M A) (w : World) : World := world_of (m w).

(** The calls made by a computation started in [w]. *)
Definition emitted {A} (m : M A) (w : World) : list Call :=
  skipn (length (calls w)) (calls (exec m w)).

Definition status_of (w : World) : status := Status (Config_Out (self w)).

(** [k] consecutive positions from [p]. *)
Fixpoint positions_from (p : Z) (k : nat) : list Z :=
  match k with
  | O => []
  | S k' => p :: positions_from (p + 1) k'
  end.

(** ** Sequences of notifications and requests *)

(** Frame-arrival notifications delivered one after the other. *)
Fixpoint deliver (hw : Hardware)
    (frames : list (option IDeckLinkVideoInputFrame
                    * option IDeckLinkAudioInputPacket)) : M unit :=
  match frames with
  | [] => skip
  | (video, audio) :: rest =>
      _ <- VideoInputFrameArrived hw video audio ;;
      deliver hw rest
  end.

(** Status-change notifications delivered one after the other. *)
Fixpoint deliver_status (hw : Hardware) (connected : Z)
    (events : list (Z * Z)) : M unit :=
  match events with
  | [] => skip
  | (flags, mask) :: rest =>
      _ <- DeckControlStatusChanged hw connected flags mask ;;
      deliver_status hw connected rest
  end.

(** What can happen to a constructed helper: the caller invokes a
    method, the driver invokes a callback, or the caller writes the
    [config_out] object it shares with the helper. *)
Inductive Op :=
| do_startCapture
| do_stop
| do_getTimeCode
| on_VideoInputFrameArrived (video : option IDeckLinkVideoInputFrame)
                            (audio : option IDeckLinkAudioInputPacket)
| on_DeckControlEventReceived (e : BMDDeckControlEvent)
                              (err : BMDDeckControlError)
| on_DeckControlStatusChanged (flags mask : Z)
| on_TimecodeUpdate (tc : Z)
| on_VTRControlStateChanged (st : Z) (err : BMDDeckControlError)
| caller_writes_Status (st : status).

Definition run_op (hw : Hardware) (connected : Z) (o : Op) : M unit :=
  match o with
  | do_startCapture => startCapture hw
  | do_stop => stop hw
  | do_getTimeCode => getTimeCode hw
  | on_VideoInputFrameArrived v a => _ <- VideoInputFrameArrived hw v a ;; skip
  | on_DeckControlEventReceived e err =>
      _ <- DeckControlEventReceived e err ;; skip
  | on_DeckControlStatusChanged flags mask =>
      _ <- DeckControlStatusChanged hw connected flags mask ;; skip
  | on_TimecodeUpdate tc => _ <- TimecodeUpdate tc ;; skip
  | on_VTRControlStateChanged st err =>
      _ <- VTRControlStateChanged st err ;; skip
  | caller_writes_Status st => assign (set_Status st)
  end.

Fixpoint run (hw : Hardware) (connected : Z) (ops : list Op) : M unit :=
  match ops with
  | [] => skip
  | o :: rest => run_op hw connected o ;;; run hw connected rest
  end.

(** ** Concrete drivers, configurations and frames *)

Definition ntsc : IDeckLinkDisplayMode :=
  {| GetDisplayMode := bmdModeNTSC; GetWidth := 720; GetHeight := 486;
     GetFrameRate := (1001, 30000) |}.

(** A driver that accepts every request and knows the NTSC mode; its
    deck answers timecode queries as told by [tc]. *)
Definition hw_with (startCapture_answer : HRESULT)
    (tc : nat -> HRESULT * BMDDeckControlError * Z) : Hardware :=
  {| CreateDeckLinkIteratorInstance := fun _ => true;
     IDeckLinkIterator_Next := fun _ => (S_OK, true);
     QueryInterface_Attributes := fun _ => S_OK;
     GetInt_VideoInputConnections := fun _ => (S_OK, 3);
     QueryInterface_Configuration := fun _ => S_OK;
     QueryInterface_Input := fun _ => S_OK;
     GetDisplayModeIterator := fun _ => (S_OK, [ntsc]);
     EnableVideoInput := fun _ => S_OK;
     EnableAudioInput := fun _ => S_OK;
     StartStreams := fun _ => S_OK;
     QueryInterface_DeckControl := fun _ => S_OK;
     Open := fun _ => S_OK;
     Play := fun _ => S_OK;
     StartCapture := fun _ => startCapture_answer;
     Abort := fun _ => S_OK;
     Stop := fun _ => S_OK;
     GetTimecode := tc |}.

Definition hw_ok : Hardware :=
  hw_with S_OK (fun _ => (S_OK, bmdDeckControlNoError, 0x01000000)).

(** The deck rejects the bounded capture command. *)
Definition hw_rejecting : Hardware :=
  hw_with E_FAIL (fun _ => (S_OK, bmdDeckControlNoError, 0x01000000)).

(** The deck does not answer the first timecode query and answers the
    later ones. *)
Definition hw_late_deck : Hardware :=
  hw_with S_OK
    (fun t => match t with
              | O => (E_FAIL, bmdDeckControlNoCommunicationError, 0)
              | _ => (S_OK, bmdDeckControlNoError, 0x01000000)
              end).

(** The card has no deck-control interface. *)
Definition hw_without_deck : Hardware :=
  {| CreateDeckLinkIteratorInstance := CreateDeckLinkIteratorInstance hw_ok;
     IDeckLinkIterator_Next := IDeckLinkIterator_Next hw_ok;
     QueryInterface_Attributes := QueryInterface_Attributes hw_ok;
     GetInt_VideoInputConnections := GetInt_VideoInputConnections hw_ok;
     QueryInterface_Configuration := QueryInterface_Configuration hw_ok;
     QueryInterface_Input := QueryInterface_Input hw_ok;
     GetDisplayModeIterator := GetDisplayModeIterator hw_ok;
     EnableVideoInput := EnableVideoInput hw_ok;
     EnableAudioInput := EnableAudioInput hw_ok;
     StartStreams := StartStreams hw_ok;
     QueryInterface_DeckControl := fun _ => E_FAIL;
     Open := Open hw_ok;
     Play := Play hw_ok;
     StartCapture := StartCapture hw_ok;
     Abort := Abort hw_ok;
     Stop := Stop hw_ok;
     GetTimecode := GetTimecode hw_ok |}.

(** The iterator knows one card: its second answer ends the list. *)
Definition hw_one_card : Hardware :=
  {| CreateDeckLinkIteratorInstance := CreateDeckLinkIteratorInstance hw_ok;
     IDeckLinkIterator_Next :=
       fun t => if (t <=? 1)%nat then (S_OK, true) else (S_FALSE, false);
     QueryInterface_Attributes := QueryInterface_Attributes hw_ok;
     GetInt_VideoInputConnections := GetInt_VideoInputConnections hw_ok;
     QueryInterface_Configuration := QueryInterface_Configuration hw_ok;
     QueryInterface_Input := QueryInterface_Input hw_ok;
     GetDisplayModeIterator := GetDisplayModeIterator hw_ok;
     EnableVideoInput := EnableVideoInput hw_ok;
     EnableAudioInput := EnableAudioInput hw_ok;
     StartStreams := StartStreams hw_ok;
     QueryInterface_DeckControl := QueryInterface_DeckControl hw_ok;
     Open := Open hw_ok;
     Play := Play hw_ok;
     StartCapture := StartCapture hw_ok;
     Abort := Abort hw_ok;
     Stop := Stop hw_ok;
     GetTimecode := GetTimecode hw_ok |}.

(** The card refuses to enable the video input. *)
Definition hw_no_video : Hardware :=
  {| CreateDeckLinkIteratorInstance := CreateDeckLinkIteratorInstance hw_ok;
     IDeckLinkIterator_Next := IDeckLinkIterator_Next hw_ok;
     QueryInterface_Attributes := QueryInterface_Attributes hw_ok;
     GetInt_VideoInputConnections := GetInt_VideoInputConnections hw_ok;
     QueryInterface_Configuration := QueryInterface_Configuration hw_ok;
     QueryInterface_Input := QueryInterface_Input hw_ok;
     GetDisplayModeIterator := GetDisplayModeIterator hw_ok;
     EnableVideoInput := fun _ => E_FAIL;
     EnableAudioInput := EnableAudioInput hw_ok;
     StartStreams := StartStreams hw_ok;
     QueryInterface_DeckControl := QueryInterface_DeckControl hw_ok;
     Open := Open hw_ok;
     Play := Play hw_ok;
     StartCapture := StartCapture hw_ok;
     Abort := Abort hw_ok;
     Stop := Stop hw_ok;
     GetTimecode := GetTimecode hw_ok |}.

Definition config (FrameCount_ TC_in_ TC_out_ : Z) : config_in :=
  {| FrameCount := FrameCount_; TC_in := TC_in_; TC_out := TC_out_;
     VideoBitDepth := 8; AudioBitDepth := 16; ChannelsCount := 2;
     DropFrame := true; VideoInputConnection := -1;
     TimeCodeIsAvailable_Callback := true |}.

(** A helper whose sessions are open or not as told. *)
Definition helper_with (card input control glue : bool) (cfg : config_in)
    (st : status) (TC_current_ : Z) (FramePos : Z) : World :=
  {| self := {| m_card := card; m_input := input; m_control := control;
                m_width := 720; m_height := 486;
                m_timeScale := 30000; m_frameDuration := 1001;
                m_FramePos := FramePos; Glue := glue;
                Config_In := cfg;
                Config_Out := {| Status := st; TC_current := TC_current_;
                                 VideoInputConnections := 3 |};
                WantTimeCode := false |};
     now := O; calls := [] |}.

(** A helper with every session open and a glue attached. *)
Definition helper : config_in -> status -> Z -> Z -> World :=
  helper_with true true true true.

Definition video_frame (timecode : option Z) (buffer : nat)
  : IDeckLinkVideoInputFrame :=
  {| GetTimecode_Serial := timecode; GetRowBytes := 1440;
     Frame_GetHeight := 486; Frame_GetBytes := buffer |}.

Definition audio_packet (buffer : nat) : IDeckLinkAudioInputPacket :=
  {| GetSampleFrameCount := 1602; Packet_GetBytes := buffer |}.

(** The world [finishCapture] leaves when the capture was not finished
    yet: the glue, if attached, is told once, the status is written. *)
Definition finished_world (w : World) : World :=
  {| self := set_Status finished (self w);
     now := now w;
     calls := if Glue (self w) then calls w ++ [Glue_CloseOutput]
              else calls w |}.

(** Two calls of [finishCapture] in succession, with both results. *)
Definition finishCapture_twice : M (bool * bool) :=
  first <- finishCapture ;;
  second <- finishCapture ;;
  ret (first, second).

(** The order of teardown stated by the specification, restricted to
    what was acquired: end of capture, deck session, input session,
    device handle. *)
Definition teardown_order (s : CaptureHelper) : list Call :=
  (if status_eqb (Status (Config_Out s)) finished then []
   else if Glue s then [Glue_CloseOutput] else [])
  ++ (if m_control s
      then [control_Close false; control_SetCallback false; control_Release]
      else [])
  ++ (if m_input s
      then [input_StopStreams; input_DisableVideoInput;
            input_SetCallback false; input_Release]
      else [])
  ++ (if m_card s then [card_Release] else []).

(** The object after teardown. *)
Definition torn_down (s : CaptureHelper) : CaptureHelper :=
  set_m_card false
    (set_m_input false (set_m_control false (set_Status finished s))).

(** A status event reports the deck as connected: the flag is set both
    in the mask and in the flags. *)
Definition reports_connected (connected flags mask : Z) : bool :=
  negb (Z.land mask connected =? 0) && negb (Z.land flags connected =? 0).

(** The update of [Config_Out->TC_current] made for a frame that
    carries a timecode. *)
Definition observe_timecode (timecode : option Z) (s : CaptureHelper)
  : CaptureHelper :=
  match timecode with
  | Some bcd => set_TC_current (to_i32 bcd) s
  | None => s
  end.

(** The two calls that hand an accepted frame to the glue. *)
Definition forwarding (FramePos : Z) (video : IDeckLinkVideoInputFrame)
    (audio : IDeckLinkAudioInputPacket) : list Call :=
  [Glue_OutputFrame (Frame_GetBytes video)
                    (GetRowBytes video * Frame_GetHeight video) 0 FramePos;
   Glue_OutputFrame (Packet_GetBytes audio)
                    (Z.quot (GetSampleFrameCount audio * 2 * 16) 8) 1 FramePos].

(** The world right after an accepted frame was handed over and
    counted, before the frame-count test. *)
Definition forwarded_world (w : World) (video : IDeckLinkVideoInputFrame)
    (audio : IDeckLinkAudioInputPacket) : World :=
  {| self := set_m_FramePos (m_FramePos (self w) + 1)
               (observe_timecode (GetTimecode_Serial video) (self w));
     now := now w;
     calls := if Glue (self w)
              then calls w ++ forwarding (m_FramePos (self w)) video audio
              else calls w |}.

(** The world after a discarded frame. *)
Definition discarded_world (w : World) (video : IDeckLinkVideoInputFrame)
  : World :=
  {| self := observe_timecode (GetTimecode_Serial video) (self w);
     now := now w; calls := calls w |}.

(** The frame-count test made after an accepted frame. *)
Definition limit_reached (s : CaptureHelper) : bool :=
  negb (FrameCount (Config_In s) =? -1)
  && (m_FramePos s >=? FrameCount (Config_In s)).

(** The world after a timecode query that the deck did not answer
    for lack of communication. *)
Definition pending_world (w : World) : World :=
  {| self := set_TC_current (-1) (set_WantTimeCode true (self w));
     now := S (now w);
     calls := calls w ++ [control_GetTimecode] |}.

(** The frame-count scenario in the words of the specification: three
    frames arrive, exactly two are forwarded, the third one triggers the
    stop request, and the status ends [finished]. *)
Definition third_frame_triggers_stop (hw : Hardware) (w : World)
    (f1 f2 f3 : option IDeckLinkVideoInputFrame
                * option IDeckLinkAudioInputPacket) : Prop :=
  length (video_positions (emitted (deliver hw [f1; f2; f3]) w)) = 2%nat /\
  existsb is_stop_request
          (emitted (VideoInputFrameArrived hw (fst f3) (snd f3))
                   (exec (deliver hw [f1; f2]) w)) = true /\
  status_of (exec (deliver hw [f1; f2; f3]) w) = finished.

(** The counter, the glue and the positions handed over so far are the
    same in both worlds. *)
Definition keeps_counter (w w' : World) : Prop :=
  m_FramePos (self w') = m_FramePos (self w) /\
  Glue (self w') = Glue (self w) /\
  video_positions (calls w') = video_positions (calls w).

(** From [w] to [w'] some number [k] of frames were counted and, with a
    glue attached, handed over at [k] consecutive positions starting at
    the counter of [w]. *)
Definition counts_on (w w' : World) : Prop :=
  Glue (self w') = Glue (self w) /\
  exists k : nat,
    m_FramePos (self w') = m_FramePos (self w) + Z.of_nat k /\
    (Glue (self w) = true ->
     video_positions (calls w')
     = video_positions (calls w) ++ positions_from (m_FramePos (self w)) k).

Definition keeps_status (w w' : World) : Prop := status_of w' = status_of w.

(** A computation that relates every world to the world it leaves,
    whether it returns or faults. *)
Definition respects (R : World -> World -> Prop) {A} (m : M A) : Prop :=
  forall w, R w (world_of (m w)).


(** In the words of the specification: when the deck rejects the
    capture-start command, the status is left at idle. *)
Definition rejected_start_leaves_idle (hw : Hardware) (w : World) : Prop :=
  status_of w = idle ->
  (forall n, is_S_OK (StartCapture hw n) = false) ->
  status_of (exec (startCapture hw) w) = idle.

(** ** The remaining functions of the unit *)

(** *** Texts for the log *)

Definition BMDDeckControlError2String (e : BMDDeckControlError)
  : String.string :=
  match e with
  | bmdDeckControlNoError => ""
  | bmdDeckControlModeError => "Incorrect mode"
  | bmdDeckControlMissedInPointError => "Missed InPoint"
  | bmdDeckControlDeckTimeoutError => "Deck timeout"
  | bmdDeckControlCommandFailedError => "Command failed"
  | bmdDeckControlDeviceAlreadyOpenedError => "Device already opened"
  | bmdDeckControlFailedToOpenDeviceError => "Failed to open device"
  | bmdDeckControlInLocalModeError => "In local mode"
  | bmdDeckControlEndOfTapeError => "End of tape"
  | bmdDeckControlUserAbortError => "User abort"
  | bmdDeckControlNoTapeInDeckError => "No tape"
  | bmdDeckControlNoVideoFromCardError => "No video from card"
  | bmdDeckControlNoCommunicationError => "No communication"
  | bmdDeckControlUnknownError => "Unknown"
  | bmdDeckControlReservedError _ => "Reserved"
  end%string.

(** The four flags of [BMDDeckControlStatusFlags]; their values are
    declared outside the sources. *)
Record StatusFlagBits := {
  bmdDeckControlStatusDeckConnected : Z;
  bmdDeckControlStatusRemoteMode : Z;
  bmdDeckControlStatusRecordInhibited : Z;
  bmdDeckControlStatusCassetteOut : Z
}.

(** The test [flags & bit] of the C++ code. *)
Definition flag_set (flags bit : Z) : bool := negb (Z.land flags bit =? 0).

Definition BMDDeckControlStatusFlags2String (bits : StatusFlagBits)
    (bmdDeckControlStatusFlags : Z) : String.string :=
  let ToReturn := ""%string in
  let ToReturn :=
    String.append ToReturn
      (if flag_set bmdDeckControlStatusFlags
                   (bmdDeckControlStatusDeckConnected bits)
       then "Deck connected, " else "Deck disconnected, ")%string in
  let ToReturn :=
    String.append ToReturn
      (if flag_set bmdDeckControlStatusFlags
                   (bmdDeckControlStatusRemoteMode bits)
       then "Remote mode, " else "Local mode, ")%string in
  let ToReturn :=
    String.append ToReturn
      (if flag_set bmdDeckControlStatusFlags
                   (bmdDeckControlStatusRecordInhibited bits)
       then "Record inhibited, " else "Record allowed, ")%string in
  let ToReturn :=
    String.append ToReturn
      (if flag_set bmdDeckControlStatusFlags
                   (bmdDeckControlStatusCassetteOut bits)
       then "Cassette out" else "Cassette in")%string in
  ToReturn.

Definition BMDDeckControlEvent2String (e : BMDDeckControlEvent)
  : String.string :=
  match e with
  | bmdDeckControlAbortedEvent => "Abort"
  | bmdDeckControlPrepareForExportEvent => "Prepare for export"
  | bmdDeckControlPrepareForCaptureEvent => "Prepare for capture"
  | bmdDeckControlExportCompleteEvent => "Export complete"
  | bmdDeckControlCaptureCompleteEvent => "Capture complete"
  | bmdDeckControlReservedEvent _ => "Reserved"
  end%string.

Inductive BMDDeckControlVTRControlState :=
| bmdDeckControlNotInVTRControlMode
| bmdDeckControlVTRControlPlaying
| bmdDeckControlVTRControlRecording
| bmdDeckControlVTRControlStill
| bmdDeckControlVTRControlShuttleForward
| bmdDeckControlVTRControlShuttleReverse
| bmdDeckControlVTRControlJogForward
| bmdDeckControlVTRControlJogReverse
| bmdDeckControlVTRControlStopped
| bmdDeckControlVTRControlReserved (code : Z).

Definition BMDDeckControlVTRControlState2String
    (st : BMDDeckControlVTRControlState) : String.string :=
  match st with
  | bmdDeckControlNotInVTRControlMode => "Not in VTR mode"
  | bmdDeckControlVTRControlPlaying => "Play"
  | bmdDeckControlVTRControlRecording => "Record"
  | bmdDeckControlVTRControlStill => "Still"
  | bmdDeckControlVTRControlShuttleForward => "Shuttle forward"
  | bmdDeckControlVTRControlShuttleReverse => "Shuttle reverse"
  | bmdDeckControlVTRControlJogForward => "Jog forward"
  | bmdDeckControlVTRControlJogReverse => "Jog reverse"
  | bmdDeckControlVTRControlStopped => "Stop"
  | bmdDeckControlVTRControlReserved _ => "Reserved"
  end%string.

(** *** The list of cards *)

(** The [for (;;)] loop of [DeckLinkCardsList].  Nothing bounds the
    number of turns, so the loop runs on [fuel] and gives [None] when
    the fuel is used up before the iterator answers [S_FALSE] or
    [E_FAIL].  [GetModelName] is [Some] answer table in the build for
    macOS (the name when the call succeeds there) and [None] in the
    other builds, where every entry is the text DeckLink. *)
Fixpoint DeckLinkCardsList_loop (hw : Hardware)
    (GetModelName : option (nat -> option String.string))
    (fuel : nat) (List : list String.string)
  : M (option (list String.string)) :=
  match fuel with
  | O => ret None
  | S fuel' =>
      r <- ask hw IDeckLinkIterator_Next ;;
      match fst r with
      | E_FAIL => ret (Some List)
      | S_FALSE => ret (Some List)
      | _ =>
          match GetModelName with
          | Some names =>
              (if snd r then skip else fault NullCard) ;;;
              deviceName <- ask hw (fun _ => names) ;;
              DeckLinkCardsList_loop hw GetModelName fuel'
                (List ++ [match deviceName with
                          | Some name => name
                          | None => "DeckLink"%string
                          end])
          | None =>
              DeckLinkCardsList_loop hw GetModelName fuel'
                (List ++ ["DeckLink"%string])
          end
      end
  end.

Definition DeckLinkCardsList (hw : Hardware)
    (GetModelName : option (nat -> option String.string)) (fuel : nat)
  : M (option (list String.string)) :=
  deckLinkIter <- ask hw CreateDeckLinkIteratorInstance ;;
  if negb deckLinkIter then ret (Some [])
  else DeckLinkCardsList_loop hw GetModelName fuel [].

(** *** More observations *)

(** The iterator goes on after this answer of [Next]. *)
Definition goes_on (hr : HRESULT) : bool :=
  match hr with E_FAIL | S_FALSE => false | _ => true end.

(** The buffers handed to the glue as video, in order. *)
Definition video_buffers (l : list Call) : list nat :=
  flat_map (fun c => match c with
                     | Glue_OutputFrame buffer _ 0 _ => [buffer]
                     | _ => []
                     end) l.

Definition count_calls (p : Call -> bool) (l : list Call) : nat :=
  length (filter p l).

Definition is_AddRef (c : Call) : bool :=
  match c with card_AddRef => true | _ => false end.

Definition is_Release (c : Call) : bool :=
  match c with card_Release => true | _ => false end.

Definition is_StartStreams (c : Call) : bool :=
  match c with input_StartStreams => true | _ => false end.

(** The status is idle in the later world only if it was in the
    earlier one. *)
Definition never_back_to_idle (w w' : World) : Prop :=
  status_of w' = idle -> status_of w = idle.

(** The calls made so far are kept, new ones are added at the end, and
    the clock does not go back. *)
Definition extends (w w' : World) : Prop :=
  (exists l, calls w' = calls w ++ l) /\ (now w <= now w')%nat.

(** The fields read by [proj] are the same in both worlds, and the
    later world has the calls of the earlier one followed by calls that
    all pass [ok]. *)
Definition keeps {T : Type} (proj : CaptureHelper -> T) (ok : Call -> bool)
    (w w' : World) : Prop :=
  proj (self w') = proj (self w) /\
  exists l, calls w' = calls w ++ l /\ forallb ok l = true.

(** Calls on the input and deck-control interfaces that open or close
    a session. *)
Definition is_session_call (c : Call) : bool :=
  match c with
  | input_SetCallback _ | input_EnableVideoInput _
  | input_EnableAudioInput _ _ | input_StartStreams | input_StopStreams
  | input_DisableVideoInput | input_Release
  | control_SetCallback _ | control_Open _ _ _ => true
  | _ => false
  end.

(** What the capture itself works with: configuration, status and
    timecode, counter, glue, pending request, card. *)
Definition capture_state (s : CaptureHelper) :=
  (Config_In s, Config_Out s, m_FramePos s, Glue s, WantTimeCode s, m_card s).

(** The three session pointers and the configuration. *)
Definition sessions (s : CaptureHelper) :=
  (m_card s, m_input s, m_control s, Config_In s, Glue s).

Definition any_call (c : Call) : bool := true.

(** The world after [n] answers of the driver and nothing else. *)
Definition tick (w : World) (n : nat) : World :=
  {| self := self w; now := (now w + n)%nat; calls := calls w |}.

(** Frames that arrive with their audio packet, as the driver hands
    them over. *)
Definition with_audio
    (frames : list (IDeckLinkVideoInputFrame * IDeckLinkAudioInputPacket))
  : list (option IDeckLinkVideoInputFrame * option IDeckLinkAudioInputPacket) :=
  map (fun f => (Some (fst f), Some (snd f))) frames.

(** Frames that arrive with or without audio packet. *)
Definition with_video
    (frames : list (IDeckLinkVideoInputFrame
                    * option IDeckLinkAudioInputPacket))
  : list (option IDeckLinkVideoInputFrame * option IDeckLinkAudioInputPacket) :=
  map (fun f => (Some (fst f), snd f)) frames.

(** The calls that hand over all of [frames], one position each,
    counting from [FramePos]. *)
Fixpoint forwarding_all (FramePos : Z)
    (frames : list (IDeckLinkVideoInputFrame * IDeckLinkAudioInputPacket))
  : list Call :=
  match frames with
  | [] => []
  | f :: rest =>
      forwarding FramePos (fst f) (snd f) ++ forwarding_all (FramePos + 1) rest
  end.

(** The frame carries a timecode within [tcIn, tcOut[. *)
Definition in_window (tcIn tcOut : Z)
    (f : IDeckLinkVideoInputFrame * IDeckLinkAudioInputPacket) : bool :=
  match GetTimecode_Serial (fst f) with
  | Some T => (tcIn <=? T) && (T <? tcOut)
  | None => false
  end.

(** Every frame carries a timecode below 2^31, the first one above
    [cur], each next one above the one before. *)
Fixpoint increasing_from (cur : Z)
    (frames : list (IDeckLinkVideoInputFrame * IDeckLinkAudioInputPacket))
  : bool :=
  match frames with
  | [] => true
  | f :: rest =>
      match GetTimecode_Serial (fst f) with
      | Some T => (cur <? T) && (0 <=? T) && (T <? 2 ^ 31)
                  && increasing_from T rest
      | None => false
      end
  end.

(** No frame carries a timecode. *)
Definition without_timecode
    (frames : list (IDeckLinkVideoInputFrame
                    * option IDeckLinkAudioInputPacket)) : bool :=
  forallb (fun f => match GetTimecode_Serial (fst f) with
                    | None => true
                    | Some _ => false
                    end) frames.

(** *** A helper in use *)

Definition set_Glue (v : bool) (s : CaptureHelper) : CaptureHelper :=
  {| m_card := m_card s; m_input := m_input s; m_control := m_control s;
     m_width := m_width s; m_height := m_height s;
     m_timeScale := m_timeScale s; m_frameDuration := m_frameDuration s;
     m_FramePos := m_FramePos s; Glue := v;
     Config_In := Config_In s; Config_Out := Config_Out s;
     WantTimeCode := WantTimeCode s |}.

(** Modelled from the spec: the frame sink is supplied by the caller
    and valid for the lifetime of the helper.  The constructor leaves
    the public member [Glue] null and no function of the unit writes
    it; the code that stores the pointer is not part of the sources.
    The caller's store is placed right after the constructor. *)
Definition attach_glue (w : World) : World :=
  {| self := set_Glue true (self w); now := now w; calls := calls w |}.

(** The helper as the caller holds it after construction on card
    [CardPos], with its frame sink. *)
Definition constructed (hw : Hardware) (CardPos : nat)
    (Config_In_ : config_in) (Config_Out_ : config_out) : World :=
  attach_glue (exec (CaptureHelper_ctor hw CardPos)
                    (new_world Config_In_ Config_Out_)).


(** The later world is idle only if the earlier one was, and then
    nothing was counted or handed over in between. *)
Definition idle_means_untouched (w w' : World) : Prop :=
  status_of w' = idle -> status_of w = idle /\ keeps_counter w w'.

(** *** What the driver must answer for the input to open *)

(** The answers [setupInput] asks for, from the [n]-th answer of the
    driver on, all say yes: input interface, mode iterator, an NTSC
    mode with a width, video input, audio input, streams. *)
Definition input_granted (hw : Hardware) (n : nat) : bool :=
  is_S_OK (QueryInterface_Input hw n)
  && is_S_OK (fst (GetDisplayModeIterator hw (1 + n)))
  && match find (fun d => is_bmdModeNTSC (GetDisplayMode d))
                (snd (GetDisplayModeIterator hw (1 + n))) with
     | Some d => negb (GetWidth d =? -1)
     | None => false
     end
  && is_S_OK (EnableVideoInput hw (2 + n))
  && is_S_OK (EnableAudioInput hw (3 + n))
  && is_S_OK (StartStreams hw (4 + n)).

(** The deck control is open already, or the driver grants the
    interface and opens the connection with its next two answers. *)
Definition control_granted (hw : Hardware) (s : CaptureHelper) (n : nat)
  : bool :=
  m_control s
  || (is_S_OK (QueryInterface_DeckControl hw n) && is_S_OK (Open hw (1 + n))).

(** The timecode lies in the capture window and is not the one
    observed last. *)
Definition inside_window (s : CaptureHelper) (T last : Z) : Prop :=
  TC_in (Config_In s) <= T < TC_out (Config_In s) /\ T <> last.

(** No frame limit is configured, or the counter is below it. *)
Definition below_limit (s : CaptureHelper) : Prop :=
  FrameCount (Config_In s) = -1 \/ m_FramePos s < FrameCount (Config_In s).

(** ** Basic facts *)

Lemma status_eqb_eq (a b : status) : status_eqb a b = true <-> a = b.
Proof. destruct a, b; simpl; split; congruence. Qed.

Lemma status_eqb_neq (a b : status) : status_eqb a b = false <-> a <> b.
Proof. destruct a, b; simpl; split; congruence. Qed.

Lemma world_eta (w : World) :
  {| self := self w; now := now w; calls := calls w |} = w.
Proof. destruct w; reflexivity. Qed.

Arguments ShouldDecode : simpl never.
Arguments to_u32 : simpl never.
Arguments to_i32 : simpl never.

Ltac unfold_monad :=
  unfold bind, this, assign, call, skip, ret, fault, deref, ask in *.

Ltac run_monad := unfold_monad; cbn -[to_u32 to_i32 Z.quot Z.mul Z.add] in *.

Lemma finishCapture_finished (w : World) :
  status_of w = finished -> finishCapture w = Returns false w.
Proof.
  unfold status_of, finishCapture. intros H. run_monad.
  rewrite H. reflexivity.
Qed.

Lemma finishCapture_pending (w : World) :
  status_of w <> finished -> finishCapture w = Returns true (finished_world w).
Proof.
  unfold status_of, finishCapture, finished_world. intros H. run_monad.
  apply status_eqb_neq in H. rewrite H.
  destruct (Glue (self w)); reflexivity.
Qed.

Lemma finished_world_status (w : World) : status_of (finished_world w) = finished.
Proof. reflexivity. Qed.

Lemma frame_outside_capturing (hw : Hardware) (w : World)
    (video : option IDeckLinkVideoInputFrame)
    (audio : option IDeckLinkAudioInputPacket) :
  status_of w <> capturing ->
  VideoInputFrameArrived hw video audio w = Returns S_OK w.
Proof.
  intros Hst. unfold VideoInputFrameArrived. run_monad.
  apply status_eqb_neq in Hst. unfold status_of in Hst. rewrite Hst.
  reflexivity.
Qed.

(** ** C2: frames outside [capturing] *)

(** C2. Whenever the status is not [capturing], a frame-arrival
    notification returns at once and leaves the whole world as it was:
    no call reaches the glue and [m_FramePos] keeps its value; the same
    holds for any sequence of notifications, whatever the frames are
    (even null ones). *)
Theorem frames_outside_capturing_are_dropped
    (hw : Hardware) (w : World)
    (frames : list (option IDeckLinkVideoInputFrame
                    * option IDeckLinkAudioInputPacket)) :
  status_of w <> capturing ->
  (forall video audio,
      VideoInputFrameArrived hw video audio w = Returns S_OK w) /\
  deliver hw frames w = Returns tt w /\
  emitted (deliver hw frames) w = [] /\
  m_FramePos (self (exec (deliver hw frames) w)) = m_FramePos (self w).
Proof.
  intros Hst.
  assert (One : forall video audio,
             VideoInputFrameArrived hw video audio w = Returns S_OK w).
  { intros video audio. apply frame_outside_capturing, Hst. }
  assert (All : deliver hw frames w = Returns tt w).
  { induction frames as [|[video audio] rest IH]; simpl.
    - reflexivity.
    - unfold bind. rewrite One. exact IH. }
  split; [exact One|]. split; [exact All|].
  unfold emitted, exec. rewrite All. simpl.
  split; [apply skipn_all|reflexivity].
Qed.

Lemma frames_outside_capturing_are_dropped_witness :
  status_of (helper (config (-1) (-1) (-1)) finished (-1) 2) <> capturing /\
  deliver hw_ok [(Some (video_frame (Some 5) 1), Some (audio_packet 2));
                 (None, None)]
          (helper (config (-1) (-1) (-1)) finished (-1) 2)
  = Returns tt (helper (config (-1) (-1) (-1)) finished (-1) 2).
Proof.
  assert (H : status_of (helper (config (-1) (-1) (-1)) finished (-1) 2)
              <> capturing) by (vm_compute; discriminate).
  split; [exact H|].
  apply (frames_outside_capturing_are_dropped hw_ok _ _ H).
Defined.

(** ** C6: [finishCapture] *)

(** C6. [finishCapture] on a finished capture changes nothing and
    returns [false]; otherwise it returns [true], writes [finished] and
    tells the attached glue once ([CloseOutput]).  Called twice in
    succession on an unfinished capture with a glue attached, the first
    call returns [true], the second [false], exactly one [CloseOutput]
    is emitted and the status is [finished] after each call. *)
Theorem finishCapture_idempotent (w : World) :
  (status_of w = finished -> finishCapture w = Returns false w) /\
  (status_of w <> finished ->
   finishCapture w = Returns true (finished_world w) /\
   status_of (finished_world w) = finished /\
   finishCapture (finished_world w) = Returns false (finished_world w) /\
   finishCapture_twice w = Returns (true, false) (finished_world w) /\
   (Glue (self w) = true ->
    emitted finishCapture_twice w = [Glue_CloseOutput] /\
    emitted finishCapture w = [Glue_CloseOutput])).
Proof.
  split; [apply finishCapture_finished|].
  intros H.
  pose proof (finishCapture_pending w H) as First.
  pose proof (finishCapture_finished (finished_world w) eq_refl) as Second.
  assert (Twice : finishCapture_twice w = Returns (true, false) (finished_world w)).
  { unfold finishCapture_twice, bind. rewrite First, Second. reflexivity. }
  repeat split; try assumption.
  - unfold emitted, exec. rewrite Twice. simpl. intros. 
    match goal with G : Glue _ = true |- _ => rewrite G end.
    rewrite skipn_app, skipn_all, Nat.sub_diag. reflexivity.
  - unfold emitted, exec. rewrite First. simpl.
    match goal with G : Glue _ = true |- _ => rewrite G end.
    rewrite skipn_app, skipn_all, Nat.sub_diag. reflexivity.
Qed.

Lemma finishCapture_idempotent_witness :
  status_of (helper (config (-1) (-1) (-1)) capturing (-1) 0) <> finished /\
  finishCapture_twice (helper (config (-1) (-1) (-1)) capturing (-1) 0)
  = Returns (true, false)
      (finished_world (helper (config (-1) (-1) (-1)) capturing (-1) 0)) /\
  emitted finishCapture_twice (helper (config (-1) (-1) (-1)) capturing (-1) 0)
  = [Glue_CloseOutput].
Proof.
  assert (H : status_of (helper (config (-1) (-1) (-1)) capturing (-1) 0)
              <> finished) by (vm_compute; discriminate).
  destruct (finishCapture_idempotent
              (helper (config (-1) (-1) (-1)) capturing (-1) 0)) as [_ P].
  destruct (P H) as (_ & _ & _ & Twice & Once).
  split; [exact H|]. split; [exact Twice|].
  exact (proj1 (Once eq_refl)).
Defined.

(** ** C10: deck-control events *)

(** C10. [DeckControlEventReceived] leaves the world untouched for the
    prepare-for-capture event and runs [finishCapture] for every other
    event (capture complete, aborted, prepare for export, export
    complete, any other code): when the status is not [finished] the
    status becomes [finished] and the attached glue receives
    [CloseOutput]. *)
Theorem deck_events_finish_capture
    (e : BMDDeckControlEvent) (err : BMDDeckControlError) (w : World) :
  (e = bmdDeckControlPrepareForCaptureEvent ->
   DeckControlEventReceived e err w = Returns S_OK w) /\
  (e <> bmdDeckControlPrepareForCaptureEvent ->
   DeckControlEventReceived e err w = (finishCapture ;;; ret S_OK) w /\
   (status_of w = finished ->
    DeckControlEventReceived e err w = Returns S_OK w) /\
   (status_of w <> finished ->
    DeckControlEventReceived e err w = Returns S_OK (finished_world w) /\
    status_of (exec (DeckControlEventReceived e err) w) = finished /\
    (Glue (self w) = true ->
     emitted (DeckControlEventReceived e err) w = [Glue_CloseOutput]))).
Proof.
  split.
  - intros ->. reflexivity.
  - intros Hne.
    assert (E : DeckControlEventReceived e err w = (finishCapture ;;; ret S_OK) w).
    { destruct e; try congruence; unfold DeckControlEventReceived, bind, skip, ret;
        destruct (finishCapture w); reflexivity. }
    split; [exact E|]. split.
    + intros Hf. rewrite E. unfold bind. rewrite (finishCapture_finished w Hf).
      reflexivity.
    + intros Hf.
      assert (R : DeckControlEventReceived e err w = Returns S_OK (finished_world w)).
      { rewrite E. unfold bind. rewrite (finishCapture_pending w Hf). reflexivity. }
      split; [exact R|]. unfold emitted, exec. rewrite R. simpl.
      split; [reflexivity|]. intros G. rewrite G.
      rewrite skipn_app, skipn_all, Nat.sub_diag. reflexivity.
Qed.

Lemma deck_events_finish_capture_witness :
  bmdDeckControlExportCompleteEvent <> bmdDeckControlPrepareForCaptureEvent /\
  status_of (helper (config (-1) 1 2) capturing (-1) 0) <> finished /\
  status_of (exec (DeckControlEventReceived
                     bmdDeckControlExportCompleteEvent bmdDeckControlNoError)
                  (helper (config (-1) 1 2) capturing (-1) 0)) = finished /\
  emitted (DeckControlEventReceived
             bmdDeckControlExportCompleteEvent bmdDeckControlNoError)
          (helper (config (-1) 1 2) capturing (-1) 0) = [Glue_CloseOutput].
Proof.
  assert (He : bmdDeckControlExportCompleteEvent
               <> bmdDeckControlPrepareForCaptureEvent) by discriminate.
  assert (Hs : status_of (helper (config (-1) 1 2) capturing (-1) 0)
               <> finished) by (vm_compute; discriminate).
  destruct (deck_events_finish_capture bmdDeckControlExportCompleteEvent
              bmdDeckControlNoError
              (helper (config (-1) 1 2) capturing (-1) 0)) as [_ P].
  destruct (P He) as (_ & _ & Q).
  destruct (Q Hs) as (_ & St & Em).
  split; [exact He|]. split; [exact Hs|]. split; [exact St|].
  exact (Em eq_refl).
Defined.

(** ** The frame-arrival callback, case by case *)

Lemma frame_discarded (hw : Hardware) (w : World)
    (video : IDeckLinkVideoInputFrame)
    (audio : option IDeckLinkAudioInputPacket) :
  status_of w = capturing ->
  ShouldDecode (self w) (GetTimecode_Serial video) = false ->
  VideoInputFrameArrived hw (Some video) audio w
  = Returns S_OK (discarded_world w video).
Proof.
  unfold status_of, VideoInputFrameArrived, discarded_world.
  intros Hst Hsd. run_monad. rewrite Hst. cbn.
  destruct (GetTimecode_Serial video); cbn; rewrite Hsd; cbn;
    try reflexivity.
  rewrite world_eta. reflexivity.
Qed.

Lemma frame_accepted (hw : Hardware) (w : World)
    (video : IDeckLinkVideoInputFrame) (audio : IDeckLinkAudioInputPacket) :
  status_of w = capturing ->
  ShouldDecode (self w) (GetTimecode_Serial video) = true ->
  VideoInputFrameArrived hw (Some video) (Some audio) w
  = ((if limit_reached (self (forwarded_world w video audio))
      then stop hw else skip) ;;; ret S_OK)
      (forwarded_world w video audio).
Proof.
  unfold status_of, VideoInputFrameArrived, forwarded_world, forwarding,
    limit_reached.
  intros Hst Hsd. run_monad. rewrite Hst. cbn.
  destruct (GetTimecode_Serial video); cbn -[Z.mul Z.add Z.quot];
    rewrite Hsd; cbn -[Z.mul Z.add Z.quot];
    destruct (Glue (self w)); cbn -[Z.mul Z.add Z.quot];
    rewrite <- ?app_assoc; reflexivity.
Qed.

Lemma frame_accepted_without_audio (hw : Hardware) (w : World)
    (video : IDeckLinkVideoInputFrame) :
  status_of w = capturing ->
  ShouldDecode (self w) (GetTimecode_Serial video) = true ->
  VideoInputFrameArrived hw (Some video) None w
  = Faults NullAudioPacket (discarded_world w video).
Proof.
  unfold status_of, VideoInputFrameArrived, discarded_world.
  intros Hst Hsd. run_monad. rewrite Hst. cbn.
  destruct (GetTimecode_Serial video); cbn; rewrite Hsd; cbn;
    try reflexivity.
  rewrite world_eta. reflexivity.
Qed.

(** ** C9: an accepted frame without audio packet *)

(** C9, evaluated on the code.  An accepted frame that arrives with an
    audio packet is handed to the glue as two calls tagged with the
    current [m_FramePos]; an accepted frame that arrives without audio
    packet makes the callback dereference the null packet: it faults
    before any call to the glue, so that neither buffer is forwarded and
    the frame is not counted. *)
Theorem accepted_frame_without_audio_faults
    (hw : Hardware) (w : World) (video : IDeckLinkVideoInputFrame) :
  status_of w = capturing ->
  ShouldDecode (self w) (GetTimecode_Serial video) = true ->
  VideoInputFrameArrived hw (Some video) None w
  = Faults NullAudioPacket (discarded_world w video) /\
  emitted (VideoInputFrameArrived hw (Some video) None) w = [] /\
  m_FramePos (self (exec (VideoInputFrameArrived hw (Some video) None) w))
  = m_FramePos (self w) /\
  (forall audio,
      Glue (self w) = true ->
      firstn 2 (emitted (VideoInputFrameArrived hw (Some video) (Some audio)) w)
      = forwarding (m_FramePos (self w)) video audio).
Proof.
  intros Hst Hsd.
  pose proof (frame_accepted_without_audio hw w video Hst Hsd) as F.
  split; [exact F|].
  unfold emitted, exec. rewrite F. simpl.
  split; [apply skipn_all|].
  split; [destruct (GetTimecode_Serial video); reflexivity|].
  intros audio G.
  rewrite (frame_accepted hw w video audio Hst Hsd).
  assert (Grow : forall m : M unit,
             (forall w0, exists l, calls (world_of (m w0)) = calls w0 ++ l) ->
             exists l, calls (world_of ((m ;;; ret S_OK)
                                          (forwarded_world w video audio)))
                       = (calls w ++ forwarding (m_FramePos (self w)) video audio)
                           ++ l).
  { intros m Hm.
    destruct (Hm (forwarded_world w video audio)) as [l Hl].
    exists l. unfold bind, ret.
    destruct (m (forwarded_world w video audio)); simpl in *;
      rewrite Hl; simpl; rewrite G; reflexivity. }
  assert (Stop : forall w0, exists l,
               calls (world_of (stop hw w0)) = calls w0 ++ l).
  { intros w0. unfold stop, finishCapture. run_monad.
    destruct (TC_in (Config_In (self w0)) =? -1); cbn;
      destruct (m_control (self w0)); cbn;
      try (exists []; rewrite app_nil_r; reflexivity).
    - destruct (status_eqb (Status (Config_Out (self w0))) finished); cbn.
      + exists [control_Stop]. reflexivity.
      + destruct (Glue (self w0)); cbn.
        * exists [control_Stop; Glue_CloseOutput].
          rewrite <- app_assoc. reflexivity.
        * exists [control_Stop]. reflexivity.
    - exists [control_Abort]. reflexivity. }
  assert (Skip : forall w0, exists l,
               calls (world_of (skip w0)) = calls w0 ++ l).
  { intros w0. exists []. simpl. rewrite app_nil_r. reflexivity. }
  destruct (limit_reached (self (forwarded_world w video audio)));
    [destruct (Grow _ Stop) as [l Hl] | destruct (Grow _ Skip) as [l Hl]];
    rewrite Hl, <- app_assoc, skipn_app, skipn_all, Nat.sub_diag;
    reflexivity.
Qed.

Lemma accepted_frame_without_audio_faults_witness :
  status_of (helper (config (-1) (-1) (-1)) capturing (-1) 0) = capturing /\
  ShouldDecode (self (helper (config (-1) (-1) (-1)) capturing (-1) 0))
               (GetTimecode_Serial (video_frame (Some 5) 1)) = true /\
  VideoInputFrameArrived hw_ok (Some (video_frame (Some 5) 1)) None
                         (helper (config (-1) (-1) (-1)) capturing (-1) 0)
  = Faults NullAudioPacket
      (discarded_world (helper (config (-1) (-1) (-1)) capturing (-1) 0)
                       (video_frame (Some 5) 1)).
Proof.
  split; [reflexivity|]. split; [reflexivity|].
  apply (accepted_frame_without_audio_faults hw_ok
           (helper (config (-1) (-1) (-1)) capturing (-1) 0)
           (video_frame (Some 5) 1)); reflexivity.
Defined.

(** ** C7: teardown *)

Lemma cleanupControl_closed (hw : Hardware) (w : World) :
  m_control (self w) = false -> cleanupControl hw w = Returns true w.
Proof. intros H. unfold cleanupControl. run_monad. rewrite H. reflexivity. Qed.

Lemma cleanupInput_closed (w : World) :
  m_input (self w) = false -> cleanupInput w = Returns true w.
Proof. intros H. unfold cleanupInput. run_monad. rewrite H. reflexivity. Qed.

Lemma cleanupCard_closed (w : World) :
  m_card (self w) = false -> cleanupCard w = Returns true w.
Proof. intros H. unfold cleanupCard. run_monad. rewrite H. reflexivity. Qed.

Lemma dtor_world (hw : Hardware) (w : World) :
  CaptureHelper_dtor hw w
  = Returns tt {| self := torn_down (self w); now := now w;
                  calls := calls w ++ teardown_order (self w) |}.
Proof.
  destruct w as [s n c]. destruct s as [card input control ? ? ? ? ? glue ? [st ? ?] ?].
  unfold CaptureHelper_dtor, finishCapture, cleanupControl,
    cleanupControl_Close, cleanupInput, cleanupCard, torn_down, teardown_order.
  run_monad.
  destruct st, glue, control, input, card; cbn;
    rewrite <- ?app_assoc; cbn; rewrite ?app_nil_r; reflexivity.
Qed.

(** C7. The destructor always returns; the calls it makes are, in this
    order, the end-of-capture notice (when the capture was not finished
    and a glue is attached), the three calls closing the deck control
    (when one was opened), the four calls closing the input (when one
    was opened) and the release of the card (when one was acquired); it
    consults no driver answer.  Afterwards the status is [finished] and
    the three pointers are null, each cleanup step run again changes
    nothing, and so does a second teardown; on any world a cleanup step
    whose resource was not acquired changes nothing, and a cleanup step
    run twice does the second time nothing (for the deck control:
    outside status [capturing], where it closes the session). *)
Theorem teardown_order_on_destruction (hw : Hardware) (w : World) :
  CaptureHelper_dtor hw w
  = Returns tt {| self := torn_down (self w); now := now w;
                  calls := calls w ++ teardown_order (self w) |} /\
  cleanupControl hw (exec (CaptureHelper_dtor hw) w)
  = Returns true (exec (CaptureHelper_dtor hw) w) /\
  cleanupInput (exec (CaptureHelper_dtor hw) w)
  = Returns true (exec (CaptureHelper_dtor hw) w) /\
  cleanupCard (exec (CaptureHelper_dtor hw) w)
  = Returns true (exec (CaptureHelper_dtor hw) w) /\
  CaptureHelper_dtor hw (exec (CaptureHelper_dtor hw) w)
  = Returns tt (exec (CaptureHelper_dtor hw) w) /\
  (m_control (self w) = false -> cleanupControl hw w = Returns true w) /\
  (m_input (self w) = false -> cleanupInput w = Returns true w) /\
  (m_card (self w) = false -> cleanupCard w = Returns true w) /\
  (status_of w <> capturing ->
   cleanupControl hw (exec (cleanupControl hw) w)
   = Returns true (exec (cleanupControl hw) w)) /\
  cleanupInput (exec cleanupInput w) = Returns true (exec cleanupInput w) /\
  cleanupCard (exec cleanupCard w) = Returns true (exec cleanupCard w).
Proof.
  assert (Again : (status_of w <> capturing ->
                   cleanupControl hw (exec (cleanupControl hw) w)
                   = Returns true (exec (cleanupControl hw) w)) /\
                  cleanupInput (exec cleanupInput w)
                  = Returns true (exec cleanupInput w) /\
                  cleanupCard (exec cleanupCard w)
                  = Returns true (exec cleanupCard w)).
  { split; [|split].
    - intros Hst. apply cleanupControl_closed.
      unfold exec, cleanupControl, cleanupControl_Close, status_of in *.
      run_monad.
      destruct (m_control (self w)) eqn:E; cbn; [|exact E].
      destruct (Status (Config_Out (self w))); try reflexivity.
      congruence.
    - apply cleanupInput_closed. unfold exec, cleanupInput. run_monad.
      destruct (m_input (self w)) eqn:E; cbn; [reflexivity|exact E].
    - apply cleanupCard_closed. unfold exec, cleanupCard. run_monad.
      destruct (m_card (self w)) eqn:E; cbn; [reflexivity|exact E]. }
  split; [apply dtor_world|].
  unfold exec. rewrite dtor_world. simpl.
  split; [apply cleanupControl_closed; reflexivity|].
  split; [apply cleanupInput_closed; reflexivity|].
  split; [apply cleanupCard_closed; reflexivity|].
  split.
  - rewrite dtor_world. simpl. unfold teardown_order, torn_down. simpl.
    rewrite app_nil_r. reflexivity.
  - split; [apply cleanupControl_closed|].
    split; [apply cleanupInput_closed|].
    split; [apply cleanupCard_closed|exact Again].
Qed.

Lemma teardown_order_on_destruction_witness :
  calls (exec (CaptureHelper_dtor hw_ok)
              (helper_with true true false true
                           (config (-1) (-1) (-1)) capturing (-1) 3))
  = [Glue_CloseOutput;
     input_StopStreams; input_DisableVideoInput; input_SetCallback false;
     input_Release;
     card_Release] /\
  calls (exec (CaptureHelper_dtor hw_ok)
              (helper (config (-1) 1 2) capturing (-1) 3))
  = [Glue_CloseOutput;
     control_Close false; control_SetCallback false; control_Release;
     input_StopStreams; input_DisableVideoInput; input_SetCallback false;
     input_Release;
     card_Release].
Proof.
  split.
  - unfold exec.
    rewrite (proj1 (teardown_order_on_destruction hw_ok
                      (helper_with true true false true
                         (config (-1) (-1) (-1)) capturing (-1) 3))).
    reflexivity.
  - unfold exec.
    rewrite (proj1 (teardown_order_on_destruction hw_ok
                      (helper (config (-1) 1 2) capturing (-1) 3))).
    reflexivity.
Defined.

(** ** C8: a timecode query the deck does not answer *)

Lemma readTimeCode_no_communication (hw : Hardware) (w : World)
    (hr : HRESULT) (bcd : Z) :
  m_control (self w) = true ->
  GetTimecode hw (now w) = (hr, bmdDeckControlNoCommunicationError, bcd) ->
  is_S_OK hr = false ->
  readTimeCode hw w = Returns tt (pending_world w).
Proof.
  intros Hc Hq Hhr. unfold readTimeCode, pending_world. run_monad.
  rewrite Hc. cbn. rewrite Hq. cbn. rewrite Hhr. reflexivity.
Qed.

(** A failed query for any other reason is not remembered. *)
Lemma readTimeCode_other_error (hw : Hardware) (w : World)
    (hr : HRESULT) (err : BMDDeckControlError) (bcd : Z) :
  m_control (self w) = true ->
  GetTimecode hw (now w) = (hr, err, bcd) ->
  is_S_OK hr = false ->
  is_NoCommunicationError err = false ->
  readTimeCode hw w
  = Returns tt {| self := set_TC_current (-1) (self w);
                  now := S (now w);
                  calls := calls w ++ [control_GetTimecode] |}.
Proof.
  intros Hc Hq Hhr He. unfold readTimeCode. run_monad.
  rewrite Hc. cbn. rewrite Hq. cbn. rewrite Hhr, He. reflexivity.
Qed.

Lemma status_event_not_connected (hw : Hardware) (connected : Z) (w : World)
    (flags mask : Z) :
  reports_connected connected flags mask = false ->
  DeckControlStatusChanged hw connected flags mask w = Returns S_OK w.
Proof.
  unfold reports_connected, DeckControlStatusChanged. intros H. run_monad.
  rewrite H. reflexivity.
Qed.

Lemma status_event_nothing_pending (hw : Hardware) (connected : Z) (w : World)
    (flags mask : Z) :
  WantTimeCode (self w) = false ->
  DeckControlStatusChanged hw connected flags mask w = Returns S_OK w.
Proof.
  unfold DeckControlStatusChanged. intros H. run_monad.
  destruct (_ && _); cbn; [rewrite H|]; reflexivity.
Qed.

(** The retry made by a status event that reports the deck connected. *)
Lemma status_event_retries (hw : Hardware) (connected : Z) (w : World)
    (flags mask : Z) :
  m_control (self w) = true ->
  WantTimeCode (self w) = true ->
  reports_connected connected flags mask = true ->
  exists w2,
    DeckControlStatusChanged hw connected flags mask w = Returns S_OK w2 /\
    WantTimeCode (self w2) = false /\
    now w2 = S (now w) /\
    filter is_GetTimecode (emitted (DeckControlStatusChanged hw connected flags mask) w)
    = [control_GetTimecode].
Proof.
  unfold reports_connected. intros Hc Hw Hr.
  unfold emitted, exec, DeckControlStatusChanged, readTimeCode. run_monad.
  rewrite Hr, Hw. cbn. rewrite Hc. cbn.
  destruct (GetTimecode hw (now w)) as [[hr err] bcd]. cbn.
  destruct (is_S_OK hr); cbn.
  - destruct (TimeCodeIsAvailable_Callback (Config_In (self w))); cbn;
      eexists; (split; [reflexivity|]); cbn;
      rewrite <- ?app_assoc, skipn_app, skipn_all, Nat.sub_diag; auto.
  - destruct (is_NoCommunicationError err); cbn;
      eexists; (split; [reflexivity|]); cbn;
      rewrite skipn_app, skipn_all, Nat.sub_diag; auto.
Qed.

(** C8. A timecode query that fails for lack of communication returns
    normally, sets [TC_current] to [-1] and raises [WantTimeCode].
    Status events that do not report the deck as connected then change
    nothing.  The first status event that reports it connected issues
    exactly one new query and leaves [WantTimeCode] cleared, after which
    status events change nothing any more. *)
Theorem pending_timecode_is_retried
    (hw : Hardware) (connected : Z) (w : World) (hr : HRESULT) (bcd : Z)
    (quiet : list (Z * Z)) (flags mask : Z) :
  m_control (self w) = true ->
  GetTimecode hw (now w) = (hr, bmdDeckControlNoCommunicationError, bcd) ->
  is_S_OK hr = false ->
  forallb (fun e => negb (reports_connected connected (fst e) (snd e))) quiet
  = true ->
  reports_connected connected flags mask = true ->
  readTimeCode hw w = Returns tt (pending_world w) /\
  TC_current (Config_Out (self (pending_world w))) = -1 /\
  WantTimeCode (self (pending_world w)) = true /\
  deliver_status hw connected quiet (pending_world w)
  = Returns tt (pending_world w) /\
  exists w2,
    DeckControlStatusChanged hw connected flags mask (pending_world w)
    = Returns S_OK w2 /\
    filter is_GetTimecode
           (emitted (DeckControlStatusChanged hw connected flags mask)
                    (pending_world w))
    = [control_GetTimecode] /\
    WantTimeCode (self w2) = false /\
    forall flags' mask',
      DeckControlStatusChanged hw connected flags' mask' w2 = Returns S_OK w2.
Proof.
  intros Hc Hq Hhr Hquiet Hconn.
  split; [exact (readTimeCode_no_communication hw w hr bcd Hc Hq Hhr)|].
  split; [reflexivity|]. split; [reflexivity|]. split.
  - induction quiet as [|[f m] rest IH]; [reflexivity|].
    simpl in Hquiet. apply andb_true_iff in Hquiet as [Hhd Htl].
    simpl. unfold bind.
    rewrite status_event_not_connected
      by (apply negb_true_iff in Hhd; exact Hhd).
    apply IH, Htl.
  - destruct (status_event_retries hw connected (pending_world w) flags mask
                Hc eq_refl Hconn) as (w2 & Run & Cleared & _ & Once).
    exists w2. split; [exact Run|]. split; [exact Once|].
    split; [exact Cleared|].
    intros flags' mask'. apply status_event_nothing_pending, Cleared.
Qed.

Lemma pending_timecode_is_retried_witness :
  readTimeCode hw_late_deck (helper (config (-1) (-1) (-1)) idle 5 0)
  = Returns tt (pending_world (helper (config (-1) (-1) (-1)) idle 5 0)) /\
  deliver_status hw_late_deck 1 [(0, 1); (1, 2)]
                 (pending_world (helper (config (-1) (-1) (-1)) idle 5 0))
  = Returns tt (pending_world (helper (config (-1) (-1) (-1)) idle 5 0)) /\
  reports_connected 1 1 1 = true.
Proof.
  destruct (pending_timecode_is_retried hw_late_deck 1
              (helper (config (-1) (-1) (-1)) idle 5 0) E_FAIL 0
              [(0, 1); (1, 2)] 1 1
              eq_refl eq_refl eq_refl eq_refl eq_refl)
    as (Read & _ & _ & Quiet & _).
  split; [exact Read|]. split; [exact Quiet|]. reflexivity.
Defined.

(** ** The capture window *)

Lemma to_u32_small (z : Z) : 0 <= z < 2 ^ 32 -> to_u32 z = z.
Proof. intros H. unfold to_u32. apply Z.mod_small, H. Qed.

Lemma to_u32_negative (z : Z) : - 2 ^ 31 <= z < 0 -> to_u32 z = z + 2 ^ 32.
Proof.
  intros H. unfold to_u32. symmetry.
  apply Z.mod_unique with (q := -1); lia.
Qed.

(** The decision taken for a frame of a bounded capture without frame
    limit. *)
Lemma ShouldDecode_window (s : CaptureHelper) (T : Z) :
  FrameCount (Config_In s) = -1 ->
  0 <= TC_in (Config_In s) < TC_out (Config_In s) ->
  TC_out (Config_In s) < 2 ^ 31 ->
  - 2 ^ 31 <= TC_current (Config_Out s) < 2 ^ 31 ->
  0 <= T < 2 ^ 32 ->
  ShouldDecode s (Some T) = true <->
  (TC_in (Config_In s) <= T < TC_out (Config_In s)
   /\ T <> TC_current (Config_Out s)).
Proof.
  intros Hfc Hin Hout Hcur HT. unfold ShouldDecode. rewrite Hfc.
  change (negb (-1 =? -1)) with false. cbv beta iota zeta. simpl andb.
  rewrite (to_u32_small T HT).
  rewrite (to_u32_small (TC_in (Config_In s))) by lia.
  rewrite (to_u32_small (TC_out (Config_In s))) by lia.
  assert (Hne : (TC_in (Config_In s) =? -1) = false) by (apply Z.eqb_neq; lia).
  rewrite Hne. simpl negb. simpl andb.
  destruct (T <? TC_in (Config_In s)) eqn:Elo;
    [apply Z.ltb_lt in Elo | apply Z.ltb_ge in Elo].
  { rewrite orb_true_r. simpl. split; [discriminate | lia]. }
  destruct (T >=? TC_out (Config_In s)) eqn:Ehi;
    [apply Z.geb_le in Ehi | rewrite Z.geb_leb in Ehi; apply Z.leb_gt in Ehi].
  { rewrite orb_true_r. split; [discriminate | lia]. }
  rewrite !orb_false_r.
  destruct (TC_current (Config_Out s) =? -1) eqn:Eunk;
    [apply Z.eqb_eq in Eunk | apply Z.eqb_neq in Eunk]; simpl.
  { split; [lia | reflexivity]. }
  destruct (Z_lt_le_dec (TC_current (Config_Out s)) 0) as [Neg|Pos].
  - rewrite (to_u32_negative (TC_current (Config_Out s))) by lia.
    destruct (T =? TC_current (Config_Out s) + 2 ^ 32) eqn:E;
      [apply Z.eqb_eq in E; lia | split; [lia | reflexivity]].
  - rewrite (to_u32_small (TC_current (Config_Out s))) by lia.
    destruct (T =? TC_current (Config_Out s)) eqn:E;
      [apply Z.eqb_eq in E | apply Z.eqb_neq in E].
    + split; [discriminate | lia].
    + split; [lia | reflexivity].
Qed.

(** ** C3: the frame limit *)

Lemma stop_unbounded (hw : Hardware) (w : World) :
  TC_in (Config_In (self w)) = -1 ->
  m_control (self w) = true ->
  status_of w <> finished ->
  stop hw w
  = Returns tt (finished_world
                  {| self := self w; now := S (now w);
                     calls := calls w ++ [control_Stop] |}).
Proof.
  intros Htc Hc Hst. unfold stop. unfold_monad.
  cbn -[finishCapture]. rewrite Htc. cbn -[finishCapture].
  rewrite Hc. cbn -[finishCapture].
  rewrite finishCapture_pending by exact Hst.
  reflexivity.
Qed.

(** Below the limit and without timecode bound every frame is accepted. *)
Lemma ShouldDecode_below_limit (s : CaptureHelper) (tc : option Z) :
  TC_in (Config_In s) = -1 ->
  m_FramePos s < FrameCount (Config_In s) ->
  ShouldDecode s tc = true.
Proof.
  intros Ht Hp. unfold ShouldDecode. rewrite Ht.
  assert (E : (m_FramePos s >=? FrameCount (Config_In s)) = false)
    by (rewrite Z.geb_leb; apply Z.leb_gt; lia).
  rewrite E, andb_false_r. destruct tc; reflexivity.
Qed.

Lemma forwarded_world_facts (w : World) (video : IDeckLinkVideoInputFrame)
    (audio : IDeckLinkAudioInputPacket) :
  status_of (forwarded_world w video audio) = status_of w /\
  Config_In (self (forwarded_world w video audio)) = Config_In (self w) /\
  Glue (self (forwarded_world w video audio)) = Glue (self w) /\
  m_control (self (forwarded_world w video audio)) = m_control (self w) /\
  m_FramePos (self (forwarded_world w video audio)) = m_FramePos (self w) + 1.
Proof.
  unfold forwarded_world, status_of.
  destruct (GetTimecode_Serial video); cbn -[Z.add]; repeat split.
Qed.

Lemma forwarded_world_calls (w : World) (video : IDeckLinkVideoInputFrame)
    (audio : IDeckLinkAudioInputPacket) :
  Glue (self w) = true ->
  calls (forwarded_world w video audio)
  = calls w ++ forwarding (m_FramePos (self w)) video audio.
Proof. intros G. unfold forwarded_world. cbn -[forwarding]. rewrite G. reflexivity. Qed.

(** C3, as the code behaves.  With a frame limit of 2, no timecode
    bound, the deck control open and a glue attached, starting at
    position 0 in status [capturing]: the first frame is forwarded at
    position 0 and the status stays [capturing]; the second frame is
    forwarded at position 1 and, in the same callback, the stop request
    is issued and the capture finished; any third frame then finds the
    status [finished] and changes nothing. *)
Theorem frame_limit_stops_with_the_last_accepted_frame
    (hw : Hardware) (w : World)
    (v1 v2 : IDeckLinkVideoInputFrame) (a1 a2 : IDeckLinkAudioInputPacket)
    (f3 : option IDeckLinkVideoInputFrame * option IDeckLinkAudioInputPacket) :
  status_of w = capturing ->
  Glue (self w) = true ->
  m_control (self w) = true ->
  FrameCount (Config_In (self w)) = 2 ->
  TC_in (Config_In (self w)) = -1 ->
  m_FramePos (self w) = 0 ->
  emitted (VideoInputFrameArrived hw (Some v1) (Some a1)) w
  = forwarding 0 v1 a1 /\
  status_of (exec (VideoInputFrameArrived hw (Some v1) (Some a1)) w)
  = capturing /\
  emitted (VideoInputFrameArrived hw (Some v2) (Some a2))
          (exec (VideoInputFrameArrived hw (Some v1) (Some a1)) w)
  = forwarding 1 v2 a2 ++ [control_Stop; Glue_CloseOutput] /\
  status_of (exec (deliver hw [(Some v1, Some a1); (Some v2, Some a2)]) w)
  = finished /\
  VideoInputFrameArrived hw (fst f3) (snd f3)
    (exec (deliver hw [(Some v1, Some a1); (Some v2, Some a2)]) w)
  = Returns S_OK
      (exec (deliver hw [(Some v1, Some a1); (Some v2, Some a2)]) w) /\
  emitted (deliver hw [(Some v1, Some a1); (Some v2, Some a2); f3]) w
  = forwarding 0 v1 a1 ++ forwarding 1 v2 a2
      ++ [control_Stop; Glue_CloseOutput].
Proof.
  intros Hst Hglue Hctl Hfc Htc Hpos.
  (* first frame *)
  set (w1 := forwarded_world w v1 a1).
  destruct (forwarded_world_facts w v1 a1) as (Hst1 & Hcfg1 & Hglue1 & Hctl1 & Hpos1).
  fold w1 in Hst1, Hcfg1, Hglue1, Hctl1, Hpos1.
  rewrite Hst in Hst1. rewrite Hglue in Hglue1. rewrite Hctl in Hctl1.
  rewrite Hpos in Hpos1. change (0 + 1) with 1 in Hpos1.
  assert (R1 : VideoInputFrameArrived hw (Some v1) (Some a1) w = Returns S_OK w1).
  { rewrite frame_accepted
      by (try apply ShouldDecode_below_limit; try assumption; lia).
    fold w1. unfold limit_reached. rewrite Hcfg1, Hfc, Hpos1. reflexivity. }
  assert (Hcalls1 : calls w1 = calls w ++ forwarding 0 v1 a1).
  { unfold w1. rewrite forwarded_world_calls, Hpos by exact Hglue.
    reflexivity. }
  (* second frame *)
  set (w2' := forwarded_world w1 v2 a2).
  destruct (forwarded_world_facts w1 v2 a2) as (Hst2 & Hcfg2 & Hglue2 & Hctl2 & Hpos2).
  fold w2' in Hst2, Hcfg2, Hglue2, Hctl2, Hpos2.
  rewrite Hst1 in Hst2. rewrite Hglue1 in Hglue2. rewrite Hctl1 in Hctl2.
  rewrite Hpos1 in Hpos2. change (1 + 1) with 2 in Hpos2.
  rewrite Hcfg1 in Hcfg2.
  set (w2 := finished_world
               {| self := self w2'; now := S (now w2');
                  calls := calls w2' ++ [control_Stop] |}).
  assert (R2 : VideoInputFrameArrived hw (Some v2) (Some a2) w1 = Returns S_OK w2).
  { rewrite frame_accepted
      by (try apply ShouldDecode_below_limit; rewrite ?Hcfg1;
          try assumption; lia).
    fold w2'.
    assert (L : limit_reached (self w2') = true)
      by (unfold limit_reached; rewrite Hcfg2, Hfc, Hpos2; reflexivity).
    rewrite L. unfold bind.
    rewrite stop_unbounded;
      [reflexivity | rewrite Hcfg2; exact Htc | exact Hctl2
       | rewrite Hst2; discriminate]. }
  assert (Hcalls2 : calls w2 = calls w1 ++ forwarding 1 v2 a2
                                 ++ [control_Stop; Glue_CloseOutput]).
  { unfold w2, finished_world. cbn -[forwarding w2']. rewrite Hglue2.
    unfold w2'. rewrite forwarded_world_calls, Hpos1 by exact Hglue1.
    rewrite <- !app_assoc. reflexivity. }
  assert (D2 : deliver hw [(Some v1, Some a1); (Some v2, Some a2)] w
               = Returns tt w2).
  { cbn [deliver]. unfold bind. rewrite R1, R2. reflexivity. }
  assert (R3 : VideoInputFrameArrived hw (fst f3) (snd f3) w2 = Returns S_OK w2).
  { apply frame_outside_capturing.
    unfold w2. rewrite finished_world_status. discriminate. }
  assert (D3 : deliver hw [(Some v1, Some a1); (Some v2, Some a2); f3] w
               = Returns tt w2).
  { destruct f3 as [v3 a3]. cbn [fst snd] in R3. cbn [deliver].
    unfold bind. rewrite R1, R2, R3. reflexivity. }
  unfold emitted, exec. rewrite R1, D2, D3. cbn [world_of].
  rewrite R2, R3. cbn [world_of].
  split; [rewrite Hcalls1, skipn_app, skipn_all, Nat.sub_diag; reflexivity|].
  split; [exact Hst1|].
  split; [rewrite Hcalls2, skipn_app, skipn_all, Nat.sub_diag; reflexivity|].
  split; [reflexivity|]. split; [reflexivity|].
  rewrite Hcalls2, Hcalls1, <- app_assoc, skipn_app, skipn_all, Nat.sub_diag.
  reflexivity.
Qed.

Lemma frame_limit_stops_with_the_last_accepted_frame_witness :
  emitted (deliver hw_ok [(Some (video_frame (Some 1) 1), Some (audio_packet 11));
                          (Some (video_frame (Some 2) 2), Some (audio_packet 12));
                          (Some (video_frame (Some 3) 3), Some (audio_packet 13))])
          (helper (config 2 (-1) (-1)) capturing (-1) 0)
  = forwarding 0 (video_frame (Some 1) 1) (audio_packet 11)
    ++ forwarding 1 (video_frame (Some 2) 2) (audio_packet 12)
    ++ [control_Stop; Glue_CloseOutput].
Proof.
  apply (frame_limit_stops_with_the_last_accepted_frame hw_ok
           (helper (config 2 (-1) (-1)) capturing (-1) 0));
    reflexivity.
Defined.

(** The scenario as the specification words it fails: after the first
    two frames the third frame issues no stop request (none of its
    calls is a stop or an abort). *)
Lemma third_frame_triggers_no_stop :
  ~ third_frame_triggers_stop hw_ok
      (helper (config 2 (-1) (-1)) capturing (-1) 0)
      (Some (video_frame (Some 1) 1), Some (audio_packet 11))
      (Some (video_frame (Some 2) 2), Some (audio_packet 12))
      (Some (video_frame (Some 3) 3), Some (audio_packet 13)).
Proof.
  intros (_ & Stops & _). vm_compute in Stops. discriminate Stops.
Qed.

(** A frame that arrives in status [capturing] when the counter has
    reached the limit is discarded without any stop request. *)
Lemma frame_over_limit_is_discarded (hw : Hardware) (w : World)
    (video : IDeckLinkVideoInputFrame)
    (audio : option IDeckLinkAudioInputPacket) :
  status_of w = capturing ->
  FrameCount (Config_In (self w)) <> -1 ->
  FrameCount (Config_In (self w)) <= m_FramePos (self w) ->
  VideoInputFrameArrived hw (Some video) audio w
  = Returns S_OK (discarded_world w video).
Proof.
  intros Hst Hfc Hpos. apply frame_discarded; [exact Hst|].
  unfold ShouldDecode.
  apply Z.eqb_neq in Hfc. rewrite Hfc.
  assert (E : (m_FramePos (self w) >=? FrameCount (Config_In (self w))) = true)
    by (rewrite Z.geb_leb; apply Z.leb_le; exact Hpos).
  rewrite E. cbn.
  destruct (GetTimecode_Serial video);
    [destruct (_ && _) | destruct (negb _)]; reflexivity.
Qed.

(** ** Relations kept by every step of a computation *)

Section Respects.

Variable R : World -> World -> Prop.
Context `{PreOrder World R}.

Lemma respects_ret {A} (a : A) : respects R (ret a).
Proof. intros w. simpl. reflexivity. Qed.

Lemma respects_fault {A} (f : Fault) : respects R (@fault A f).
Proof. intros w. simpl. reflexivity. Qed.

Lemma respects_this : respects R this.
Proof. intros w. simpl. reflexivity. Qed.

Lemma respects_deref (p : CaptureHelper -> bool) (f : Fault) :
  respects R (deref p f).
Proof.
  intros w. unfold deref. run_monad. destruct (p (self w)); simpl; reflexivity.
Qed.

Lemma respects_bind {A B} (m : M A) (k : A -> M B) :
  respects R m -> (forall a, respects R (k a)) -> respects R (bind m k).
Proof.
  intros Hm Hk w. unfold bind. specialize (Hm w).
  destruct (m w) as [a w1|f w1]; simpl in *.
  - transitivity w1; [exact Hm | apply Hk].
  - exact Hm.
Qed.

End Respects.

#[local] Instance keeps_counter_PreOrder : PreOrder keeps_counter.
Proof.
  split.
  - intros w. repeat split.
  - intros a b c (P1 & G1 & V1) (P2 & G2 & V2).
    repeat split; congruence.
Qed.

#[local] Instance keeps_status_PreOrder : PreOrder keeps_status.
Proof.
  split.
  - intros w. reflexivity.
  - intros a b c H1 H2. unfold keeps_status in *. congruence.
Qed.

Lemma positions_from_app (p : Z) (j k : nat) :
  positions_from p j ++ positions_from (p + Z.of_nat j) k
  = positions_from p (j + k).
Proof.
  revert p. induction j as [|j IH]; intros p.
  - simpl. f_equal. lia.
  - cbn [positions_from Nat.add app]. f_equal.
    rewrite <- IH. do 2 f_equal. lia.
Qed.

#[local] Instance counts_on_PreOrder : PreOrder counts_on.
Proof.
  split.
  - intros w. split; [reflexivity|]. exists O. split; [simpl; lia|].
    intros _. simpl. rewrite app_nil_r. reflexivity.
  - intros a b c (G1 & j & P1 & V1) (G2 & k & P2 & V2).
    split; [congruence|]. exists (j + k)%nat.
    split; [lia|]. intros Ga.
    rewrite V2 by congruence. rewrite V1 by exact Ga.
    rewrite P1, <- app_assoc, positions_from_app. reflexivity.
Qed.


(** *** Steps that keep the counter *)

Lemma keeps_counter_assign (f : CaptureHelper -> CaptureHelper) :
  (forall s, m_FramePos (f s) = m_FramePos s /\ Glue (f s) = Glue s) ->
  respects keeps_counter (assign f).
Proof.
  intros Hf w. destruct (Hf (self w)) as [P G]. repeat split; assumption.
Qed.

Lemma keeps_counter_call (c : Call) :
  is_OutputFrame c = false -> respects keeps_counter (call c).
Proof.
  intros Hc w. repeat split. simpl. unfold video_positions.
  rewrite flat_map_app. simpl. destruct c; try discriminate Hc;
    rewrite app_nil_r; reflexivity.
Qed.

Lemma keeps_counter_ask (hw : Hardware) {A} (entry : Hardware -> nat -> A) :
  respects keeps_counter (ask hw entry).
Proof. intros w. repeat split. Qed.

(** *** Steps that keep the status *)

Lemma keeps_status_assign (f : CaptureHelper -> CaptureHelper) :
  (forall s, Status (Config_Out (f s)) = Status (Config_Out s)) ->
  respects keeps_status (assign f).
Proof. intros Hf w. apply Hf. Qed.

Lemma keeps_status_call (c : Call) : respects keeps_status (call c).
Proof. intros w. reflexivity. Qed.

Lemma keeps_status_ask (hw : Hardware) {A} (entry : Hardware -> nat -> A) :
  respects keeps_status (ask hw entry).
Proof. intros w. reflexivity. Qed.

Create HintDb counter_kept discriminated.
Create HintDb status_kept discriminated.

Ltac respects_with db :=
  repeat first
    [ solve [ auto with db ]
    | apply respects_ret; exact _
    | apply respects_fault; exact _
    | apply respects_this; exact _
    | apply respects_deref; exact _
    | apply respects_bind; [ exact _ | | intro ]
    | apply keeps_counter_ask | apply keeps_status_ask
    | apply keeps_status_call
    | apply keeps_counter_call; reflexivity
    | apply keeps_counter_assign; intro; split; reflexivity
    | apply keeps_status_assign; intro; reflexivity
    | match goal with
      | |- respects _ (if ?b then _ else _) => destruct b
      | |- respects _ (match ?x with _ => _ end) => destruct x
      end ].

Lemma getDeckLinkCard_loop_keeps_counter (hw : Hardware) (Pos : nat) :
  respects keeps_counter (getDeckLinkCard_loop hw Pos).
Proof. induction Pos as [|Pos IH]; simpl; respects_with counter_kept. Qed.
#[local] Hint Resolve getDeckLinkCard_loop_keeps_counter : counter_kept.

Lemma getDeckLinkCard_keeps_counter (hw : Hardware) (Pos : nat) :
  respects keeps_counter (getDeckLinkCard hw Pos).
Proof. unfold getDeckLinkCard. respects_with counter_kept. Qed.
#[local] Hint Resolve getDeckLinkCard_keeps_counter : counter_kept.

Lemma setupCard_keeps_counter (hw : Hardware) (CardPos : nat) :
  respects keeps_counter (setupCard hw CardPos).
Proof. unfold setupCard. respects_with counter_kept. Qed.

Lemma cleanupInput_keeps_counter : respects keeps_counter cleanupInput.
Proof. unfold cleanupInput. respects_with counter_kept. Qed.

Lemma setupInput_keeps_counter (hw : Hardware) :
  respects keeps_counter (setupInput hw).
Proof. unfold setupInput. respects_with counter_kept. Qed.
#[local] Hint Resolve setupCard_keeps_counter cleanupInput_keeps_counter
  setupInput_keeps_counter : counter_kept.

Lemma setupControl_keeps_counter (hw : Hardware) :
  respects keeps_counter (setupControl hw).
Proof. unfold setupControl. respects_with counter_kept. Qed.

Lemma readTimeCode_keeps_counter (hw : Hardware) :
  respects keeps_counter (readTimeCode hw).
Proof. unfold readTimeCode. respects_with counter_kept. Qed.

Lemma finishCapture_keeps_counter : respects keeps_counter finishCapture.
Proof. unfold finishCapture. respects_with counter_kept. Qed.
#[local] Hint Resolve setupControl_keeps_counter readTimeCode_keeps_counter
  finishCapture_keeps_counter : counter_kept.






(** *** The frame-arrival callback counts what it hands over *)







(** ** Setup and capture attempts: the status *)

Lemma getDeckLinkCard_loop_keeps_status (hw : Hardware) (Pos : nat) :
  respects keeps_status (getDeckLinkCard_loop hw Pos).
Proof. induction Pos as [|Pos IH]; simpl; respects_with status_kept. Qed.
#[local] Hint Resolve getDeckLinkCard_loop_keeps_status : status_kept.

Lemma getDeckLinkCard_keeps_status (hw : Hardware) (Pos : nat) :
  respects keeps_status (getDeckLinkCard hw Pos).
Proof. unfold getDeckLinkCard. respects_with status_kept. Qed.
#[local] Hint Resolve getDeckLinkCard_keeps_status : status_kept.

Lemma setupCard_keeps_status (hw : Hardware) (CardPos : nat) :
  respects keeps_status (setupCard hw CardPos).
Proof. unfold setupCard. respects_with status_kept. Qed.

Lemma cleanupInput_keeps_status : respects keeps_status cleanupInput.
Proof. unfold cleanupInput. respects_with status_kept. Qed.

Lemma setupInput_keeps_status (hw : Hardware) :
  respects keeps_status (setupInput hw).
Proof. unfold setupInput. respects_with status_kept. Qed.
#[local] Hint Resolve setupInput_keeps_status : status_kept.

Lemma setupControl_keeps_status (hw : Hardware) :
  respects keeps_status (setupControl hw).
Proof. unfold setupControl. respects_with status_kept. Qed.

(** [setupCard] returns whether the card pointer is set. *)
Lemma setupCard_result (hw : Hardware) (CardPos : nat) (w w' : World)
    (ok : bool) :
  setupCard hw CardPos w = Returns ok w' -> ok = m_card (self w').
Proof.
  unfold setupCard, bind, this.
  destruct (m_card (self w)) eqn:Ec.
  { intros [= <- <-]. symmetry. exact Ec. }
  destruct (getDeckLinkCard hw CardPos w) as [card w1|f w1]; [|discriminate].
  run_monad. destruct card; cbn.
  - destruct (is_S_OK (QueryInterface_Attributes hw (now w1))); cbn;
      [destruct (is_S_OK (fst (GetInt_VideoInputConnections hw (S (now w1)))));
       cbn|];
      destruct (is_S_OK (QueryInterface_Configuration hw _)); cbn;
      try destruct (negb (VideoInputConnection (Config_In (self w1)) =? -1));
      cbn; intros [= <- <-]; reflexivity.
  - intros [= <- <-]. reflexivity.
Qed.

(** A refused input interface makes [setupInput] return [false]. *)
Lemma setupInput_refused (hw : Hardware) (w : World) :
  m_card (self w) = true ->
  m_input (self w) = false ->
  is_S_OK (QueryInterface_Input hw (now w)) = false ->
  setupInput hw w
  = Returns false {| self := set_m_input false (set_m_width (-1) (self w));
                     now := S (now w); calls := calls w |}.
Proof.
  intros Hc Hi Hq. unfold setupInput. run_monad.
  rewrite Hi. cbn. rewrite Hc. cbn. rewrite Hq. reflexivity.
Qed.

(** With the input open, a refused deck-control interface or a refused
    [Open] makes [setupControl] return [false]. *)
Lemma setupControl_refused (hw : Hardware) (w : World) :
  m_card (self w) = true ->
  m_input (self w) = true ->
  m_control (self w) = false ->
  is_S_OK (QueryInterface_DeckControl hw (now w)) = false
  \/ is_S_OK (Open hw (S (now w))) = false ->
  exists w', setupControl hw w = Returns false w'
             /\ status_of w' = status_of w.
Proof.
  intros Hc Hi Hk Hq. unfold setupControl, setupInput. run_monad.
  rewrite Hi. cbn. rewrite Hk. cbn. rewrite Hc. cbn.
  destruct (is_S_OK (QueryInterface_DeckControl hw (now w))) eqn:Eq; cbn.
  - destruct Hq as [Hq|Hq]; [discriminate Hq|]. rewrite Hq. cbn.
    eexists. split; reflexivity.
  - eexists. split; reflexivity.
Qed.

(** The status after [startCapture]: untouched, or written after the
    play command, or written after the bounded capture command
    according to the deck's answer. *)
Lemma startCapture_status (hw : Hardware) (w : World) :
  status_of (exec (startCapture hw) w) = status_of w
  \/ (exists l,
         calls (exec (startCapture hw) w) = l ++ [control_Play]
         /\ status_of (exec (startCapture hw) w) = capturing)
  \/ (exists l tcIn tcOut n,
         calls (exec (startCapture hw) w)
         = l ++ [control_StartCapture tcIn tcOut]
         /\ now (exec (startCapture hw) w) = S n
         /\ status_of (exec (startCapture hw) w)
            = if is_S_OK (StartCapture hw n) then capturing else finished).
Proof.
  remember (exec (startCapture hw) w) as w' eqn:E. revert E.
  unfold exec, startCapture, bind.
  pose proof (cleanupInput_keeps_status w) as K1. unfold keeps_status in K1.
  destruct (cleanupInput w) as [r1 w1|f1 w1]; cbn [world_of] in *;
    [|intros ->; left; exact K1].
  pose proof (setupInput_keeps_status hw w1) as K2. unfold keeps_status in K2.
  destruct (setupInput hw w1) as [r2 w2|f2 w2]; cbn [world_of] in *;
    [|intros ->; left; congruence].
  pose proof (setupInput_keeps_status hw w2) as K3. unfold keeps_status in K3.
  destruct (setupInput hw w2) as [ok w3|f3 w3]; cbn [world_of] in *;
    [|intros ->; left; congruence].
  destruct ok; cbn [negb]; [|intros ->; left; cbn; congruence].
  unfold this. cbn beta iota.
  destruct (TC_in (Config_In (self w3)) =? -1).
  - unfold deref, this, skip, ret, fault, call, ask, assign, bind.
    destruct (m_control (self w3)); cbn; intros ->.
    + right. left. exists (calls w3). split; reflexivity.
    + left. congruence.
  - pose proof (setupControl_keeps_status hw w3) as K4.
    unfold keeps_status in K4.
    destruct (setupControl hw w3) as [ok w4|f4 w4]; cbn [world_of] in *;
      [|intros ->; left; congruence].
    destruct ok; cbn [negb]; [|intros ->; left; cbn; congruence].
    unfold deref, this, skip, ret, fault, call, ask, assign, bind.
    destruct (m_control (self w4)); cbn -[to_u32]; intros ->.
    + right. right.
      exists (calls w4), (to_u32 (TC_in (Config_In (self w3)))),
        (to_u32 (TC_out (Config_In (self w3)))), (now w4).
      cbn -[to_u32].
      destruct (is_S_OK (StartCapture hw (now w4))); cbn -[to_u32];
        repeat split.
    + left. congruence.
Qed.

(** ** Fields kept and calls allowed *)

#[local] Instance keeps_PreOrder {T : Type} (proj : CaptureHelper -> T)
    (ok : Call -> bool) : PreOrder (keeps proj ok).
Proof.
  split.
  - intros w. split; [reflexivity|]. exists []. rewrite app_nil_r. split; reflexivity.
  - intros a b c (P1 & l1 & C1 & O1) (P2 & l2 & C2 & O2).
    split; [congruence|]. exists (l1 ++ l2).
    rewrite C2, C1, app_assoc, forallb_app, O1, O2. split; reflexivity.
Qed.

Lemma keeps_assign {T : Type} (proj : CaptureHelper -> T) (ok : Call -> bool)
    (f : CaptureHelper -> CaptureHelper) :
  (forall s, proj (f s) = proj s) -> respects (keeps proj ok) (assign f).
Proof.
  intros Hf w. split; [apply Hf|]. exists []. simpl. rewrite app_nil_r.
  split; reflexivity.
Qed.

Lemma keeps_call {T : Type} (proj : CaptureHelper -> T) (ok : Call -> bool)
    (c : Call) :
  ok c = true -> respects (keeps proj ok) (call c).
Proof.
  intros Hc w. split; [reflexivity|]. exists [c]. simpl. rewrite Hc.
  split; reflexivity.
Qed.

Lemma keeps_ask {T : Type} (proj : CaptureHelper -> T) (ok : Call -> bool)
    (hw : Hardware) {A} (entry : Hardware -> nat -> A) :
  respects (keeps proj ok) (ask hw entry).
Proof.
  intros w. split; [reflexivity|]. exists []. simpl. rewrite app_nil_r.
  split; reflexivity.
Qed.

Create HintDb kept discriminated.

Ltac keeps_steps :=
  repeat first
    [ solve [ auto with kept ]
    | apply respects_ret; exact _
    | apply respects_fault; exact _
    | apply respects_this; exact _
    | apply respects_deref; exact _
    | apply respects_bind; [ exact _ | | intro ]
    | apply keeps_ask
    | apply keeps_call; reflexivity
    | apply keeps_assign; intro; reflexivity
    | match goal with
      | |- respects _ (if ?b then _ else _) => destruct b
      | |- respects _ (match ?x with _ => _ end) => destruct x
      end ].

Lemma cleanupInput_keeps_capture_state :
  respects (keeps capture_state is_session_call) cleanupInput.
Proof. unfold cleanupInput. keeps_steps. Qed.

Lemma setupInput_keeps_capture_state (hw : Hardware) :
  respects (keeps capture_state is_session_call) (setupInput hw).
Proof. unfold setupInput. keeps_steps. Qed.
#[local] Hint Resolve cleanupInput_keeps_capture_state
  setupInput_keeps_capture_state : kept.

Lemma setupControl_keeps_capture_state (hw : Hardware) :
  respects (keeps capture_state is_session_call) (setupControl hw).
Proof. unfold setupControl. keeps_steps. Qed.
#[local] Hint Resolve setupControl_keeps_capture_state : kept.

Lemma cleanupInput_keeps_control :
  respects (keeps m_control any_call) cleanupInput.
Proof. unfold cleanupInput. keeps_steps. Qed.

Lemma setupInput_keeps_control (hw : Hardware) :
  respects (keeps m_control any_call) (setupInput hw).
Proof. unfold setupInput. keeps_steps. Qed.

(** ** Texts for the log *)

(** X1. The text of an error, of an event or of a VTR state tells the
    value: two values with the same text are equal, or both lie outside
    the values the unit names (text Reserved).  The empty text stands
    for the absence of error only. *)
Theorem log_texts_identify_values :
  (forall a b, BMDDeckControlError2String a = BMDDeckControlError2String b ->
     a = b \/ exists x y, a = bmdDeckControlReservedError x
                          /\ b = bmdDeckControlReservedError y) /\
  (forall a, BMDDeckControlError2String a = ""%string
             <-> a = bmdDeckControlNoError) /\
  (forall a b, BMDDeckControlEvent2String a = BMDDeckControlEvent2String b ->
     a = b \/ exists x y, a = bmdDeckControlReservedEvent x
                          /\ b = bmdDeckControlReservedEvent y) /\
  (forall a b,
     BMDDeckControlVTRControlState2String a
     = BMDDeckControlVTRControlState2String b ->
     a = b \/ exists x y, a = bmdDeckControlVTRControlReserved x
                          /\ b = bmdDeckControlVTRControlReserved y).
Proof.
  split; [|split; [|split]].
  - intros a b H. destruct a, b; simpl in H; try discriminate H;
      try (left; reflexivity).
    right. eauto.
  - intros a. split.
    + destruct a; simpl; intros H; try discriminate H; reflexivity.
    + intros ->. reflexivity.
  - intros a b H. destruct a, b; simpl in H; try discriminate H;
      try (left; reflexivity).
    right. eauto.
  - intros a b H. destruct a, b; simpl in H; try discriminate H;
      try (left; reflexivity).
    right. eauto.
Qed.

(** X2. The text of a status word tells each of the four flags: two
    status words have the same text exactly when they agree on deck
    connected, remote mode, record inhibited and cassette out. *)
Theorem status_text_tells_the_four_flags
    (bits : StatusFlagBits) (f g : Z) :
  BMDDeckControlStatusFlags2String bits f
  = BMDDeckControlStatusFlags2String bits g
  <->
  flag_set f (bmdDeckControlStatusDeckConnected bits)
  = flag_set g (bmdDeckControlStatusDeckConnected bits)
  /\ flag_set f (bmdDeckControlStatusRemoteMode bits)
     = flag_set g (bmdDeckControlStatusRemoteMode bits)
  /\ flag_set f (bmdDeckControlStatusRecordInhibited bits)
     = flag_set g (bmdDeckControlStatusRecordInhibited bits)
  /\ flag_set f (bmdDeckControlStatusCassetteOut bits)
     = flag_set g (bmdDeckControlStatusCassetteOut bits).
Proof.
  unfold BMDDeckControlStatusFlags2String.
  destruct (flag_set f (bmdDeckControlStatusDeckConnected bits)),
    (flag_set g (bmdDeckControlStatusDeckConnected bits)),
    (flag_set f (bmdDeckControlStatusRemoteMode bits)),
    (flag_set g (bmdDeckControlStatusRemoteMode bits)),
    (flag_set f (bmdDeckControlStatusRecordInhibited bits)),
    (flag_set g (bmdDeckControlStatusRecordInhibited bits)),
    (flag_set f (bmdDeckControlStatusCassetteOut bits)),
    (flag_set g (bmdDeckControlStatusCassetteOut bits));
    simpl; split; intros H;
    try discriminate H;
    try (destruct H as (H1 & H2 & H3 & H4);
         discriminate H1 || discriminate H2 || discriminate H3
         || discriminate H4);
    repeat split.
Qed.

(** ** Enumeration of the cards *)

Lemma tick_tick (w : World) (a b : nat) : tick (tick w a) b = tick w (a + b).
Proof. unfold tick. simpl. f_equal. lia. Qed.

Lemma ask_tick (hw : Hardware) {A} (entry : Hardware -> nat -> A) (w : World) :
  ask hw entry w = Returns (entry hw (now w)) (tick w 1).
Proof. unfold ask, tick. do 2 f_equal. lia. Qed.

(** The loop of [getDeckLinkCard] stops at the first answer that does
    not go on, or at answer number [Pos]. *)
Lemma getDeckLinkCard_loop_stops (hw : Hardware) (Pos j : nat) (w : World) :
  (j <= Pos)%nat ->
  (forall i, (i < j)%nat ->
             goes_on (fst (IDeckLinkIterator_Next hw (now w + i))) = true) ->
  j = Pos \/ goes_on (fst (IDeckLinkIterator_Next hw (now w + j))) = false ->
  getDeckLinkCard_loop hw Pos w
  = Returns (snd (IDeckLinkIterator_Next hw (now w + j))) (tick w (S j)).
Proof.
  revert j w. induction Pos as [|Pos IH]; intros j w Hj Hgo Hstop.
  - assert (j = O) by lia. subst j. simpl. unfold bind.
    rewrite ask_tick. rewrite Nat.add_0_r.
    destruct (fst (IDeckLinkIterator_Next hw (now w))); reflexivity.
  - simpl. unfold bind. rewrite ask_tick.
    destruct j as [|j].
    + rewrite Nat.add_0_r in *.
      destruct Hstop as [Hstop|Hstop]; [discriminate Hstop|].
      destruct (fst (IDeckLinkIterator_Next hw (now w)));
        try discriminate Hstop; reflexivity.
    + pose proof (Hgo O ltac:(lia)) as H0. rewrite Nat.add_0_r in H0.
      assert (Rec : getDeckLinkCard_loop hw Pos (tick w 1)
                    = Returns (snd (IDeckLinkIterator_Next hw
                                      (now (tick w 1) + j)))
                              (tick (tick w 1) (S j))).
      { apply IH; [lia| |].
        - intros i Hi. simpl. replace (now w + 1 + i)%nat with (now w + S i)%nat by lia.
          apply Hgo. lia.
        - destruct Hstop as [Hstop|Hstop]; [left; lia|right].
          simpl. replace (now w + 1 + j)%nat with (now w + S j)%nat by lia.
          exact Hstop. }
      rewrite tick_tick in Rec. simpl in Rec.
      replace (now w + 1 + j)%nat with (now w + S j)%nat in Rec by lia.
      destruct (fst (IDeckLinkIterator_Next hw (now w)));
        try discriminate H0; exact Rec.
Qed.

(** X3. [getDeckLinkCard] without iterator returns null after one
    driver call.  With an iterator it asks [Next] until an answer is
    [E_FAIL] or [S_FALSE] or until answer number [Pos], whichever comes
    first, and returns what that last answer left in the out-parameter:
    never more than [Pos + 1] calls of [Next], and no call on a
    collaborator is recorded. *)
Theorem getDeckLinkCard_returns_the_last_answer
    (hw : Hardware) (Pos j : nat) (w : World) :
  (CreateDeckLinkIteratorInstance hw (now w) = false ->
   getDeckLinkCard hw Pos w = Returns false (tick w 1)) /\
  (CreateDeckLinkIteratorInstance hw (now w) = true ->
   (j <= Pos)%nat ->
   (forall i, (i < j)%nat ->
      goes_on (fst (IDeckLinkIterator_Next hw (S (now w) + i))) = true) ->
   j = Pos \/ goes_on (fst (IDeckLinkIterator_Next hw (S (now w) + j))) = false ->
   getDeckLinkCard hw Pos w
   = Returns (snd (IDeckLinkIterator_Next hw (S (now w) + j)))
             (tick w (S (S j)))).
Proof.
  split.
  - intros Hit. unfold getDeckLinkCard, bind. rewrite ask_tick, Hit.
    reflexivity.
  - intros Hit Hj Hgo Hstop. unfold getDeckLinkCard, bind.
    rewrite ask_tick, Hit. cbn [negb].
    rewrite (getDeckLinkCard_loop_stops hw Pos j (tick w 1)).
    + rewrite tick_tick. simpl.
      replace (now w + 1 + j)%nat with (S (now w + j)) by lia. reflexivity.
    + exact Hj.
    + intros i Hi. simpl.
      replace (now w + 1 + i)%nat with (S (now w) + i)%nat by lia.
      apply Hgo, Hi.
    + destruct Hstop as [Hstop|Hstop]; [left; exact Hstop|right].
      simpl. replace (now w + 1 + j)%nat with (S (now w) + j)%nat by lia.
      exact Hstop.
Qed.

Lemma getDeckLinkCard_returns_the_last_answer_witness :
  getDeckLinkCard hw_one_card 3
    (new_world (config (-1) (-1) (-1))
               {| Status := idle; TC_current := -1; VideoInputConnections := 0 |})
  = Returns false
      (tick (new_world (config (-1) (-1) (-1))
                       {| Status := idle; TC_current := -1;
                          VideoInputConnections := 0 |}) 3).
Proof.
  apply (proj2 (getDeckLinkCard_returns_the_last_answer hw_one_card 3 1
                  (new_world (config (-1) (-1) (-1))
                     {| Status := idle; TC_current := -1;
                        VideoInputConnections := 0 |}))).
  - reflexivity.
  - lia.
  - intros i Hi. assert (i = O) by lia. subst i. reflexivity.
  - right. reflexivity.
Defined.

Lemma DeckLinkCardsList_loop_counts (hw : Hardware) (k fuel : nat)
    (List : list String.string) (w : World) :
  (forall i, (i < k)%nat ->
             goes_on (fst (IDeckLinkIterator_Next hw (now w + i))) = true) ->
  goes_on (fst (IDeckLinkIterator_Next hw (now w + k))) = false ->
  (k < fuel)%nat ->
  DeckLinkCardsList_loop hw None fuel List w
  = Returns (Some (List ++ repeat "DeckLink"%string k)) (tick w (S k)).
Proof.
  revert fuel List w. induction k as [|k IH]; intros fuel List w Hgo Hstop Hfuel;
    (destruct fuel as [|fuel]; [lia|]); simpl; unfold bind; rewrite ask_tick.
  - rewrite Nat.add_0_r in Hstop. rewrite app_nil_r.
    destruct (fst (IDeckLinkIterator_Next hw (now w)));
      try discriminate Hstop; reflexivity.
  - pose proof (Hgo O ltac:(lia)) as H0. rewrite Nat.add_0_r in H0.
    assert (Rec : DeckLinkCardsList_loop hw None fuel
                    (List ++ ["DeckLink"%string]) (tick w 1)
                  = Returns (Some ((List ++ ["DeckLink"%string])
                                     ++ repeat "DeckLink"%string k))
                            (tick (tick w 1) (S k))).
    { apply IH; [| |lia].
      - intros i Hi. simpl.
        replace (now w + 1 + i)%nat with (now w + S i)%nat by lia.
        apply Hgo. lia.
      - simpl. replace (now w + 1 + k)%nat with (now w + S k)%nat by lia.
        exact Hstop. }
    rewrite tick_tick, <- app_assoc in Rec. simpl in Rec.
    destruct (fst (IDeckLinkIterator_Next hw (now w)));
      try discriminate H0; exact Rec.
Qed.

Lemma DeckLinkCardsList_loop_out_of_fuel (hw : Hardware) (fuel : nat)
    (List : list String.string) (w : World) :
  (forall i, (i < fuel)%nat ->
             goes_on (fst (IDeckLinkIterator_Next hw (now w + i))) = true) ->
  DeckLinkCardsList_loop hw None fuel List w = Returns None (tick w fuel).
Proof.
  revert List w. induction fuel as [|fuel IH]; intros List w Hgo; simpl.
  - unfold ret, tick. rewrite Nat.add_0_r. rewrite world_eta. reflexivity.
  - unfold bind. rewrite ask_tick.
    pose proof (Hgo O ltac:(lia)) as H0. rewrite Nat.add_0_r in H0.
    assert (Rec : DeckLinkCardsList_loop hw None fuel
                    (List ++ ["DeckLink"%string]) (tick w 1)
                  = Returns None (tick (tick w 1) fuel)).
    { apply IH. intros i Hi. simpl.
      replace (now w + 1 + i)%nat with (now w + S i)%nat by lia.
      apply Hgo. lia. }
    rewrite tick_tick in Rec. simpl in Rec.
    destruct (fst (IDeckLinkIterator_Next hw (now w)));
      try discriminate H0; exact Rec.
Qed.

(** X4. In the builds other than macOS, [DeckLinkCardsList] returns
    the empty list when no iterator can be created; otherwise, when the
    answer number [k] of [Next] is the first [E_FAIL] or [S_FALSE], it
    returns [k] entries, each the text DeckLink, given more than [k]
    units of fuel (an iterator that goes on for the whole fuel gives no
    list). *)
Theorem DeckLinkCardsList_has_one_entry_per_card
    (hw : Hardware) (k fuel : nat) (w : World) :
  (CreateDeckLinkIteratorInstance hw (now w) = false ->
   DeckLinkCardsList hw None fuel w = Returns (Some []) (tick w 1)) /\
  (CreateDeckLinkIteratorInstance hw (now w) = true ->
   (forall i, (i < k)%nat ->
      goes_on (fst (IDeckLinkIterator_Next hw (S (now w) + i))) = true) ->
   goes_on (fst (IDeckLinkIterator_Next hw (S (now w) + k))) = false ->
   (k < fuel)%nat ->
   DeckLinkCardsList hw None fuel w
   = Returns (Some (repeat "DeckLink"%string k)) (tick w (S (S k)))) /\
  (CreateDeckLinkIteratorInstance hw (now w) = true ->
   (forall i, (i < fuel)%nat ->
      goes_on (fst (IDeckLinkIterator_Next hw (S (now w) + i))) = true) ->
   DeckLinkCardsList hw None fuel w = Returns None (tick w (S fuel))).
Proof.
  split; [|split].
  - intros Hit. unfold DeckLinkCardsList, bind. rewrite ask_tick, Hit.
    reflexivity.
  - intros Hit Hgo Hstop Hfuel. unfold DeckLinkCardsList, bind.
    rewrite ask_tick, Hit. cbn [negb].
    rewrite (DeckLinkCardsList_loop_counts hw k fuel [] (tick w 1)).
    + rewrite tick_tick. simpl.
      replace (now w + 1 + k)%nat with (S (now w + k)) by lia. reflexivity.
    + intros i Hi. simpl.
      replace (now w + 1 + i)%nat with (S (now w) + i)%nat by lia.
      apply Hgo, Hi.
    + simpl. replace (now w + 1 + k)%nat with (S (now w) + k)%nat by lia.
      exact Hstop.
    + exact Hfuel.
  - intros Hit Hgo. unfold DeckLinkCardsList, bind.
    rewrite ask_tick, Hit. cbn [negb].
    rewrite (DeckLinkCardsList_loop_out_of_fuel hw fuel [] (tick w 1)).
    + rewrite tick_tick. reflexivity.
    + intros i Hi. simpl.
      replace (now w + 1 + i)%nat with (S (now w) + i)%nat by lia.
      apply Hgo, Hi.
Qed.

Lemma DeckLinkCardsList_has_one_entry_per_card_witness :
  DeckLinkCardsList hw_one_card None 5
    (new_world (config (-1) (-1) (-1))
               {| Status := idle; TC_current := -1; VideoInputConnections := 0 |})
  = Returns (Some ["DeckLink"%string])
      (tick (new_world (config (-1) (-1) (-1))
                       {| Status := idle; TC_current := -1;
                          VideoInputConnections := 0 |}) 3).
Proof.
  apply (proj1 (proj2 (DeckLinkCardsList_has_one_entry_per_card hw_one_card 1 5
                  (new_world (config (-1) (-1) (-1))
                     {| Status := idle; TC_current := -1;
                        VideoInputConnections := 0 |})))).
  - reflexivity.
  - intros i Hi. assert (i = O) by lia. subst i. reflexivity.
  - reflexivity.
  - lia.
Defined.

(** ** The card *)

Lemma emitted_app {A} (m : M A) (w : World) (l : list Call) :
  calls (exec m w) = calls w ++ l -> emitted m w = l.
Proof.
  intros H. unfold emitted. rewrite H, skipn_app, skipn_all, Nat.sub_diag.
  reflexivity.
Qed.

Lemma getDeckLinkCard_loop_only_asks (hw : Hardware) (Pos : nat) (w : World) :
  exists b n, getDeckLinkCard_loop hw Pos w = Returns b (tick w n).
Proof.
  revert w. induction Pos as [|Pos IH]; intros w; simpl; unfold bind;
    rewrite ask_tick.
  - exists (snd (IDeckLinkIterator_Next hw (now w))), 1%nat.
    destruct (fst (IDeckLinkIterator_Next hw (now w))); reflexivity.
  - destruct (IH (tick w 1)) as (b & n & Rec). rewrite tick_tick in Rec.
    destruct (fst (IDeckLinkIterator_Next hw (now w)));
      try (exists (snd (IDeckLinkIterator_Next hw (now w))), 1%nat; reflexivity);
      exists b, (1 + n)%nat; exact Rec.
Qed.

Lemma getDeckLinkCard_only_asks (hw : Hardware) (Pos : nat) (w : World) :
  exists b n, getDeckLinkCard hw Pos w = Returns b (tick w n).
Proof.
  unfold getDeckLinkCard, bind. rewrite ask_tick.
  destruct (CreateDeckLinkIteratorInstance hw (now w)); cbn [negb].
  - destruct (getDeckLinkCard_loop_only_asks hw Pos (tick w 1)) as (b & n & H).
    rewrite tick_tick in H. eauto.
  - exists false, 1%nat. reflexivity.
Qed.

(** What [setupCard] does when no card is held yet. *)
Lemma setupCard_acquire (hw : Hardware) (CardPos : nat) (w : World) :
  m_card (self w) = false ->
  exists ok w' rest,
    setupCard hw CardPos w = Returns ok w' /\
    m_card (self w') = ok /\
    m_input (self w') = m_input (self w) /\
    m_control (self w') = m_control (self w) /\
    Glue (self w') = Glue (self w) /\
    status_of w' = status_of w /\
    calls w' = calls w ++ (if ok then card_AddRef :: rest else []) /\
    forallb (fun c => negb (is_AddRef c) && negb (is_Release c)) rest = true.
Proof.
  intros Hc. unfold setupCard, bind, this. rewrite Hc.
  destruct (getDeckLinkCard_only_asks hw CardPos w) as (card & n & G).
  rewrite G. run_monad. destruct card; cbn.
  - destruct (is_S_OK (QueryInterface_Attributes hw (now w + n))); cbn;
      [destruct (is_S_OK (fst (GetInt_VideoInputConnections hw
                                 (S (now w + n))))); cbn|];
      destruct (is_S_OK (QueryInterface_Configuration hw _)); cbn;
      try destruct (negb (VideoInputConnection (Config_In (self w)) =? -1));
      cbn;
      (eexists true, _, _; repeat split;
       rewrite <- ?app_assoc; cbn; reflexivity).
  - exists false. eexists. exists []. rewrite app_nil_r. repeat split.
Qed.

Lemma count_calls_app (p : Call -> bool) (l l' : list Call) :
  count_calls p (l ++ l') = (count_calls p l + count_calls p l')%nat.
Proof. unfold count_calls. rewrite filter_app, length_app. reflexivity. Qed.

Lemma count_calls_none (p q : Call -> bool) (l : list Call) :
  forallb q l = true -> (forall c, q c = true -> p c = false) ->
  count_calls p l = O.
Proof.
  intros Hall Hq. unfold count_calls. induction l as [|c l IH]; [reflexivity|].
  simpl in *. apply andb_true_iff in Hall as [Hc Hl].
  rewrite (Hq c Hc). apply IH, Hl.
Qed.

(** X5. [setupCard] on a helper that holds no card returns whether it
    now holds one; it takes a reference ([AddRef]) exactly once when it
    does and none when it does not, it never releases, and once a card
    is held every further [setupCard] returns [true] without any call
    or driver query. *)
Theorem setupCard_takes_one_reference
    (hw : Hardware) (CardPos : nat) (w : World) :
  m_card (self w) = false ->
  exists ok w',
    setupCard hw CardPos w = Returns ok w' /\
    m_card (self w') = ok /\
    count_calls is_AddRef (emitted (setupCard hw CardPos) w)
    = (if ok then 1 else 0)%nat /\
    count_calls is_Release (emitted (setupCard hw CardPos) w) = O /\
    (ok = true ->
     forall hw' CardPos', setupCard hw' CardPos' w' = Returns true w').
Proof.
  intros Hc.
  destruct (setupCard_acquire hw CardPos w Hc)
    as (ok & w' & rest & Run & Card & _ & _ & _ & _ & Calls & Rest).
  exists ok, w'. split; [exact Run|]. split; [exact Card|].
  assert (Em : emitted (setupCard hw CardPos) w
               = if ok then card_AddRef :: rest else []).
  { apply emitted_app. unfold exec. rewrite Run. exact Calls. }
  rewrite Em.
  assert (NoAdd : count_calls is_AddRef rest = O).
  { apply (count_calls_none _ _ _ Rest). intros c H.
    apply andb_true_iff in H as [H _]. apply negb_true_iff in H. exact H. }
  assert (NoRel : count_calls is_Release rest = O).
  { apply (count_calls_none _ _ _ Rest). intros c H.
    apply andb_true_iff in H as [_ H]. apply negb_true_iff in H. exact H. }
  split; [|split].
  - destruct ok; [|reflexivity].
    change (card_AddRef :: rest) with ([card_AddRef] ++ rest).
    rewrite count_calls_app, NoAdd. reflexivity.
  - destruct ok; [|reflexivity].
    change (card_AddRef :: rest) with ([card_AddRef] ++ rest).
    rewrite count_calls_app, NoRel. reflexivity.
  - intros -> hw' CardPos'. unfold setupCard, bind, this. rewrite Card.
    reflexivity.
Qed.

Lemma setupCard_takes_one_reference_witness :
  exists ok w',
    setupCard hw_ok O
      (new_world (config (-1) (-1) (-1))
                 {| Status := idle; TC_current := -1; VideoInputConnections := 0 |})
    = Returns ok w' /\
    m_card (self w') = ok /\
    count_calls is_AddRef
      (emitted (setupCard hw_ok O)
         (new_world (config (-1) (-1) (-1))
                    {| Status := idle; TC_current := -1;
                       VideoInputConnections := 0 |}))
    = (if ok then 1 else 0)%nat /\
    count_calls is_Release
      (emitted (setupCard hw_ok O)
         (new_world (config (-1) (-1) (-1))
                    {| Status := idle; TC_current := -1;
                       VideoInputConnections := 0 |})) = O /\
    (ok = true ->
     forall hw' CardPos', setupCard hw' CardPos' w' = Returns true w').
Proof.
  apply (setupCard_takes_one_reference hw_ok O
           (new_world (config (-1) (-1) (-1))
              {| Status := idle; TC_current := -1; VideoInputConnections := 0 |})).
  reflexivity.
Defined.

(** X6. A helper that is constructed and then destroyed, with nothing
    in between, has released the card as often as it took a reference:
    once each when a card was found, never when none was; both the
    constructor and the destructor return, and the destroyed helper
    holds no card. *)
Theorem construction_and_destruction_balance
    (hw hw' : Hardware) (CardPos : nat)
    (Config_In_ : config_in) (Config_Out_ : config_out) :
  exists found built gone,
    CaptureHelper_ctor hw CardPos (new_world Config_In_ Config_Out_)
    = Returns tt built /\
    m_card (self built) = found /\
    CaptureHelper_dtor hw' built = Returns tt gone /\
    m_card (self gone) = false /\
    count_calls is_AddRef (calls gone) = (if found then 1 else 0)%nat /\
    count_calls is_Release (calls gone) = (if found then 1 else 0)%nat.
Proof.
  destruct (setupCard_acquire hw CardPos (new_world Config_In_ Config_Out_)
              eq_refl)
    as (ok & built & rest & Run & Card & Input & Control & G & _ & Calls & Rest).
  exists ok, built. eexists.
  split.
  { unfold CaptureHelper_ctor, bind. rewrite Run. destruct ok; reflexivity. }
  split; [exact Card|].
  split; [apply dtor_world|].
  split; [reflexivity|].
  simpl in Input, Control, G, Calls. cbn [calls].
  unfold teardown_order. rewrite Input, Control, G, Card, Calls.
  assert (NoAdd : count_calls is_AddRef rest = O).
  { apply (count_calls_none _ _ _ Rest). intros c H.
    apply andb_true_iff in H as [H _]. apply negb_true_iff in H. exact H. }
  assert (NoRel : count_calls is_Release rest = O).
  { apply (count_calls_none _ _ _ Rest). intros c H.
    apply andb_true_iff in H as [_ H]. apply negb_true_iff in H. exact H. }
  rewrite !count_calls_app.
  destruct ok; destruct (status_eqb (Status (Config_Out (self built))) finished);
    try (split; reflexivity);
    change (card_AddRef :: rest) with ([card_AddRef] ++ rest);
    rewrite !count_calls_app, NoAdd, NoRel; split; reflexivity.
Qed.

(** ** The input *)

(** The successful run of [setupInput]. *)
Lemma setupInput_success (hw : Hardware) (w : World)
    (modes : list IDeckLinkDisplayMode) (d : IDeckLinkDisplayMode) :
  m_card (self w) = true ->
  m_input (self w) = false ->
  is_S_OK (QueryInterface_Input hw (now w)) = true ->
  GetDisplayModeIterator hw (1 + now w) = (S_OK, modes) ->
  find (fun d => is_bmdModeNTSC (GetDisplayMode d)) modes = Some d ->
  GetWidth d <> -1 ->
  is_S_OK (EnableVideoInput hw (2 + now w)) = true ->
  is_S_OK (EnableAudioInput hw (3 + now w)) = true ->
  is_S_OK (StartStreams hw (4 + now w)) = true ->
  setupInput hw w
  = Returns true
      {| self := set_mode d (set_m_input true (set_m_width (-1) (self w)));
         now := (5 + now w)%nat;
         calls := calls w
                  ++ [input_SetCallback true;
                      input_EnableVideoInput
                        (if VideoBitDepth (Config_In (self w)) =? 10
                         then bmdFormat10BitYUV else bmdFormat8BitYUV);
                      input_EnableAudioInput
                        (if (AudioBitDepth (Config_In (self w)) =? 24)
                            || (AudioBitDepth (Config_In (self w)) =? 32)
                         then bmdAudioSampleType32bitInteger
                         else bmdAudioSampleType16bitInteger)
                        (to_u32 (ChannelsCount (Config_In (self w))));
                      input_StartStreams] |}.
Proof.
  intros Hc Hi Hq Hm Hf Hw Hv Ha Hs. cbn in Hm, Hv, Ha, Hs.
  apply Z.eqb_neq in Hw.
  unfold setupInput. run_monad.
  rewrite Hi. cbn. rewrite Hc. cbn. rewrite Hq. cbn. rewrite Hm. cbn.
  rewrite Hf. cbn. rewrite Hw. cbn. rewrite Hv. cbn. rewrite Ha. cbn.
  rewrite Hs. cbn. rewrite <- !app_assoc. reflexivity.
Qed.

(** X7. When the card grants the input interface, knows the NTSC mode
    and accepts video, audio and streaming, [setupInput] returns [true]
    with the four calls set-callback, enable-video, enable-audio,
    start-streams in this order; width, height, frame duration and time
    scale are those of the first NTSC mode of the iterator; the pixel
    format is 10-bit YUV exactly when [VideoBitDepth] is 10 and 8-bit
    YUV otherwise; the audio samples are 32-bit exactly when
    [AudioBitDepth] is 24 or 32, 16-bit otherwise; the channel count
    the driver receives is the configured [int] converted to the
    unsigned 32-bit parameter of [EnableAudioInput], so a configured
    count of [-1] arrives as [4294967295]. *)
Theorem setupInput_opens_the_ntsc_mode
    (hw : Hardware) (w : World)
    (modes : list IDeckLinkDisplayMode) (d : IDeckLinkDisplayMode) :
  m_card (self w) = true ->
  m_input (self w) = false ->
  is_S_OK (QueryInterface_Input hw (now w)) = true ->
  GetDisplayModeIterator hw (1 + now w) = (S_OK, modes) ->
  find (fun d => is_bmdModeNTSC (GetDisplayMode d)) modes = Some d ->
  GetWidth d <> -1 ->
  is_S_OK (EnableVideoInput hw (2 + now w)) = true ->
  is_S_OK (EnableAudioInput hw (3 + now w)) = true ->
  is_S_OK (StartStreams hw (4 + now w)) = true ->
  exists w' format sampleType,
    setupInput hw w = Returns true w' /\
    m_input (self w') = true /\
    (m_width (self w'), m_height (self w')) = (GetWidth d, GetHeight d) /\
    (m_frameDuration (self w'), m_timeScale (self w')) = GetFrameRate d /\
    emitted (setupInput hw) w
    = [input_SetCallback true; input_EnableVideoInput format;
       input_EnableAudioInput sampleType
         (to_u32 (ChannelsCount (Config_In (self w))));
       input_StartStreams] /\
    (ChannelsCount (Config_In (self w)) = -1 ->
     In (input_EnableAudioInput sampleType 4294967295)
        (emitted (setupInput hw) w)) /\
    (format = bmdFormat10BitYUV <-> VideoBitDepth (Config_In (self w)) = 10) /\
    (sampleType = bmdAudioSampleType32bitInteger
     <-> AudioBitDepth (Config_In (self w)) = 24
         \/ AudioBitDepth (Config_In (self w)) = 32).
Proof.
  intros Hc Hi Hq Hm Hf Hw Hv Ha Hs.
  pose proof (setupInput_success hw w modes d Hc Hi Hq Hm Hf Hw Hv Ha Hs) as Run.
  eexists _, _, _. split; [exact Run|].
  split; [reflexivity|]. split; [reflexivity|].
  split; [cbn; destruct (GetFrameRate d); reflexivity|].
  assert (Em : emitted (setupInput hw) w
               = [input_SetCallback true;
                  input_EnableVideoInput
                    (if VideoBitDepth (Config_In (self w)) =? 10
                     then bmdFormat10BitYUV else bmdFormat8BitYUV);
                  input_EnableAudioInput
                    (if (AudioBitDepth (Config_In (self w)) =? 24)
                        || (AudioBitDepth (Config_In (self w)) =? 32)
                     then bmdAudioSampleType32bitInteger
                     else bmdAudioSampleType16bitInteger)
                    (to_u32 (ChannelsCount (Config_In (self w))));
                  input_StartStreams])
    by (apply emitted_app; unfold exec; rewrite Run; reflexivity).
  split; [exact Em|].
  split; [intros Neg; rewrite Em, Neg; right; right; left; reflexivity|].
  split.
  - destruct (VideoBitDepth (Config_In (self w)) =? 10) eqn:E;
      [apply Z.eqb_eq in E | apply Z.eqb_neq in E]; split; intros H;
      try reflexivity; try assumption; try discriminate H; contradiction.
  - destruct (AudioBitDepth (Config_In (self w)) =? 24) eqn:E1;
      destruct (AudioBitDepth (Config_In (self w)) =? 32) eqn:E2;
      cbn [orb]; split; intros H; try reflexivity; try discriminate H;
      try (left; apply Z.eqb_eq; exact E1);
      try (right; apply Z.eqb_eq; exact E2).
    apply Z.eqb_neq in E1, E2. destruct H; contradiction.
Qed.

Lemma setupInput_opens_the_ntsc_mode_witness :
  exists w' format sampleType,
    setupInput hw_ok
      (helper_with true false false true (config (-1) (-1) (-1)) idle (-1) 0)
    = Returns true w' /\
    m_input (self w') = true /\
    (m_width (self w'), m_height (self w')) = (GetWidth ntsc, GetHeight ntsc) /\
    (m_frameDuration (self w'), m_timeScale (self w')) = GetFrameRate ntsc /\
    emitted (setupInput hw_ok)
      (helper_with true false false true (config (-1) (-1) (-1)) idle (-1) 0)
    = [input_SetCallback true; input_EnableVideoInput format;
       input_EnableAudioInput sampleType
         (to_u32
            (ChannelsCount
               (Config_In
                  (self (helper_with true false false true
                           (config (-1) (-1) (-1)) idle (-1) 0)))));
       input_StartStreams] /\
    (ChannelsCount
       (Config_In
          (self (helper_with true false false true
                   (config (-1) (-1) (-1)) idle (-1) 0))) = -1 ->
     In (input_EnableAudioInput sampleType 4294967295)
        (emitted (setupInput hw_ok)
           (helper_with true false false true
              (config (-1) (-1) (-1)) idle (-1) 0))) /\
    (format = bmdFormat10BitYUV
     <-> VideoBitDepth
           (Config_In
              (self (helper_with true false false true
                       (config (-1) (-1) (-1)) idle (-1) 0))) = 10) /\
    (sampleType = bmdAudioSampleType32bitInteger
     <-> AudioBitDepth
           (Config_In
              (self (helper_with true false false true
                       (config (-1) (-1) (-1)) idle (-1) 0))) = 24
         \/ AudioBitDepth
              (Config_In
                 (self (helper_with true false false true
                          (config (-1) (-1) (-1)) idle (-1) 0))) = 32).
Proof.
  apply (setupInput_opens_the_ntsc_mode hw_ok
           (helper_with true false false true (config (-1) (-1) (-1)) idle (-1) 0)
           [ntsc] ntsc); try reflexivity.
  cbn. discriminate.
Defined.

(** The conversion at work: a configured channel count of [-1] is handed
    to the driver as [4294967295]. *)
Example negative_channel_count_reaches_the_driver_unsigned :
  emitted (setupInput hw_ok)
    (helper_with true false false true
       {| FrameCount := -1; TC_in := -1; TC_out := -1;
          VideoBitDepth := 10; AudioBitDepth := 24;
          ChannelsCount := -1; DropFrame := true;
          VideoInputConnection := -1;
          TimeCodeIsAvailable_Callback := true |}
       idle (-1) 0)
  = [input_SetCallback true; input_EnableVideoInput bmdFormat10BitYUV;
     input_EnableAudioInput bmdAudioSampleType32bitInteger 4294967295;
     input_StartStreams].
Proof. vm_compute. reflexivity. Qed.

(** A run of [setupInput] that fails after the interface was granted
    leaves the pointer set. *)
Lemma setupInput_false_keeps_interface (hw : Hardware) (w w' : World) :
  m_card (self w) = true ->
  m_input (self w) = false ->
  is_S_OK (QueryInterface_Input hw (now w)) = true ->
  setupInput hw w = Returns false w' ->
  m_input (self w') = true.
Proof.
  intros Hc Hi Hq. unfold setupInput. run_monad.
  rewrite Hi. cbn. rewrite Hc. cbn. rewrite Hq. cbn.
  destruct (GetDisplayModeIterator hw (S (now w))) as [hr modes]. cbn.
  destruct (is_S_OK hr); cbn; [|intros [= <-]; reflexivity].
  destruct (find _ modes) as [d|]; cbn.
  - destruct (GetWidth d =? -1); cbn; [intros [= <-]; reflexivity|].
    destruct (is_S_OK (EnableVideoInput hw _)); cbn;
      [|intros [= <-]; reflexivity].
    destruct (is_S_OK (EnableAudioInput hw _)); cbn;
      [|intros [= <-]; reflexivity].
    destruct (is_S_OK (StartStreams hw _)); cbn;
      [discriminate|intros [= <-]; reflexivity].
  - intros [= <-]. reflexivity.
Qed.

Lemma setupInput_already_open (hw : Hardware) (w : World) :
  m_input (self w) = true -> setupInput hw w = Returns true w.
Proof. intros H. unfold setupInput. run_monad. rewrite H. reflexivity. Qed.

(** X8. When the card grants the input interface but a later step of
    [setupInput] fails (no mode iterator, no NTSC mode, video or audio
    refused, streams not started), [setupInput] returns [false] and
    leaves [m_input] set; the next [setupInput] then returns [true]
    without any call or driver query, whatever the driver would
    answer. *)
Theorem failed_setupInput_succeeds_when_repeated
    (hw : Hardware) (w w' : World) :
  m_card (self w) = true ->
  m_input (self w) = false ->
  is_S_OK (QueryInterface_Input hw (now w)) = true ->
  setupInput hw w = Returns false w' ->
  m_input (self w') = true /\
  forall hw', setupInput hw' w' = Returns true w'.
Proof.
  intros Hc Hi Hq Run.
  pose proof (setupInput_false_keeps_interface hw w w' Hc Hi Hq Run) as Set_.
  split; [exact Set_|]. intros hw'. apply setupInput_already_open, Set_.
Qed.

Lemma failed_setupInput_succeeds_when_repeated_witness :
  m_input (self (exec (setupInput hw_no_video)
                      (helper_with true false false true
                         (config (-1) (-1) (-1)) idle (-1) 0))) = true /\
  forall hw',
    setupInput hw'
      (exec (setupInput hw_no_video)
            (helper_with true false false true
               (config (-1) (-1) (-1)) idle (-1) 0))
    = Returns true
        (exec (setupInput hw_no_video)
              (helper_with true false false true
                 (config (-1) (-1) (-1)) idle (-1) 0)).
Proof.
  apply (failed_setupInput_succeeds_when_repeated hw_no_video
           (helper_with true false false true
              (config (-1) (-1) (-1)) idle (-1) 0));
    reflexivity.
Defined.

Lemma cleanupInput_result (w : World) :
  exists w0, cleanupInput w = Returns true w0 /\
             m_input (self w0) = false /\
             m_card (self w0) = m_card (self w) /\
             m_control (self w0) = m_control (self w) /\
             Config_In (self w0) = Config_In (self w) /\
             Config_Out (self w0) = Config_Out (self w) /\
             now w0 = now w /\
             calls w0 = calls w
                        ++ (if m_input (self w)
                            then [input_StopStreams; input_DisableVideoInput;
                                  input_SetCallback false; input_Release]
                            else []).
Proof.
  unfold cleanupInput. run_monad. destruct (m_input (self w)) eqn:E; cbn.
  - eexists. split; [reflexivity|]. cbn. rewrite <- !app_assoc.
    repeat split.
  - exists w. rewrite app_nil_r. repeat split. exact E.
Qed.

(** X9. [startCapture] does not look at the result of its first
    [setupInput]: when, after the input was closed, the card grants
    the input interface but the input cannot be opened (that
    [setupInput] returns [false]), an unbounded capture on a helper
    with an open deck control still issues the play command and ends in
    status [capturing]; the play command is its last call. *)
Theorem startCapture_starts_although_the_input_failed
    (hw : Hardware) (w w1 : World) :
  m_card (self w) = true ->
  m_control (self w) = true ->
  TC_in (Config_In (self w)) = -1 ->
  is_S_OK (QueryInterface_Input hw (now w)) = true ->
  setupInput hw (exec cleanupInput w) = Returns false w1 ->
  startCapture hw w
  = Returns tt {| self := set_Status capturing (self w1);
                  now := S (now w1);
                  calls := calls w1 ++ [control_Play] |}.
Proof.
  intros Hc Hk Htc Hq Run.
  destruct (cleanupInput_result w)
    as (w0 & Clean & Hi0 & Hc0 & Hk0 & Hin0 & _ & Hn0 & _).
  unfold exec in Run. rewrite Clean in Run. cbn [world_of] in Run.
  assert (Set1 : m_input (self w1) = true).
  { apply (setupInput_false_keeps_interface hw w0 w1);
      [congruence | exact Hi0 | rewrite Hn0; exact Hq | exact Run]. }
  assert (Cfg1 : Config_In (self w1) = Config_In (self w0)).
  { destruct (setupInput_keeps_capture_state hw w0) as [P _].
    rewrite Run in P. cbn [world_of] in P. unfold capture_state in P.
    congruence. }
  assert (Ctl1 : m_control (self w1) = m_control (self w0)).
  { destruct (setupInput_keeps_control hw w0) as [P _].
    rewrite Run in P. exact P. }
  unfold startCapture, bind. rewrite Clean, Run.
  rewrite (setupInput_already_open hw w1 Set1).
  run_monad. rewrite Cfg1, Hin0, Htc. cbn.
  rewrite Ctl1, Hk0, Hk. reflexivity.
Qed.

Lemma startCapture_starts_although_the_input_failed_witness :
  startCapture hw_no_video (helper (config (-1) (-1) (-1)) idle (-1) 0)
  = Returns tt
      {| self := set_Status capturing
                   (self (exec (setupInput hw_no_video)
                               (exec cleanupInput
                                     (helper (config (-1) (-1) (-1)) idle (-1) 0))));
         now := S (now (exec (setupInput hw_no_video)
                             (exec cleanupInput
                                   (helper (config (-1) (-1) (-1)) idle (-1) 0))));
         calls := calls (exec (setupInput hw_no_video)
                              (exec cleanupInput
                                    (helper (config (-1) (-1) (-1)) idle (-1) 0)))
                  ++ [control_Play] |}.
Proof.
  apply (startCapture_starts_although_the_input_failed hw_no_video
           (helper (config (-1) (-1) (-1)) idle (-1) 0));
    reflexivity.
Defined.

(** ** The deck control *)

(** X10. On a helper that holds a card but no session, when the input
    opens and the card grants the deck-control interface and accepts
    [Open], [setupControl] returns [true] after opening the input
    first and the deck second; [Open] receives the time scale and the
    frame duration of the NTSC mode found for the input, and the
    configured drop-frame flag. *)
Theorem setupControl_opens_the_deck_on_the_input_time_base
    (hw : Hardware) (w : World)
    (modes : list IDeckLinkDisplayMode) (d : IDeckLinkDisplayMode) :
  m_card (self w) = true ->
  m_input (self w) = false ->
  m_control (self w) = false ->
  is_S_OK (QueryInterface_Input hw (now w)) = true ->
  GetDisplayModeIterator hw (1 + now w) = (S_OK, modes) ->
  find (fun d => is_bmdModeNTSC (GetDisplayMode d)) modes = Some d ->
  GetWidth d <> -1 ->
  is_S_OK (EnableVideoInput hw (2 + now w)) = true ->
  is_S_OK (EnableAudioInput hw (3 + now w)) = true ->
  is_S_OK (StartStreams hw (4 + now w)) = true ->
  is_S_OK (QueryInterface_DeckControl hw (5 + now w)) = true ->
  is_S_OK (Open hw (6 + now w)) = true ->
  exists w' inputCalls,
    setupControl hw w = Returns true w' /\
    m_input (self w') = true /\
    m_control (self w') = true /\
    emitted (setupInput hw) w = inputCalls /\
    emitted (setupControl hw) w
    = inputCalls
      ++ [control_SetCallback true;
          control_Open (snd (GetFrameRate d)) (fst (GetFrameRate d))
                       (DropFrame (Config_In (self w)))].
Proof.
  intros Hc Hi Hk Hq Hm Hf Hw Hv Ha Hs Hqc Ho.
  pose proof (setupInput_success hw w modes d Hc Hi Hq Hm Hf Hw Hv Ha Hs) as In.
  cbn in Hqc, Ho.
  eexists _, _.
  assert (Run : setupControl hw w
                = Returns true
                    {| self := set_m_control true
                                 (set_mode d (set_m_input true
                                                (set_m_width (-1) (self w))));
                       now := (7 + now w)%nat;
                       calls := (calls w
                                 ++ [input_SetCallback true;
                                     input_EnableVideoInput
                                       (if VideoBitDepth (Config_In (self w)) =? 10
                                        then bmdFormat10BitYUV
                                        else bmdFormat8BitYUV);
                                     input_EnableAudioInput
                                       (if (AudioBitDepth (Config_In (self w)) =? 24)
                                           || (AudioBitDepth (Config_In (self w)) =? 32)
                                        then bmdAudioSampleType32bitInteger
                                        else bmdAudioSampleType16bitInteger)
                                       (to_u32 (ChannelsCount (Config_In (self w))));
                                     input_StartStreams])
                                ++ [control_SetCallback true;
                                    control_Open (snd (GetFrameRate d))
                                                 (fst (GetFrameRate d))
                                                 (DropFrame (Config_In (self w)))] |}).
  { unfold setupControl, bind. rewrite In. unfold_monad.
    cbn -[setupInput]. rewrite Hk. cbn. rewrite Hc. cbn. rewrite Hqc. cbn.
    rewrite Ho. cbn. rewrite <- ?app_assoc. cbn. rewrite <- ?app_assoc.
    reflexivity. }
  split; [exact Run|]. split; [reflexivity|]. split; [reflexivity|].
  split.
  - apply emitted_app. unfold exec. rewrite In. reflexivity.
  - apply emitted_app. unfold exec. rewrite Run. cbn [world_of calls].
    rewrite <- app_assoc. reflexivity.
Qed.

Lemma setupControl_opens_the_deck_on_the_input_time_base_witness :
  exists w' inputCalls,
    setupControl hw_ok
      (helper_with true false false true (config (-1) 1 2) idle (-1) 0)
    = Returns true w' /\
    m_input (self w') = true /\
    m_control (self w') = true /\
    emitted (setupInput hw_ok)
      (helper_with true false false true (config (-1) 1 2) idle (-1) 0)
    = inputCalls /\
    emitted (setupControl hw_ok)
      (helper_with true false false true (config (-1) 1 2) idle (-1) 0)
    = inputCalls
      ++ [control_SetCallback true;
          control_Open (snd (GetFrameRate ntsc)) (fst (GetFrameRate ntsc))
            (DropFrame
               (Config_In
                  (self (helper_with true false false true
                           (config (-1) 1 2) idle (-1) 0))))].
Proof.
  apply (setupControl_opens_the_deck_on_the_input_time_base hw_ok
           (helper_with true false false true (config (-1) 1 2) idle (-1) 0)
           [ntsc] ntsc); try reflexivity.
  cbn. discriminate.
Defined.

(** X11. On a bounded capture in status [capturing], [cleanupControl]
    does not close the deck control: it writes [aborting], sends
    [Abort] as its only call, returns [false] and keeps the session.
    Called again it finds [aborting], closes the session with the calls
    close, reset callback, release, and returns [true]. *)
Theorem cleanupControl_aborts_a_running_bounded_capture
    (hw : Hardware) (w : World) :
  m_control (self w) = true ->
  status_of w = capturing ->
  TC_in (Config_In (self w)) <> -1 ->
  cleanupControl hw w
  = Returns false {| self := set_Status aborting (self w);
                     now := S (now w);
                     calls := calls w ++ [control_Abort] |} /\
  cleanupControl hw {| self := set_Status aborting (self w);
                       now := S (now w);
                       calls := calls w ++ [control_Abort] |}
  = Returns true
      {| self := set_m_control false (set_Status aborting (self w));
         now := S (now w);
         calls := calls w
                  ++ [control_Abort; control_Close false;
                      control_SetCallback false; control_Release] |}.
Proof.
  intros Hk Hst Htc. unfold status_of in Hst. apply Z.eqb_neq in Htc.
  unfold cleanupControl, cleanupControl_Close. run_monad.
  rewrite Hk, Hst, Htc. cbn. rewrite <- !app_assoc. split; reflexivity.
Qed.

Lemma cleanupControl_aborts_a_running_bounded_capture_witness :
  cleanupControl hw_ok (helper (config (-1) 1 2) capturing (-1) 0)
  = Returns false
      {| self := set_Status aborting
                   (self (helper (config (-1) 1 2) capturing (-1) 0));
         now := S (now (helper (config (-1) 1 2) capturing (-1) 0));
         calls := calls (helper (config (-1) 1 2) capturing (-1) 0)
                  ++ [control_Abort] |}.
Proof.
  apply (cleanupControl_aborts_a_running_bounded_capture hw_ok
           (helper (config (-1) 1 2) capturing (-1) 0));
    [reflexivity | reflexivity | cbn; discriminate].
Defined.

(** ** Timecode queries *)

Lemma to_i32_small (z : Z) : 0 <= z < 2 ^ 31 -> to_i32 z = z.
Proof.
  intros H. unfold to_i32. rewrite Z.mod_small by lia.
  destruct (z <? 2 ^ 31) eqn:E; [reflexivity|].
  apply Z.ltb_ge in E. lia.
Qed.

(** X12. With both sessions open, a timecode query that the deck
    answers makes [getTimeCode] store the answer in [TC_current] (the
    BCD value itself when it is below 2^31), call the
    timecode-available callback exactly when one is configured, and
    leave [WantTimeCode] as it was; one query is sent and nothing
    else. *)
Theorem getTimeCode_stores_the_answer
    (hw : Hardware) (w : World) (err : BMDDeckControlError) (bcd : Z) :
  m_input (self w) = true ->
  m_control (self w) = true ->
  GetTimecode hw (now w) = (S_OK, err, bcd) ->
  exists w',
    getTimeCode hw w = Returns tt w' /\
    TC_current (Config_Out (self w')) = to_i32 bcd /\
    (0 <= bcd < 2 ^ 31 -> TC_current (Config_Out (self w')) = bcd) /\
    WantTimeCode (self w') = WantTimeCode (self w) /\
    status_of w' = status_of w /\
    emitted (getTimeCode hw) w
    = control_GetTimecode
        :: (if TimeCodeIsAvailable_Callback (Config_In (self w))
            then [TimeCodeIsAvailable] else []).
Proof.
  intros Hi Hk Hq.
  assert (Run : getTimeCode hw w
                = Returns tt
                    {| self := set_TC_current (to_i32 bcd) (self w);
                       now := S (now w);
                       calls := calls w
                                ++ control_GetTimecode
                                   :: (if TimeCodeIsAvailable_Callback
                                            (Config_In (self w))
                                       then [TimeCodeIsAvailable] else []) |}).
  { unfold getTimeCode, setupControl, bind.
    rewrite (setupInput_already_open hw w Hi).
    unfold readTimeCode. run_monad. rewrite Hk. cbn. rewrite Hk. cbn.
    rewrite Hq. cbn.
    destruct (TimeCodeIsAvailable_Callback (Config_In (self w))); cbn;
      rewrite <- ?app_assoc; reflexivity. }
  eexists. split; [exact Run|]. split; [reflexivity|].
  split; [intros Hb; cbn; apply to_i32_small, Hb|].
  split; [reflexivity|]. split; [reflexivity|].
  apply emitted_app. unfold exec. rewrite Run. reflexivity.
Qed.

Lemma getTimeCode_stores_the_answer_witness :
  exists w',
    getTimeCode hw_ok (helper (config (-1) (-1) (-1)) idle (-1) 0)
    = Returns tt w' /\
    TC_current (Config_Out (self w')) = to_i32 0x01000000 /\
    (0 <= 0x01000000 < 2 ^ 31 -> TC_current (Config_Out (self w')) = 0x01000000) /\
    WantTimeCode (self w')
    = WantTimeCode (self (helper (config (-1) (-1) (-1)) idle (-1) 0)) /\
    status_of w' = status_of (helper (config (-1) (-1) (-1)) idle (-1) 0) /\
    emitted (getTimeCode hw_ok) (helper (config (-1) (-1) (-1)) idle (-1) 0)
    = control_GetTimecode
        :: (if TimeCodeIsAvailable_Callback
                 (Config_In (self (helper (config (-1) (-1) (-1)) idle (-1) 0)))
            then [TimeCodeIsAvailable] else []).
Proof.
  apply (getTimeCode_stores_the_answer hw_ok
           (helper (config (-1) (-1) (-1)) idle (-1) 0)
           bmdDeckControlNoError 0x01000000); reflexivity.
Defined.

(** X13. When the sessions cannot be set up ([setupControl] returns
    [false]), [getTimeCode] returns without asking the deck: no
    timecode query is sent, and configuration, status, [TC_current],
    counter and pending request are as before. *)
Theorem getTimeCode_without_deck_asks_nothing
    (hw : Hardware) (w w' : World) :
  setupControl hw w = Returns false w' ->
  getTimeCode hw w = Returns tt w' /\
  capture_state (self w') = capture_state (self w) /\
  count_calls is_GetTimecode (emitted (getTimeCode hw) w) = O.
Proof.
  intros Run.
  assert (Get : getTimeCode hw w = Returns tt w')
    by (unfold getTimeCode, bind; rewrite Run; reflexivity).
  destruct (setupControl_keeps_capture_state hw w) as (P & l & Calls & Ok).
  rewrite Run in P, Calls. cbn [world_of] in P, Calls.
  split; [exact Get|]. split; [exact P|].
  rewrite (emitted_app (getTimeCode hw) w l)
    by (unfold exec; rewrite Get; exact Calls).
  apply (count_calls_none _ _ _ Ok). intros c H. destruct c; try discriminate H;
    reflexivity.
Qed.

Lemma getTimeCode_without_deck_asks_nothing_witness :
  getTimeCode hw_without_deck
    (helper_with true true false true (config (-1) 1 2) idle 5 0)
  = Returns tt
      (exec (setupControl hw_without_deck)
            (helper_with true true false true (config (-1) 1 2) idle 5 0)) /\
  capture_state
    (self (exec (setupControl hw_without_deck)
                (helper_with true true false true (config (-1) 1 2) idle 5 0)))
  = capture_state
      (self (helper_with true true false true (config (-1) 1 2) idle 5 0)) /\
  count_calls is_GetTimecode
    (emitted (getTimeCode hw_without_deck)
             (helper_with true true false true (config (-1) 1 2) idle 5 0)) = O.
Proof.
  apply (getTimeCode_without_deck_asks_nothing hw_without_deck
           (helper_with true true false true (config (-1) 1 2) idle 5 0)).
  reflexivity.
Defined.

(** X14. A timecode query that fails for a reason other than missing
    communication sets [TC_current] to [-1] but is not remembered:
    with no request pending before, none is pending after, and no
    later status event, connected or not, sends a query. *)
Theorem failed_query_for_another_reason_is_not_retried
    (hw : Hardware) (connected : Z) (w : World)
    (hr : HRESULT) (err : BMDDeckControlError) (bcd : Z)
    (events : list (Z * Z)) :
  m_control (self w) = true ->
  WantTimeCode (self w) = false ->
  GetTimecode hw (now w) = (hr, err, bcd) ->
  is_S_OK hr = false ->
  is_NoCommunicationError err = false ->
  exists w1,
    readTimeCode hw w = Returns tt w1 /\
    TC_current (Config_Out (self w1)) = -1 /\
    WantTimeCode (self w1) = false /\
    deliver_status hw connected events w1 = Returns tt w1.
Proof.
  intros Hk Hw Hq Hhr He.
  pose proof (readTimeCode_other_error hw w hr err bcd Hk Hq Hhr He) as Run.
  eexists. split; [exact Run|]. split; [reflexivity|]. split; [exact Hw|].
  induction events as [|[f m] rest IH]; [reflexivity|].
  cbn [deliver_status]. unfold bind.
  rewrite status_event_nothing_pending by exact Hw. exact IH.
Qed.

Lemma failed_query_for_another_reason_is_not_retried_witness :
  exists w1,
    readTimeCode
      (hw_with S_OK (fun _ => (E_FAIL, bmdDeckControlDeckTimeoutError, 0)))
      (helper (config (-1) (-1) (-1)) idle 5 0)
    = Returns tt w1 /\
    TC_current (Config_Out (self w1)) = -1 /\
    WantTimeCode (self w1) = false /\
    deliver_status
      (hw_with S_OK (fun _ => (E_FAIL, bmdDeckControlDeckTimeoutError, 0)))
      1 [(1, 1); (0, 1)] w1
    = Returns tt w1.
Proof.
  apply (failed_query_for_another_reason_is_not_retried
           (hw_with S_OK (fun _ => (E_FAIL, bmdDeckControlDeckTimeoutError, 0)))
           1 (helper (config (-1) (-1) (-1)) idle 5 0)
           E_FAIL bmdDeckControlDeckTimeoutError 0);
    reflexivity.
Defined.

(** ** Capture attempts that cannot start *)

Lemma setupInput_true_sets_input (hw : Hardware) (w w' : World) :
  setupInput hw w = Returns true w' -> m_input (self w') = true.
Proof.
  unfold setupInput. run_monad.
  destruct (m_input (self w)) eqn:Hi; cbn; [intros [= <-]; exact Hi|].
  destruct (m_card (self w)); cbn; [|discriminate].
  destruct (is_S_OK (QueryInterface_Input hw (now w))); cbn; [|discriminate].
  destruct (GetDisplayModeIterator hw (S (now w))) as [hr modes]. cbn.
  destruct (is_S_OK hr); cbn; [|discriminate].
  destruct (find _ modes) as [d|]; cbn.
  - destruct (GetWidth d =? -1); cbn; [discriminate|].
    destruct (is_S_OK (EnableVideoInput hw _)); cbn; [|discriminate].
    destruct (is_S_OK (EnableAudioInput hw _)); cbn; [|discriminate].
    destruct (is_S_OK (StartStreams hw _)); cbn; [|discriminate].
    intros [= <-]. reflexivity.
  - discriminate.
Qed.

(** X15. An unbounded capture (no timecode-in) never sets up the deck
    control itself: on a helper whose deck control is not open, once
    the input is open [startCapture] dereferences the null
    [m_control] for the play command; no play command is recorded and
    the status is as before. *)
Theorem unbounded_startCapture_needs_an_open_deck
    (hw : Hardware) (w w1 : World) :
  m_control (self w) = false ->
  TC_in (Config_In (self w)) = -1 ->
  setupInput hw (exec cleanupInput w) = Returns true w1 ->
  startCapture hw w = Faults NullControl w1 /\
  status_of w1 = status_of w.
Proof.
  intros Hk Htc Run.
  destruct (cleanupInput_result w)
    as (w0 & Clean & _ & _ & Hk0 & Hin0 & Hout0 & _ & _).
  unfold exec in Run. rewrite Clean in Run. cbn [world_of] in Run.
  pose proof (setupInput_true_sets_input hw w0 w1 Run) as Set1.
  destruct (setupInput_keeps_capture_state hw w0) as [P _].
  rewrite Run in P. cbn [world_of] in P. unfold capture_state in P.
  destruct (setupInput_keeps_control hw w0) as [Q _].
  rewrite Run in Q. cbn [world_of] in Q.
  split.
  - unfold startCapture, bind. rewrite Clean, Run.
    rewrite (setupInput_already_open hw w1 Set1).
    run_monad.
    assert (E : TC_in (Config_In (self w1)) = -1) by congruence.
    rewrite E. cbn.
    assert (K : m_control (self w1) = false) by congruence.
    rewrite K. reflexivity.
  - unfold status_of. congruence.
Qed.

Lemma unbounded_startCapture_needs_an_open_deck_witness :
  startCapture hw_ok
    (helper_with true false false true (config (-1) (-1) (-1)) idle (-1) 0)
  = Faults NullControl
      (exec (setupInput hw_ok)
            (exec cleanupInput
                  (helper_with true false false true
                     (config (-1) (-1) (-1)) idle (-1) 0))) /\
  status_of
    (exec (setupInput hw_ok)
          (exec cleanupInput
                (helper_with true false false true
                   (config (-1) (-1) (-1)) idle (-1) 0)))
  = status_of
      (helper_with true false false true (config (-1) (-1) (-1)) idle (-1) 0).
Proof.
  apply (unbounded_startCapture_needs_an_open_deck hw_ok
           (helper_with true false false true
              (config (-1) (-1) (-1)) idle (-1) 0));
    reflexivity.
Defined.

(** X16. On a helper that holds no card (none was found at
    construction), [startCapture] and, with no input open,
    [getTimeCode] dereference the null [m_card] when they set up the
    input; the status and the configuration are untouched and no
    command reaches the deck. *)
Theorem without_card_setup_dereferences_null
    (hw : Hardware) (w : World) :
  m_card (self w) = false ->
  (exists w',
      startCapture hw w = Faults NullCard w' /\
      status_of w' = status_of w /\
      emitted (startCapture hw) w
      = if m_input (self w)
        then [input_StopStreams; input_DisableVideoInput;
              input_SetCallback false; input_Release]
        else []) /\
  (m_input (self w) = false ->
   getTimeCode hw w
   = Faults NullCard {| self := set_m_width (-1) (self w);
                        now := now w; calls := calls w |}).
Proof.
  intros Hc. split.
  - destruct (cleanupInput_result w)
      as (w0 & Clean & Hi0 & Hc0 & _ & _ & Hout0 & _ & Calls0).
    assert (In0 : setupInput hw w0
                  = Faults NullCard {| self := set_m_width (-1) (self w0);
                                       now := now w0; calls := calls w0 |}).
    { unfold setupInput. run_monad. rewrite Hi0. cbn.
      rewrite Hc0, Hc. reflexivity. }
    eexists.
    assert (Run : startCapture hw w
                  = Faults NullCard {| self := set_m_width (-1) (self w0);
                                       now := now w0; calls := calls w0 |})
      by (unfold startCapture, bind; rewrite Clean, In0; reflexivity).
    split; [exact Run|]. split.
    + unfold status_of. cbn. rewrite Hout0. reflexivity.
    + apply emitted_app. unfold exec. rewrite Run. exact Calls0.
  - intros Hi. unfold getTimeCode, setupControl, setupInput. run_monad.
    rewrite Hi. cbn. rewrite Hc. reflexivity.
Qed.

Lemma without_card_setup_dereferences_null_witness :
  getTimeCode hw_ok
    (helper_with false false false true (config (-1) (-1) (-1)) idle (-1) 0)
  = Faults NullCard
      {| self := set_m_width (-1)
                   (self (helper_with false false false true
                            (config (-1) (-1) (-1)) idle (-1) 0));
         now := now (helper_with false false false true
                       (config (-1) (-1) (-1)) idle (-1) 0);
         calls := calls (helper_with false false false true
                           (config (-1) (-1) (-1)) idle (-1) 0) |}.
Proof.
  apply (without_card_setup_dereferences_null hw_ok
           (helper_with false false false true
              (config (-1) (-1) (-1)) idle (-1) 0));
    reflexivity.
Defined.

(** ** Capture attempts and stops *)

Lemma startCapture_after_cleanup (hw : Hardware) (w w0 : World) :
  cleanupInput w = Returns true w0 ->
  exists l, calls (exec (startCapture hw) w) = calls w0 ++ l.
Proof.
  intros Clean. unfold exec, startCapture. unfold bind at 1. rewrite Clean.
  match goal with
  | |- context [world_of (?m w0)] =>
      assert (K : respects (keeps (fun _ : CaptureHelper => tt) any_call) m)
        by keeps_steps;
      destruct (K w0) as (_ & l & Hl & _)
  end.
  exists l. exact Hl.
Qed.

(** X17. [startCapture] always restarts the input: when the input is
    open, the first four calls it makes are the ones that close it
    (stop streams, disable video, reset callback, release), before
    anything is set up or commanded. *)
Theorem startCapture_closes_the_open_input_first
    (hw : Hardware) (w : World) :
  m_input (self w) = true ->
  firstn 4 (emitted (startCapture hw) w)
  = [input_StopStreams; input_DisableVideoInput;
     input_SetCallback false; input_Release].
Proof.
  intros Hi.
  destruct (cleanupInput_result w)
    as (w0 & Clean & _ & _ & _ & _ & _ & _ & Calls0).
  rewrite Hi in Calls0.
  destruct (startCapture_after_cleanup hw w w0 Clean) as (l & Hl).
  rewrite Calls0, <- app_assoc in Hl.
  rewrite (emitted_app _ _ _ Hl). reflexivity.
Qed.

Lemma startCapture_closes_the_open_input_first_witness :
  firstn 4 (emitted (startCapture hw_ok)
                    (helper (config (-1) 1 2) idle (-1) 0))
  = [input_StopStreams; input_DisableVideoInput;
     input_SetCallback false; input_Release].
Proof.
  apply (startCapture_closes_the_open_input_first hw_ok
           (helper (config (-1) 1 2) idle (-1) 0)).
  reflexivity.
Defined.

Lemma stop_bounded (hw : Hardware) (w : World) :
  TC_in (Config_In (self w)) <> -1 ->
  m_control (self w) = true ->
  stop hw w
  = Returns tt {| self := set_Status aborting (self w);
                  now := S (now w);
                  calls := calls w ++ [control_Abort] |}.
Proof.
  intros Htc Hk. apply Z.eqb_neq in Htc. unfold stop. run_monad.
  rewrite Htc. cbn. rewrite Hk. reflexivity.
Qed.

Lemma deliver_outside_capturing (hw : Hardware) (w : World)
    (frames : list (option IDeckLinkVideoInputFrame
                    * option IDeckLinkAudioInputPacket)) :
  status_of w <> capturing -> deliver hw frames w = Returns tt w.
Proof.
  intros Hst. induction frames as [|[v a] rest IH]; [reflexivity|].
  cbn [deliver]. unfold bind.
  rewrite frame_outside_capturing by exact Hst. exact IH.
Qed.

(** X18. A stop request on a bounded capture with the deck control
    open sends [Abort] and writes [aborting], whatever the status was.
    The frames that arrive afterwards are dropped, and the next deck
    event other than prepare-for-capture finishes the capture: the
    status is [finished], the attached glue is told once, the counter
    is as before, and the calls made are [Abort] then [CloseOutput]. *)
Theorem stop_aborts_then_the_deck_event_finishes
    (hw : Hardware) (w : World)
    (frames : list (option IDeckLinkVideoInputFrame
                    * option IDeckLinkAudioInputPacket))
    (e : BMDDeckControlEvent) (err : BMDDeckControlError) :
  TC_in (Config_In (self w)) <> -1 ->
  m_control (self w) = true ->
  Glue (self w) = true ->
  e <> bmdDeckControlPrepareForCaptureEvent ->
  status_of (exec (stop hw) w) = aborting /\
  deliver hw frames (exec (stop hw) w) = Returns tt (exec (stop hw) w) /\
  (stop hw ;;; deliver hw frames ;;; DeckControlEventReceived e err) w
  = Returns S_OK
      {| self := set_Status finished (self w);
         now := S (now w);
         calls := calls w ++ [control_Abort; Glue_CloseOutput] |}.
Proof.
  intros Htc Hk Hg He.
  pose proof (stop_bounded hw w Htc Hk) as Stop.
  set (w1 := {| self := set_Status aborting (self w); now := S (now w);
                calls := calls w ++ [control_Abort] |}) in *.
  assert (Hst1 : status_of w1 <> capturing) by (cbn; discriminate).
  pose proof (deliver_outside_capturing hw w1 frames Hst1) as Drop.
  unfold exec. rewrite Stop. cbn [world_of].
  split; [reflexivity|]. split; [exact Drop|].
  unfold bind. rewrite Stop, Drop.
  assert (Ev : DeckControlEventReceived e err w1
               = Returns S_OK (finished_world w1)).
  { assert (Fin : finishCapture w1 = Returns true (finished_world w1))
      by (apply finishCapture_pending; cbn; discriminate).
    destruct e; try congruence;
      unfold DeckControlEventReceived, bind, skip, ret; rewrite Fin;
      reflexivity. }
  rewrite Ev. unfold finished_world, w1. cbn. rewrite Hg, <- app_assoc.
  reflexivity.
Qed.

Lemma stop_aborts_then_the_deck_event_finishes_witness :
  (stop hw_ok ;;;
   deliver hw_ok [(Some (video_frame (Some 0x01000500) 1), Some (audio_packet 2))] ;;;
   DeckControlEventReceived bmdDeckControlAbortedEvent bmdDeckControlUserAbortError)
    (helper (config (-1) 0x01000000 0x01001000) capturing (-1) 0)
  = Returns S_OK
      {| self := set_Status finished
                   (self (helper (config (-1) 0x01000000 0x01001000)
                                 capturing (-1) 0));
         now := S (now (helper (config (-1) 0x01000000 0x01001000)
                               capturing (-1) 0));
         calls := calls (helper (config (-1) 0x01000000 0x01001000)
                                capturing (-1) 0)
                  ++ [control_Abort; Glue_CloseOutput] |}.
Proof.
  apply (stop_aborts_then_the_deck_event_finishes hw_ok
           (helper (config (-1) 0x01000000 0x01001000) capturing (-1) 0));
    try reflexivity; cbn; discriminate.
Defined.

(** X19. A stop request on an unbounded capture with the deck control
    open sends [Stop] and finishes the capture at once.  Repeated, it
    sends [Stop] again but the glue is not told a second time: two
    stop requests in a row on an unfinished capture with a glue make
    the calls [Stop], [CloseOutput], [Stop], and the status is
    [finished] after each. *)
Theorem stop_twice_on_unbounded_capture_closes_output_once
    (hw : Hardware) (w : World) :
  TC_in (Config_In (self w)) = -1 ->
  m_control (self w) = true ->
  Glue (self w) = true ->
  status_of w <> finished ->
  status_of (exec (stop hw) w) = finished /\
  emitted (stop hw) w = [control_Stop; Glue_CloseOutput] /\
  (stop hw ;;; stop hw) w
  = Returns tt {| self := set_Status finished (self w);
                  now := S (S (now w));
                  calls := calls w
                           ++ [control_Stop; Glue_CloseOutput; control_Stop] |}.
Proof.
  intros Htc Hk Hg Hst.
  pose proof (stop_unbounded hw w Htc Hk Hst) as First.
  set (w1 := finished_world {| self := self w; now := S (now w);
                               calls := calls w ++ [control_Stop] |}) in *.
  assert (Calls1 : calls w1 = calls w ++ [control_Stop; Glue_CloseOutput]).
  { unfold w1, finished_world. cbn. rewrite Hg, <- app_assoc. reflexivity. }
  assert (Second : stop hw w1
                   = Returns tt {| self := self w1; now := S (now w1);
                                   calls := calls w1 ++ [control_Stop] |}).
  { unfold stop. unfold_monad. cbn -[finishCapture w1].
    assert (E : TC_in (Config_In (self w1)) = -1) by exact Htc.
    rewrite E. cbn -[finishCapture w1].
    assert (K : m_control (self w1) = true) by exact Hk.
    rewrite K. cbn -[finishCapture w1].
    rewrite finishCapture_finished by reflexivity. reflexivity. }
  unfold exec. rewrite First. cbn [world_of].
  split; [reflexivity|]. split.
  - unfold emitted, exec. rewrite First. cbn [world_of].
    rewrite Calls1, skipn_app, skipn_all, Nat.sub_diag. reflexivity.
  - unfold bind. rewrite First, Second. rewrite Calls1, <- app_assoc.
    reflexivity.
Qed.

Lemma stop_twice_on_unbounded_capture_closes_output_once_witness :
  emitted (stop hw_ok) (helper (config (-1) (-1) (-1)) capturing (-1) 0)
  = [control_Stop; Glue_CloseOutput].
Proof.
  apply (stop_twice_on_unbounded_capture_closes_output_once hw_ok
           (helper (config (-1) (-1) (-1)) capturing (-1) 0));
    try reflexivity; cbn; discriminate.
Defined.

(** ** Sequences of frames *)

Lemma stop_keeps_timecode_and_config (hw : Hardware) :
  respects (keeps (fun s => (TC_current (Config_Out s), Config_In s,
                             m_FramePos s, Glue s))
                  any_call) (stop hw).
Proof. unfold stop, finishCapture. keeps_steps. Qed.

(** What every accepted frame with audio leads to: the hand-over, then
    possibly the stop. *)
Lemma frame_accepted_then (hw : Hardware) (w : World)
    (video : IDeckLinkVideoInputFrame) (audio : IDeckLinkAudioInputPacket) :
  status_of w = capturing ->
  ShouldDecode (self w) (GetTimecode_Serial video) = true ->
  exists l,
    calls (exec (VideoInputFrameArrived hw (Some video) (Some audio)) w)
    = calls (forwarded_world w video audio) ++ l /\
    TC_current (Config_Out (self (exec (VideoInputFrameArrived hw (Some video)
                                          (Some audio)) w)))
    = TC_current (Config_Out (self (forwarded_world w video audio))) /\
    m_FramePos (self (exec (VideoInputFrameArrived hw (Some video)
                              (Some audio)) w))
    = m_FramePos (self w) + 1.
Proof.
  intros Hst Hsd. unfold exec. rewrite frame_accepted by assumption.
  set (fw := forwarded_world w video audio).
  assert (Pos : m_FramePos (self fw) = m_FramePos (self w) + 1)
    by apply forwarded_world_facts.
  unfold bind. destruct (limit_reached (self fw)).
  - destruct (stop_keeps_timecode_and_config hw fw) as (P & l & Calls & _).
    destruct (stop hw fw) as [u w'|f w']; cbn [world_of] in P, Calls;
      injection P as Tc Cfg Fp Gl; exists l; unfold ret; cbn [world_of];
      (split; [exact Calls|]); (split; [exact Tc | rewrite Fp; exact Pos]).
  - exists []. unfold skip, ret. cbn [world_of]. rewrite app_nil_r.
    split; [reflexivity|]. split; [reflexivity | exact Pos].
Qed.

(** X20. With a glue attached, an accepted frame that comes with an
    audio packet is handed over first of all, video then audio, both at
    the current position; the video length is row bytes times height,
    and the audio length is four bytes per sample frame whatever audio
    depth and channel count are configured. *)
Theorem accepted_frame_lengths
    (hw : Hardware) (w : World)
    (video : IDeckLinkVideoInputFrame) (audio : IDeckLinkAudioInputPacket) :
  status_of w = capturing ->
  ShouldDecode (self w) (GetTimecode_Serial video) = true ->
  Glue (self w) = true ->
  firstn 2 (emitted (VideoInputFrameArrived hw (Some video) (Some audio)) w)
  = [Glue_OutputFrame (Frame_GetBytes video)
                      (GetRowBytes video * Frame_GetHeight video)
                      0 (m_FramePos (self w));
     Glue_OutputFrame (Packet_GetBytes audio)
                      (4 * GetSampleFrameCount audio)
                      1 (m_FramePos (self w))].
Proof.
  intros Hst Hsd Hg.
  destruct (frame_accepted_then hw w video audio Hst Hsd) as (l & Calls & _).
  rewrite forwarded_world_calls in Calls by exact Hg.
  rewrite <- app_assoc in Calls. rewrite (emitted_app _ _ _ Calls).
  unfold forwarding. cbn [app firstn]. do 3 f_equal.
  replace (GetSampleFrameCount audio * 2 * 16)
    with (GetSampleFrameCount audio * 4 * 8) by lia.
  rewrite Z.quot_mul by lia. lia.
Qed.

Lemma accepted_frame_lengths_witness :
  firstn 2 (emitted (VideoInputFrameArrived hw_ok
                       (Some (video_frame (Some 5) 1)) (Some (audio_packet 2)))
                    (helper (config (-1) (-1) (-1)) capturing (-1) 3))
  = [Glue_OutputFrame (Frame_GetBytes (video_frame (Some 5) 1))
       (GetRowBytes (video_frame (Some 5) 1)
        * Frame_GetHeight (video_frame (Some 5) 1))
       0 (m_FramePos (self (helper (config (-1) (-1) (-1)) capturing (-1) 3)));
     Glue_OutputFrame (Packet_GetBytes (audio_packet 2))
       (4 * GetSampleFrameCount (audio_packet 2))
       1 (m_FramePos (self (helper (config (-1) (-1) (-1)) capturing (-1) 3)))].
Proof.
  apply (accepted_frame_lengths hw_ok
           (helper (config (-1) (-1) (-1)) capturing (-1) 3)
           (video_frame (Some 5) 1) (audio_packet 2)); reflexivity.
Defined.

(** X21. In status [capturing] every frame that carries a timecode
    leaves that timecode, converted to [int], in [TC_current]: when
    the frame is forwarded (also when this triggers the stop), when it
    is discarded, and when the callback faults on a missing audio
    packet. *)
Theorem every_timecode_is_recorded
    (hw : Hardware) (w : World) (video : IDeckLinkVideoInputFrame)
    (audio : option IDeckLinkAudioInputPacket) (T : Z) :
  status_of w = capturing ->
  GetTimecode_Serial video = Some T ->
  TC_current (Config_Out (self (exec (VideoInputFrameArrived hw (Some video)
                                        audio) w)))
  = to_i32 T.
Proof.
  intros Hst Htc.
  destruct (ShouldDecode (self w) (GetTimecode_Serial video)) eqn:Hsd.
  - destruct audio as [audio|].
    + destruct (frame_accepted_then hw w video audio Hst Hsd) as (_ & _ & Tc & _).
      rewrite Tc. unfold forwarded_world. rewrite Htc. reflexivity.
    + unfold exec. rewrite frame_accepted_without_audio by assumption.
      unfold discarded_world. rewrite Htc. reflexivity.
  - unfold exec. rewrite frame_discarded by assumption.
    unfold discarded_world. rewrite Htc. reflexivity.
Qed.

Lemma every_timecode_is_recorded_witness :
  TC_current
    (Config_Out
       (self (exec (VideoInputFrameArrived hw_ok
                      (Some (video_frame (Some 7) 1)) None)
                   (helper (config (-1) 1 2) capturing (-1) 0))))
  = to_i32 7.
Proof.
  apply (every_timecode_is_recorded hw_ok
           (helper (config (-1) 1 2) capturing (-1) 0)
           (video_frame (Some 7) 1) None 7); reflexivity.
Defined.

Lemma deliver_app (hw : Hardware)
    (a b : list (option IDeckLinkVideoInputFrame
                 * option IDeckLinkAudioInputPacket)) (w : World) :
  deliver hw (a ++ b) w = (deliver hw a ;;; deliver hw b) w.
Proof.
  revert w. induction a as [|[v p] a IH]; intros w.
  - reflexivity.
  - cbn [app deliver]. unfold bind.
    destruct (VideoInputFrameArrived hw v p w) as [r w1|f w1];
      [|reflexivity].
    rewrite IH. reflexivity.
Qed.

Lemma deliver_until_limit (hw : Hardware)
    (frames : list (IDeckLinkVideoInputFrame * IDeckLinkAudioInputPacket)) :
  forall w,
    frames <> [] ->
    status_of w = capturing ->
    Glue (self w) = true ->
    m_control (self w) = true ->
    TC_in (Config_In (self w)) = -1 ->
    FrameCount (Config_In (self w)) <> -1 ->
    FrameCount (Config_In (self w))
    = m_FramePos (self w) + Z.of_nat (length frames) ->
    exists w',
      deliver hw (with_audio frames) w = Returns tt w' /\
      status_of w' = finished /\
      m_FramePos (self w') = FrameCount (Config_In (self w)) /\
      calls w' = calls w ++ forwarding_all (m_FramePos (self w)) frames
                         ++ [control_Stop; Glue_CloseOutput].
Proof.
  induction frames as [|f rest IH]; intros w Hne Hst Hg Hk Htc Hfc Hlen;
    [contradiction|].
  destruct f as [video audio].
  destruct (forwarded_world_facts w video audio)
    as (Hst1 & Hcfg1 & Hg1 & Hk1 & Hpos1).
  cbn [length] in Hlen.
  assert (Acc : ShouldDecode (self w) (GetTimecode_Serial video) = true)
    by (apply ShouldDecode_below_limit; [exact Htc | lia]).
  pose proof (frame_accepted hw w video audio Hst Acc) as Run.
  pose proof (forwarded_world_calls w video audio Hg) as Calls1.
  remember (forwarded_world w video audio) as fw eqn:Hfw.
  cbn [with_audio map fst snd deliver]. unfold bind at 1. rewrite Run.
  unfold limit_reached. rewrite Hcfg1, Hpos1.
  apply Z.eqb_neq in Hfc. rewrite Hfc. cbn [negb andb].
  destruct rest as [|f2 rest].
  - cbn [length] in Hlen.
    assert (E : (m_FramePos (self w) + 1 >=? FrameCount (Config_In (self w)))
                = true) by (rewrite Z.geb_leb; apply Z.leb_le; lia).
    rewrite E. unfold bind.
    rewrite stop_unbounded;
      [ | rewrite Hcfg1; exact Htc | rewrite Hk1; exact Hk
        | rewrite Hst1, Hst; discriminate ].
    eexists. split; [reflexivity|]. split; [reflexivity|].
    split; [cbn; rewrite Hpos1; lia|].
    unfold finished_world. cbn [calls self]. rewrite Hg1, Hg, Calls1.
    cbn [forwarding_all fst snd]. rewrite app_nil_r, <- !app_assoc.
    reflexivity.
  - assert (E : (m_FramePos (self w) + 1 >=? FrameCount (Config_In (self w)))
                = false)
      by (rewrite Z.geb_leb; apply Z.leb_gt; cbn [length] in Hlen; lia).
    rewrite E. unfold bind, skip, ret.
    destruct (IH fw) as (w' & Run' & Fin & Pos' & Calls');
      [ discriminate | congruence | congruence | congruence | congruence
      | rewrite Hcfg1; apply Z.eqb_neq; exact Hfc
      | rewrite Hcfg1, Hpos1; cbn [length] in Hlen |- *; lia | ].
    exists w'. split; [exact Run'|]. split; [exact Fin|].
    split; [rewrite Pos', Hcfg1; reflexivity|].
    rewrite Calls', Calls1, Hpos1.
    cbn [forwarding_all fst snd]. rewrite <- !app_assoc. reflexivity.
Qed.

(** X22. With a frame limit equal to the number [n > 0] of [frames],
    no timecode bound, the deck control open and a glue attached,
    starting at position 0 in status [capturing]: the [n] frames are
    handed over at positions 0 to [n-1], the stop request and the end
    of capture follow the last of them in the same callback, and
    whatever frames arrive afterwards change nothing. *)
Theorem frame_limit_forwards_the_first_frames_only
    (hw : Hardware) (w : World)
    (frames : list (IDeckLinkVideoInputFrame * IDeckLinkAudioInputPacket))
    (more : list (option IDeckLinkVideoInputFrame
                  * option IDeckLinkAudioInputPacket)) :
  frames <> [] ->
  status_of w = capturing ->
  Glue (self w) = true ->
  m_control (self w) = true ->
  TC_in (Config_In (self w)) = -1 ->
  m_FramePos (self w) = 0 ->
  FrameCount (Config_In (self w)) = Z.of_nat (length frames) ->
  exists w',
    deliver hw (with_audio frames ++ more) w = Returns tt w' /\
    deliver hw (with_audio frames) w = Returns tt w' /\
    status_of w' = finished /\
    emitted (deliver hw (with_audio frames ++ more)) w
    = forwarding_all 0 frames ++ [control_Stop; Glue_CloseOutput].
Proof.
  intros Hne Hst Hg Hk Htc Hpos Hfc.
  destruct (deliver_until_limit hw frames w Hne Hst Hg Hk Htc)
    as (w' & Run & Fin & _ & Calls).
  { rewrite Hfc. destruct frames; [contradiction|]. cbn [length]. lia. }
  { rewrite Hfc, Hpos. reflexivity. }
  assert (All : deliver hw (with_audio frames ++ more) w = Returns tt w').
  { rewrite deliver_app. unfold bind. rewrite Run.
    apply deliver_outside_capturing. rewrite Fin. discriminate. }
  exists w'. split; [exact All|]. split; [exact Run|]. split; [exact Fin|].
  apply emitted_app. unfold exec. rewrite All. cbn [world_of].
  rewrite Calls, Hpos. reflexivity.
Qed.

Lemma frame_limit_forwards_the_first_frames_only_witness :
  exists w',
    deliver hw_ok
      (with_audio [(video_frame None 1, audio_packet 11);
                   (video_frame (Some 9) 2, audio_packet 12);
                   (video_frame (Some 9) 3, audio_packet 13)]
       ++ [(None, None)])
      (helper (config 3 (-1) (-1)) capturing (-1) 0)
    = Returns tt w' /\
    deliver hw_ok
      (with_audio [(video_frame None 1, audio_packet 11);
                   (video_frame (Some 9) 2, audio_packet 12);
                   (video_frame (Some 9) 3, audio_packet 13)])
      (helper (config 3 (-1) (-1)) capturing (-1) 0)
    = Returns tt w' /\
    status_of w' = finished /\
    emitted
      (deliver hw_ok
         (with_audio [(video_frame None 1, audio_packet 11);
                      (video_frame (Some 9) 2, audio_packet 12);
                      (video_frame (Some 9) 3, audio_packet 13)]
          ++ [(None, None)]))
      (helper (config 3 (-1) (-1)) capturing (-1) 0)
    = forwarding_all 0 [(video_frame None 1, audio_packet 11);
                        (video_frame (Some 9) 2, audio_packet 12);
                        (video_frame (Some 9) 3, audio_packet 13)]
      ++ [control_Stop; Glue_CloseOutput].
Proof.
  apply (frame_limit_forwards_the_first_frames_only hw_ok
           (helper (config 3 (-1) (-1)) capturing (-1) 0));
    try reflexivity.
  discriminate.
Defined.

Lemma discarded_world_facts (w : World) (video : IDeckLinkVideoInputFrame) :
  status_of (discarded_world w video) = status_of w /\
  Config_In (self (discarded_world w video)) = Config_In (self w) /\
  Glue (self (discarded_world w video)) = Glue (self w) /\
  m_FramePos (self (discarded_world w video)) = m_FramePos (self w) /\
  calls (discarded_world w video) = calls w /\
  now (discarded_world w video) = now w.
Proof.
  unfold discarded_world, status_of.
  destruct (GetTimecode_Serial video); cbn; repeat split.
Qed.

(** X23. Once the counter has reached the frame limit while the status
    is still [capturing] (a limit of 0 from the start, or a status
    written back by the caller), the frame callback discards every
    frame and never asks for a stop: after any sequence of frames the
    status is still [capturing], no call was made, no driver answer was
    consulted and the counter did not move. *)
Theorem frames_at_the_limit_are_discarded_without_stop
    (hw : Hardware)
    (frames : list (IDeckLinkVideoInputFrame
                    * option IDeckLinkAudioInputPacket))
    (w : World) :
  status_of w = capturing ->
  FrameCount (Config_In (self w)) <> -1 ->
  FrameCount (Config_In (self w)) <= m_FramePos (self w) ->
  exists w',
    deliver hw (with_video frames) w = Returns tt w' /\
    status_of w' = capturing /\
    calls w' = calls w /\
    now w' = now w /\
    m_FramePos (self w') = m_FramePos (self w).
Proof.
  revert w. induction frames as [|[video audio] rest IH];
    intros w Hst Hfc Hpos.
  - exists w. repeat split. exact Hst.
  - destruct (discarded_world_facts w video)
      as (Hst1 & Hcfg1 & _ & Hpos1 & Hcalls1 & Hnow1).
    destruct (IH (discarded_world w video)) as (w' & Run & St & Ca & No & Po);
      [congruence | congruence | rewrite Hcfg1, Hpos1; exact Hpos |].
    exists w'. split.
    + cbn [with_video map fst snd deliver]. unfold bind.
      rewrite (frame_over_limit_is_discarded hw w video audio Hst Hfc Hpos).
      exact Run.
    + repeat split; congruence.
Qed.

Lemma frames_at_the_limit_are_discarded_without_stop_witness :
  exists w',
    deliver hw_ok
      (with_video [(video_frame (Some 1) 1, Some (audio_packet 11));
                   (video_frame None 2, None)])
      (helper (config 0 (-1) (-1)) capturing (-1) 0)
    = Returns tt w' /\
    status_of w' = capturing /\
    calls w' = calls (helper (config 0 (-1) (-1)) capturing (-1) 0) /\
    now w' = now (helper (config 0 (-1) (-1)) capturing (-1) 0) /\
    m_FramePos (self w')
    = m_FramePos (self (helper (config 0 (-1) (-1)) capturing (-1) 0)).
Proof.
  apply (frames_at_the_limit_are_discarded_without_stop hw_ok
           [(video_frame (Some 1) 1, Some (audio_packet 11));
            (video_frame None 2, None)]
           (helper (config 0 (-1) (-1)) capturing (-1) 0));
    [reflexivity | cbn; discriminate | cbn; lia].
Defined.

Lemma ShouldDecode_unbounded (s : CaptureHelper) (tc : option Z) :
  TC_in (Config_In s) = -1 ->
  FrameCount (Config_In s) = -1 ->
  ShouldDecode s tc = true.
Proof.
  intros Ht Hf. unfold ShouldDecode. rewrite Ht, Hf. destruct tc; reflexivity.
Qed.

(** X24. Without timecode bound and without frame limit, every frame
    that arrives with its audio packet in status [capturing] is
    accepted, whatever timecode it carries (none, or the same as the
    frame before): the counter advances by the number of frames and the
    status stays [capturing]; with a glue attached all frames are
    handed over in order at consecutive positions, without a glue they
    are counted and nothing is handed over. *)
Theorem unbounded_capture_accepts_every_frame
    (hw : Hardware)
    (frames : list (IDeckLinkVideoInputFrame * IDeckLinkAudioInputPacket))
    (w : World) :
  status_of w = capturing ->
  TC_in (Config_In (self w)) = -1 ->
  FrameCount (Config_In (self w)) = -1 ->
  exists w',
    deliver hw (with_audio frames) w = Returns tt w' /\
    status_of w' = capturing /\
    m_FramePos (self w') = m_FramePos (self w) + Z.of_nat (length frames) /\
    calls w' = calls w ++ (if Glue (self w)
                           then forwarding_all (m_FramePos (self w)) frames
                           else []).
Proof.
  revert w. induction frames as [|[video audio] rest IH];
    intros w Hst Htc Hfc.
  - exists w. split; [reflexivity|]. split; [exact Hst|].
    split; [cbn; lia|]. destruct (Glue (self w)); cbn; rewrite app_nil_r;
      reflexivity.
  - destruct (forwarded_world_facts w video audio)
      as (Hst1 & Hcfg1 & Hg1 & _ & Hpos1).
    pose proof (frame_accepted hw w video audio Hst
                  (ShouldDecode_unbounded _ _ Htc Hfc)) as Run.
    assert (Calls1 : calls (forwarded_world w video audio)
                     = calls w ++ (if Glue (self w)
                                   then forwarding (m_FramePos (self w)) video audio
                                   else [])).
    { unfold forwarded_world. cbn [calls]. destruct (Glue (self w));
        [reflexivity | rewrite app_nil_r; reflexivity]. }
    remember (forwarded_world w video audio) as fw eqn:Hfw.
    assert (L : limit_reached (self fw) = false)
      by (unfold limit_reached; rewrite Hcfg1, Hfc; reflexivity).
    rewrite L in Run.
    destruct (IH fw) as (w' & Run' & St & Po & Ca); [congruence..|].
    exists w'. split.
    + cbn [with_audio map fst snd deliver]. unfold bind at 1. rewrite Run.
      exact Run'.
    + split; [exact St|]. split.
      * rewrite Po, Hpos1. cbn [length]. lia.
      * rewrite Ca, Calls1, Hg1, Hpos1. destruct (Glue (self w));
          cbn [forwarding_all fst snd]; rewrite <- ?app_assoc; reflexivity.
Qed.

Lemma unbounded_capture_accepts_every_frame_witness :
  exists w',
    deliver hw_ok
      (with_audio [(video_frame (Some 7) 1, audio_packet 11);
                   (video_frame (Some 7) 2, audio_packet 12);
                   (video_frame None 3, audio_packet 13)])
      (helper_with true true true false (config (-1) (-1) (-1)) capturing (-1) 0)
    = Returns tt w' /\
    status_of w' = capturing /\
    m_FramePos (self w')
    = m_FramePos (self (helper_with true true true false
                          (config (-1) (-1) (-1)) capturing (-1) 0))
      + Z.of_nat (length [(video_frame (Some 7) 1, audio_packet 11);
                          (video_frame (Some 7) 2, audio_packet 12);
                          (video_frame None 3, audio_packet 13)]) /\
    calls w'
    = calls (helper_with true true true false
               (config (-1) (-1) (-1)) capturing (-1) 0)
      ++ (if Glue (self (helper_with true true true false
                           (config (-1) (-1) (-1)) capturing (-1) 0))
          then forwarding_all
                 (m_FramePos (self (helper_with true true true false
                                      (config (-1) (-1) (-1)) capturing (-1) 0)))
                 [(video_frame (Some 7) 1, audio_packet 11);
                  (video_frame (Some 7) 2, audio_packet 12);
                  (video_frame None 3, audio_packet 13)]
          else []).
Proof.
  apply (unbounded_capture_accepts_every_frame hw_ok
           [(video_frame (Some 7) 1, audio_packet 11);
            (video_frame (Some 7) 2, audio_packet 12);
            (video_frame None 3, audio_packet 13)]
           (helper_with true true true false
              (config (-1) (-1) (-1)) capturing (-1) 0));
    reflexivity.
Defined.

(** X25. During a bounded capture, frames that carry no timecode are
    discarded and leave no trace: after any sequence of such frames,
    with or without audio packet, the world is exactly as before (no
    call, same counter, same [TC_current], same status). *)
Theorem bounded_capture_drops_frames_without_timecode
    (hw : Hardware)
    (frames : list (IDeckLinkVideoInputFrame
                    * option IDeckLinkAudioInputPacket))
    (w : World) :
  status_of w = capturing ->
  TC_in (Config_In (self w)) <> -1 ->
  without_timecode frames = true ->
  deliver hw (with_video frames) w = Returns tt w.
Proof.
  intros Hst Htc. apply Z.eqb_neq in Htc.
  induction frames as [|[video audio] rest IH]; intros Hno; [reflexivity|].
  cbn [without_timecode forallb fst] in Hno.
  apply andb_true_iff in Hno as [Hv Hrest].
  destruct (GetTimecode_Serial video) eqn:Etc; [discriminate Hv|].
  cbn [with_video map fst snd deliver]. unfold bind.
  rewrite frame_discarded;
    [ | exact Hst | rewrite Etc; unfold ShouldDecode; rewrite Htc; reflexivity ].
  unfold discarded_world. rewrite Etc. cbn [observe_timecode].
  rewrite world_eta. apply IH, Hrest.
Qed.

Lemma bounded_capture_drops_frames_without_timecode_witness :
  deliver hw_ok
    (with_video [(video_frame None 1, Some (audio_packet 11));
                 (video_frame None 2, None)])
    (helper (config (-1) 0x01000000 0x01001000) capturing (-1) 0)
  = Returns tt (helper (config (-1) 0x01000000 0x01001000) capturing (-1) 0).
Proof.
  apply (bounded_capture_drops_frames_without_timecode hw_ok
           [(video_frame None 1, Some (audio_packet 11));
            (video_frame None 2, None)]
           (helper (config (-1) 0x01000000 0x01001000) capturing (-1) 0));
    [reflexivity | cbn; discriminate | reflexivity].
Defined.

Lemma to_u32_to_i32 (z : Z) : to_u32 (to_i32 z) = to_u32 z.
Proof.
  unfold to_u32, to_i32.
  pose proof (Z.mod_pos_bound z (2 ^ 32) ltac:(lia)) as B.
  destruct (z mod 2 ^ 32 <? 2 ^ 31).
  - apply Z.mod_mod. lia.
  - replace (z mod 2 ^ 32 - 2 ^ 32) with (z mod 2 ^ 32 + (-1) * 2 ^ 32) by lia.
    rewrite Z.mod_add by lia. apply Z.mod_mod. lia.
Qed.

Lemma to_i32_unknown (z : Z) : to_i32 z = -1 -> to_u32 z = 2 ^ 32 - 1.
Proof.
  intros H. rewrite <- to_u32_to_i32, H. reflexivity.
Qed.

Lemma VideoInputFrameArrived_keeps_config (hw : Hardware)
    (video : option IDeckLinkVideoInputFrame)
    (audio : option IDeckLinkAudioInputPacket) :
  respects (keeps Config_In any_call) (VideoInputFrameArrived hw video audio).
Proof. unfold VideoInputFrameArrived, stop, finishCapture. keeps_steps. Qed.

(** X26. During a bounded capture, a frame whose timecode repeats the
    timecode of the frame delivered just before it is never handed
    over: whatever happened to the first frame (forwarded, discarded,
    stop triggered, fault on a missing audio packet), the callback for
    the second makes no call and does not move the counter.  (The
    timecode 0xFFFFFFFF, which reads as unknown once stored, is
    excepted.) *)
Theorem repeated_timecode_is_dropped
    (hw : Hardware) (w : World)
    (v1 v2 : IDeckLinkVideoInputFrame)
    (a1 a2 : option IDeckLinkAudioInputPacket) (T : Z) :
  status_of w = capturing ->
  TC_in (Config_In (self w)) <> -1 ->
  GetTimecode_Serial v1 = Some T ->
  GetTimecode_Serial v2 = Some T ->
  to_u32 T <> 2 ^ 32 - 1 ->
  emitted (VideoInputFrameArrived hw (Some v2) a2)
          (exec (VideoInputFrameArrived hw (Some v1) a1) w) = [] /\
  m_FramePos (self (exec (VideoInputFrameArrived hw (Some v2) a2)
                         (exec (VideoInputFrameArrived hw (Some v1) a1) w)))
  = m_FramePos (self (exec (VideoInputFrameArrived hw (Some v1) a1) w)).
Proof.
  intros Hst Htc H1 H2 Hff.
  assert (Cur : TC_current
                  (Config_Out
                     (self (exec (VideoInputFrameArrived hw (Some v1) a1) w)))
                = to_i32 T).
  { destruct (ShouldDecode (self w) (GetTimecode_Serial v1)) eqn:Hsd.
    - destruct a1 as [a1|].
      + destruct (frame_accepted_then hw w v1 a1 Hst Hsd) as (_ & _ & Tc & _).
        rewrite Tc. unfold forwarded_world. rewrite H1. reflexivity.
      + unfold exec. rewrite frame_accepted_without_audio by assumption.
        unfold discarded_world. rewrite H1. reflexivity.
    - unfold exec. rewrite frame_discarded by assumption.
      unfold discarded_world. rewrite H1. reflexivity. }
  destruct (VideoInputFrameArrived_keeps_config hw (Some v1) a1 w) as [Cfg _].
  fold (exec (VideoInputFrameArrived hw (Some v1) a1) w) in Cfg.
  remember (exec (VideoInputFrameArrived hw (Some v1) a1) w) as w1 eqn:Hw1.
  destruct (status_eqb (status_of w1) capturing) eqn:Est;
    [apply status_eqb_eq in Est | apply status_eqb_neq in Est].
  - assert (Sd : ShouldDecode (self w1) (GetTimecode_Serial v2) = false).
    { rewrite H2. unfold ShouldDecode. rewrite Cfg, Cur.
      apply Z.eqb_neq in Htc. rewrite Htc.
      assert (E1 : (to_i32 T =? -1) = false).
      { apply Z.eqb_neq. intros E. apply Hff, to_i32_unknown, E. }
      rewrite E1, to_u32_to_i32, Z.eqb_refl. reflexivity. }
    unfold emitted, exec.
    rewrite (frame_discarded hw w1 v2 a2 Est Sd). cbn [world_of].
    destruct (discarded_world_facts w1 v2) as (_ & _ & _ & Po & Ca & _).
    rewrite Ca, Po. split; [apply skipn_all | reflexivity].
  - unfold emitted, exec.
    rewrite (frame_outside_capturing hw w1 (Some v2) a2 Est). cbn [world_of].
    split; [apply skipn_all | reflexivity].
Qed.

Lemma repeated_timecode_is_dropped_witness :
  emitted (VideoInputFrameArrived hw_ok
             (Some (video_frame (Some 0x01000500) 2)) (Some (audio_packet 12)))
          (exec (VideoInputFrameArrived hw_ok
                   (Some (video_frame (Some 0x01000500) 1))
                   (Some (audio_packet 11)))
                (helper (config (-1) 0x01000000 0x01001000) capturing (-1) 0))
  = [] /\
  m_FramePos
    (self (exec (VideoInputFrameArrived hw_ok
                   (Some (video_frame (Some 0x01000500) 2))
                   (Some (audio_packet 12)))
                (exec (VideoInputFrameArrived hw_ok
                         (Some (video_frame (Some 0x01000500) 1))
                         (Some (audio_packet 11)))
                      (helper (config (-1) 0x01000000 0x01001000)
                              capturing (-1) 0))))
  = m_FramePos
      (self (exec (VideoInputFrameArrived hw_ok
                     (Some (video_frame (Some 0x01000500) 1))
                     (Some (audio_packet 11)))
                  (helper (config (-1) 0x01000000 0x01001000)
                          capturing (-1) 0))).
Proof.
  apply (repeated_timecode_is_dropped hw_ok
           (helper (config (-1) 0x01000000 0x01001000) capturing (-1) 0)
           (video_frame (Some 0x01000500) 1) (video_frame (Some 0x01000500) 2)
           (Some (audio_packet 11)) (Some (audio_packet 12)) 0x01000500);
    try reflexivity; cbn; discriminate.
Defined.

(** X27. During a bounded capture without frame limit, with a glue
    attached, when the frames arrive with audio and with timecodes
    that increase from frame to frame (each below 2^31, the first above
    [TC_current]), the frames handed over are exactly those whose
    timecode [T] satisfies [TC_in <= T < TC_out], each once, in order
    of arrival, at consecutive positions from the counter; the status
    stays [capturing]. *)
Theorem increasing_timecodes_forward_exactly_the_window
    (hw : Hardware)
    (frames : list (IDeckLinkVideoInputFrame * IDeckLinkAudioInputPacket))
    (w : World) :
  status_of w = capturing ->
  Glue (self w) = true ->
  FrameCount (Config_In (self w)) = -1 ->
  0 <= TC_in (Config_In (self w)) < TC_out (Config_In (self w)) ->
  TC_out (Config_In (self w)) < 2 ^ 31 ->
  - 2 ^ 31 <= TC_current (Config_Out (self w)) < 2 ^ 31 ->
  increasing_from (TC_current (Config_Out (self w))) frames = true ->
  exists w',
    deliver hw (with_audio frames) w = Returns tt w' /\
    status_of w' = capturing /\
    calls w'
    = calls w
      ++ forwarding_all (m_FramePos (self w))
           (filter (in_window (TC_in (Config_In (self w)))
                              (TC_out (Config_In (self w)))) frames) /\
    m_FramePos (self w')
    = m_FramePos (self w)
      + Z.of_nat (length (filter (in_window (TC_in (Config_In (self w)))
                                            (TC_out (Config_In (self w))))
                                 frames)).
Proof.
  revert w. induction frames as [|[video audio] rest IH];
    intros w Hst Hg Hfc Hin Hout Hcur Hinc.
  - exists w. split; [reflexivity|]. split; [exact Hst|].
    cbn. rewrite app_nil_r. split; [reflexivity | lia].
  - cbn [increasing_from fst] in Hinc.
    destruct (GetTimecode_Serial video) as [T|] eqn:Etc; [|discriminate Hinc].
    apply andb_true_iff in Hinc as [Hinc Hrest].
    apply andb_true_iff in Hinc as [Hinc Hhi].
    apply andb_true_iff in Hinc as [Hlt Hlo].
    apply Z.ltb_lt in Hlt, Hhi. apply Z.leb_le in Hlo.
    pose proof (ShouldDecode_window (self w) T Hfc Hin Hout Hcur
                  ltac:(lia)) as Gate.
    assert (Hd : in_window (TC_in (Config_In (self w)))
                           (TC_out (Config_In (self w))) (video, audio)
                 = (TC_in (Config_In (self w)) <=? T)
                   && (T <? TC_out (Config_In (self w))))
      by (unfold in_window; cbn [fst]; rewrite Etc; reflexivity).
    cbn [filter]. rewrite Hd.
    cbn [with_audio map fst snd deliver]. unfold bind at 1.
    destruct (ShouldDecode (self w) (Some T)) eqn:Esd.
    + (* within the window: handed over *)
      destruct (proj1 Gate eq_refl) as [[Hge Hlt'] _].
      assert (Win : (TC_in (Config_In (self w)) <=? T)
                    && (T <? TC_out (Config_In (self w))) = true).
      { apply andb_true_iff. split; [apply Z.leb_le | apply Z.ltb_lt]; lia. }
      rewrite Win.
      destruct (forwarded_world_facts w video audio)
        as (Hst1 & Hcfg1 & Hg1 & _ & Hpos1).
      assert (Sd : ShouldDecode (self w) (GetTimecode_Serial video) = true)
        by (rewrite Etc; exact Esd).
      pose proof (frame_accepted hw w video audio Hst Sd) as Run.
      pose proof (forwarded_world_calls w video audio Hg) as Calls1.
      assert (Cur1 : TC_current (Config_Out (self (forwarded_world w video audio)))
                     = T).
      { unfold forwarded_world. rewrite Etc. cbn. apply to_i32_small. lia. }
      remember (forwarded_world w video audio) as fw eqn:Hfw.
      assert (L : limit_reached (self fw) = false)
        by (unfold limit_reached; rewrite Hcfg1, Hfc; reflexivity).
      rewrite L in Run. rewrite Run.
      destruct (IH fw) as (w' & Run' & St & Ca & Po);
        [ congruence | congruence | congruence
        | rewrite Hcfg1; exact Hin | rewrite Hcfg1; exact Hout
        | rewrite Cur1; lia | rewrite Cur1; exact Hrest | ].
      exists w'. split; [exact Run'|]. split; [exact St|].
      rewrite Hcfg1 in Ca, Po. split.
      * rewrite Ca, Calls1, Hpos1. cbn [forwarding_all fst snd].
        rewrite <- app_assoc. reflexivity.
      * rewrite Po, Hpos1. cbn [length]. lia.
    + (* outside the window: discarded *)
      assert (Win : (TC_in (Config_In (self w)) <=? T)
                    && (T <? TC_out (Config_In (self w))) = false).
      { apply not_true_is_false. intros W.
        apply andb_true_iff in W as [W1 W2].
        apply Z.leb_le in W1. apply Z.ltb_lt in W2.
        assert (Absurd : false = true) by (apply Gate; split; lia).
        discriminate Absurd. }
      rewrite Win.
      assert (Sd : ShouldDecode (self w) (GetTimecode_Serial video) = false)
        by (rewrite Etc; exact Esd).
      rewrite (frame_discarded hw w video (Some audio) Hst Sd).
      destruct (discarded_world_facts w video)
        as (Hst1 & Hcfg1 & Hg1 & Hpos1 & Hcalls1 & _).
      assert (Cur1 : TC_current (Config_Out (self (discarded_world w video)))
                     = T).
      { unfold discarded_world. rewrite Etc. cbn. apply to_i32_small. lia. }
      remember (discarded_world w video) as dw eqn:Hdw.
      destruct (IH dw) as (w' & Run' & St & Ca & Po);
        [ congruence | congruence | congruence
        | rewrite Hcfg1; exact Hin | rewrite Hcfg1; exact Hout
        | rewrite Cur1; lia | rewrite Cur1; exact Hrest | ].
      exists w'. split; [exact Run'|]. split; [exact St|].
      rewrite Hcfg1, Hpos1, Hcalls1 in *. split; assumption.
Qed.

Lemma increasing_timecodes_forward_exactly_the_window_witness :
  exists w',
    deliver hw_ok
      (with_audio [(video_frame (Some 0x00595929) 1, audio_packet 11);
                   (video_frame (Some 0x01000000) 2, audio_packet 12);
                   (video_frame (Some 0x01000500) 3, audio_packet 13);
                   (video_frame (Some 0x01001000) 4, audio_packet 14)])
      (helper (config (-1) 0x01000000 0x01001000) capturing (-1) 0)
    = Returns tt w' /\
    status_of w' = capturing /\
    calls w'
    = calls (helper (config (-1) 0x01000000 0x01001000) capturing (-1) 0)
      ++ forwarding_all
           (m_FramePos (self (helper (config (-1) 0x01000000 0x01001000)
                                     capturing (-1) 0)))
           (filter
              (in_window
                 (TC_in (Config_In (self (helper (config (-1) 0x01000000 0x01001000)
                                                 capturing (-1) 0))))
                 (TC_out (Config_In (self (helper (config (-1) 0x01000000 0x01001000)
                                                  capturing (-1) 0)))))
              [(video_frame (Some 0x00595929) 1, audio_packet 11);
               (video_frame (Some 0x01000000) 2, audio_packet 12);
               (video_frame (Some 0x01000500) 3, audio_packet 13);
               (video_frame (Some 0x01001000) 4, audio_packet 14)]) /\
    m_FramePos (self w')
    = m_FramePos (self (helper (config (-1) 0x01000000 0x01001000)
                               capturing (-1) 0))
      + Z.of_nat
          (length
             (filter
                (in_window
                   (TC_in (Config_In (self (helper (config (-1) 0x01000000 0x01001000)
                                                   capturing (-1) 0))))
                   (TC_out (Config_In (self (helper (config (-1) 0x01000000 0x01001000)
                                                    capturing (-1) 0)))))
                [(video_frame (Some 0x00595929) 1, audio_packet 11);
                 (video_frame (Some 0x01000000) 2, audio_packet 12);
                 (video_frame (Some 0x01000500) 3, audio_packet 13);
                 (video_frame (Some 0x01001000) 4, audio_packet 14)])).
Proof.
  apply (increasing_timecodes_forward_exactly_the_window hw_ok
           [(video_frame (Some 0x00595929) 1, audio_packet 11);
            (video_frame (Some 0x01000000) 2, audio_packet 12);
            (video_frame (Some 0x01000500) 3, audio_packet 13);
            (video_frame (Some 0x01001000) 4, audio_packet 14)]
           (helper (config (-1) 0x01000000 0x01001000) capturing (-1) 0));
    try reflexivity; cbn; lia.
Defined.

(** ** The status never goes back to idle *)

#[local] Instance never_back_to_idle_PreOrder : PreOrder never_back_to_idle.
Proof.
  split.
  - intros w H. exact H.
  - intros a b c H1 H2 H. apply H1, H2, H.
Qed.

Lemma never_back_to_idle_assign (f : CaptureHelper -> CaptureHelper) :
  (forall s, Status (Config_Out (f s)) = idle -> Status (Config_Out s) = idle) ->
  respects never_back_to_idle (assign f).
Proof. intros Hf w H. apply (Hf (self w)). exact H. Qed.

Lemma never_back_to_idle_call (c : Call) :
  respects never_back_to_idle (call c).
Proof. intros w H. exact H. Qed.

Lemma never_back_to_idle_ask (hw : Hardware) {A}
    (entry : Hardware -> nat -> A) :
  respects never_back_to_idle (ask hw entry).
Proof. intros w H. exact H. Qed.

Ltac idle_steps :=
  repeat first
    [ apply respects_ret; exact _
    | apply respects_fault; exact _
    | apply respects_this; exact _
    | apply respects_deref; exact _
    | apply respects_bind; [ exact _ | | intro ]
    | apply never_back_to_idle_ask
    | apply never_back_to_idle_call
    | apply never_back_to_idle_assign;
      let s := fresh "s" in
      let H := fresh "H" in
      intros s H; first [ exact H | discriminate H ]
    | match goal with
      | |- respects _ (if ?b then _ else _) => destruct b
      | |- respects _ (match ?x with _ => _ end) => destruct x
      end ].

Lemma run_op_never_back_to_idle (hw : Hardware) (connected : Z) (o : Op) :
  match o with caller_writes_Status _ => False | _ => True end ->
  respects never_back_to_idle (run_op hw connected o).
Proof.
  destruct o; intros Ok; try contradiction; cbn [run_op].
  - unfold startCapture, setupControl, setupInput, cleanupInput. idle_steps.
  - unfold stop, finishCapture. idle_steps.
  - unfold getTimeCode, readTimeCode, setupControl, setupInput. idle_steps.
  - unfold VideoInputFrameArrived, stop, finishCapture. idle_steps.
  - unfold DeckControlEventReceived, finishCapture. idle_steps.
  - unfold DeckControlStatusChanged, readTimeCode. idle_steps.
  - unfold TimecodeUpdate. idle_steps.
  - unfold VTRControlStateChanged. idle_steps.
Qed.

(** X28. No method and no callback writes the status idle: after any
    sequence of capture attempts, stops, timecode queries, frames, deck
    events and status events (the caller not writing the status
    itself), the status is idle only if it was idle before the
    sequence. *)
Theorem status_never_returns_to_idle
    (hw : Hardware) (connected : Z) (ops : list Op) (w : World) :
  forallb (fun o => match o with
                    | caller_writes_Status _ => false
                    | _ => true
                    end) ops = true ->
  status_of (exec (run hw connected ops) w) = idle ->
  status_of w = idle.
Proof.
  intros Hops. revert w. induction ops as [|o rest IH]; intros w.
  - intros H. exact H.
  - cbn [forallb] in Hops. apply andb_true_iff in Hops as [Ho Hrest].
    assert (Step : respects never_back_to_idle (run_op hw connected o)).
    { apply run_op_never_back_to_idle. destruct o; try exact I.
      discriminate Ho. }
    cbn [run]. unfold exec, bind. specialize (Step w).
    destruct (run_op hw connected o w) as [u w1|f w1]; cbn [world_of] in *.
    + intros H. apply Step. apply (IH Hrest w1). exact H.
    + exact Step.
Qed.

Lemma status_never_returns_to_idle_witness :
  status_of (helper_with true true false true (config (-1) 1 2) idle (-1) 0)
  = idle.
Proof.
  apply (status_never_returns_to_idle hw_without_deck 1
           [on_TimecodeUpdate 5; do_getTimeCode;
            on_VideoInputFrameArrived (Some (video_frame (Some 1) 1)) None;
            on_DeckControlStatusChanged 1 1]
           (helper_with true true false true (config (-1) 1 2) idle (-1) 0));
    reflexivity.
Defined.

(** ** C1: the capture window, frame after frame *)

Lemma to_i32_range (z : Z) : - 2 ^ 31 <= to_i32 z < 2 ^ 31.
Proof.
  unfold to_i32.
  pose proof (Z.mod_pos_bound z (2 ^ 32) ltac:(lia)) as B.
  destruct (z mod 2 ^ 32 <? 2 ^ 31) eqn:E;
    [apply Z.ltb_lt in E | apply Z.ltb_ge in E]; lia.
Qed.

Lemma to_i32_large (z : Z) : 2 ^ 31 <= z < 2 ^ 32 -> to_i32 z = z - 2 ^ 32.
Proof.
  intros H. unfold to_i32. rewrite Z.mod_small by lia.
  destruct (z <? 2 ^ 31) eqn:E; [apply Z.ltb_lt in E; lia | reflexivity].
Qed.

(** The decision taken for a frame of a bounded capture that the frame
    limit does not concern. *)
Lemma ShouldDecode_inside_window (s : CaptureHelper) (T : Z) :
  below_limit s ->
  0 <= TC_in (Config_In s) < TC_out (Config_In s) ->
  TC_out (Config_In s) < 2 ^ 31 ->
  - 2 ^ 31 <= TC_current (Config_Out s) < 2 ^ 31 ->
  0 <= T < 2 ^ 32 ->
  ShouldDecode s (Some T) = true
  <-> inside_window s T (TC_current (Config_Out s)).
Proof.
  intros Hfc Hin Hout Hcur HT. unfold ShouldDecode, inside_window.
  assert (Lim : negb (FrameCount (Config_In s) =? -1)
                && (m_FramePos s >=? FrameCount (Config_In s)) = false).
  { destruct Hfc as [Hfc|Hfc].
    - rewrite Hfc. reflexivity.
    - rewrite Z.geb_leb. replace (FrameCount (Config_In s) <=? m_FramePos s)
        with false by (symmetry; apply Z.leb_gt; exact Hfc).
      apply andb_false_r. }
  rewrite Lim. cbv beta iota zeta.
  rewrite (to_u32_small T HT).
  rewrite (to_u32_small (TC_in (Config_In s))) by lia.
  rewrite (to_u32_small (TC_out (Config_In s))) by lia.
  assert (Hne : (TC_in (Config_In s) =? -1) = false) by (apply Z.eqb_neq; lia).
  rewrite Hne. simpl negb. simpl andb.
  destruct (T <? TC_in (Config_In s)) eqn:Elo;
    [apply Z.ltb_lt in Elo | apply Z.ltb_ge in Elo].
  { rewrite orb_true_r. simpl. split; [discriminate | lia]. }
  destruct (T >=? TC_out (Config_In s)) eqn:Ehi;
    [apply Z.geb_le in Ehi | rewrite Z.geb_leb in Ehi; apply Z.leb_gt in Ehi].
  { rewrite orb_true_r. split; [discriminate | lia]. }
  rewrite !orb_false_r.
  destruct (TC_current (Config_Out s) =? -1) eqn:Eunk;
    [apply Z.eqb_eq in Eunk | apply Z.eqb_neq in Eunk]; simpl.
  { split; [lia | reflexivity]. }
  destruct (Z_lt_le_dec (TC_current (Config_Out s)) 0) as [Neg|Pos].
  - rewrite (to_u32_negative (TC_current (Config_Out s))) by lia.
    destruct (T =? TC_current (Config_Out s) + 2 ^ 32) eqn:E;
      [apply Z.eqb_eq in E; lia | split; [lia | reflexivity]].
  - rewrite (to_u32_small (TC_current (Config_Out s))) by lia.
    destruct (T =? TC_current (Config_Out s)) eqn:E;
      [apply Z.eqb_eq in E | apply Z.eqb_neq in E].
    + split; [discriminate | lia].
    + split; [lia | reflexivity].
Qed.

(** One frame of a bounded capture: handed over first of all when its
    timecode is inside the window and new, dropped without a trace
    otherwise. *)
Lemma frame_of_bounded_capture (hw : Hardware) (w : World)
    (video : IDeckLinkVideoInputFrame) (audio : IDeckLinkAudioInputPacket)
    (T : Z) :
  status_of w = capturing ->
  Glue (self w) = true ->
  below_limit (self w) ->
  0 <= TC_in (Config_In (self w)) < TC_out (Config_In (self w)) ->
  TC_out (Config_In (self w)) < 2 ^ 31 ->
  - 2 ^ 31 <= TC_current (Config_Out (self w)) < 2 ^ 31 ->
  GetTimecode_Serial video = Some T ->
  0 <= T < 2 ^ 32 ->
  (firstn 2 (emitted (VideoInputFrameArrived hw (Some video) (Some audio)) w)
   = forwarding (m_FramePos (self w)) video audio
   <-> inside_window (self w) T (TC_current (Config_Out (self w)))) /\
  (FrameCount (Config_In (self w)) = -1 ->
   (emitted (VideoInputFrameArrived hw (Some video) (Some audio)) w
    = forwarding (m_FramePos (self w)) video audio
    <-> inside_window (self w) T (TC_current (Config_Out (self w))))) /\
  (~ inside_window (self w) T (TC_current (Config_Out (self w))) ->
   VideoInputFrameArrived hw (Some video) (Some audio) w
   = Returns S_OK (discarded_world w video) /\
   emitted (VideoInputFrameArrived hw (Some video) (Some audio)) w = [] /\
   m_FramePos (self (exec (VideoInputFrameArrived hw (Some video) (Some audio)) w))
   = m_FramePos (self w)).
Proof.
  intros Hst Hglue Hfc Hin Hout Hcur Htc HT.
  pose proof (ShouldDecode_inside_window (self w) T Hfc Hin Hout Hcur HT)
    as Gate.
  assert (Rej : ShouldDecode (self w) (Some T) = false ->
                VideoInputFrameArrived hw (Some video) (Some audio) w
                = Returns S_OK (discarded_world w video)).
  { intros Hsd. apply frame_discarded; rewrite ?Htc; assumption. }
  assert (EmRej : ShouldDecode (self w) (Some T) = false ->
                  emitted (VideoInputFrameArrived hw (Some video) (Some audio)) w
                  = []).
  { intros Hsd. unfold emitted, exec. rewrite (Rej Hsd). simpl.
    apply skipn_all. }
  assert (EmAcc : ShouldDecode (self w) (Some T) = true ->
                  exists l,
                    emitted (VideoInputFrameArrived hw (Some video) (Some audio)) w
                    = forwarding (m_FramePos (self w)) video audio ++ l).
  { intros Hsd. rewrite <- Htc in Hsd.
    destruct (frame_accepted_then hw w video audio Hst Hsd) as (l & Calls & _).
    rewrite (forwarded_world_calls w video audio Hglue), <- app_assoc in Calls.
    exists l. exact (emitted_app _ _ _ Calls). }
  assert (EmUnl : ShouldDecode (self w) (Some T) = true ->
                  FrameCount (Config_In (self w)) = -1 ->
                  emitted (VideoInputFrameArrived hw (Some video) (Some audio)) w
                  = forwarding (m_FramePos (self w)) video audio).
  { intros Hsd Unl. unfold emitted, exec.
    rewrite frame_accepted by (rewrite ?Htc; assumption).
    unfold limit_reached, forwarded_world. rewrite Htc. cbn -[Z.add].
    rewrite Unl. simpl.
    rewrite Hglue, skipn_app, skipn_all, Nat.sub_diag. reflexivity. }
  split; [|split].
  - rewrite <- Gate. split.
    + intros Em. destruct (ShouldDecode (self w) (Some T)); [reflexivity|].
      rewrite (EmRej eq_refl) in Em. discriminate Em.
    + intros Hsd. destruct (EmAcc Hsd) as (l & Em). rewrite Em.
      reflexivity.
  - intros Unl. rewrite <- Gate. split.
    + intros Em. destruct (ShouldDecode (self w) (Some T)); [reflexivity|].
      rewrite (EmRej eq_refl) in Em. discriminate Em.
    + intros Hsd. exact (EmUnl Hsd Unl).
  - intros Hout'. rewrite <- Gate in Hout'.
    apply not_true_is_false in Hout'.
    split; [exact (Rej Hout')|]. split; [exact (EmRej Hout')|].
    unfold exec. rewrite (Rej Hout'). simpl. rewrite Htc. reflexivity.
Qed.

(** The callback touches neither the configuration nor the glue. *)
Lemma VideoInputFrameArrived_keeps_glue (hw : Hardware)
    (video : option IDeckLinkVideoInputFrame)
    (audio : option IDeckLinkAudioInputPacket) :
  respects (keeps (fun s => (Config_In s, Glue s)) any_call)
           (VideoInputFrameArrived hw video audio).
Proof. unfold VideoInputFrameArrived, stop, finishCapture. keeps_steps. Qed.

(** In status [capturing] a frame leaves its timecode in [TC_current],
    whatever becomes of the frame. *)
Lemma frame_leaves_its_timecode (hw : Hardware) (w : World)
    (video : IDeckLinkVideoInputFrame)
    (audio : option IDeckLinkAudioInputPacket) (T : Z) :
  status_of w = capturing ->
  GetTimecode_Serial video = Some T ->
  TC_current (Config_Out (self (exec (VideoInputFrameArrived hw (Some video)
                                        audio) w)))
  = to_i32 T.
Proof.
  intros Hst Htc.
  destruct (ShouldDecode (self w) (GetTimecode_Serial video)) eqn:Hsd.
  - destruct audio as [audio|].
    + destruct (frame_accepted_then hw w video audio Hst Hsd)
        as (_ & _ & Tc & _).
      rewrite Tc. unfold forwarded_world. rewrite Htc. reflexivity.
    + unfold exec. rewrite frame_accepted_without_audio by assumption.
      unfold discarded_world. rewrite Htc. reflexivity.
  - unfold exec. rewrite frame_discarded by assumption.
    unfold discarded_world. rewrite Htc. reflexivity.
Qed.

(** Within the window, differing from a stored timecode is differing
    from the timecode itself. *)
Lemma inside_window_of_stored (s s' : CaptureHelper) (T T' : Z) :
  Config_In s' = Config_In s ->
  0 <= TC_in (Config_In s) ->
  TC_out (Config_In s) < 2 ^ 31 ->
  0 <= T < 2 ^ 32 ->
  inside_window s' T' (to_i32 T) <-> inside_window s T' T.
Proof.
  intros Cfg Hin Hout HT. unfold inside_window. rewrite Cfg.
  destruct (Z_lt_le_dec T (2 ^ 31)) as [Small|Large].
  - rewrite to_i32_small by lia. reflexivity.
  - rewrite to_i32_large by lia. split; intros [W _]; split; try exact W; lia.
Qed.

(** C1.  During a bounded capture ([0 <= TC_in < TC_out], values of
    type [int]), in status [capturing], with a glue attached and the
    counter not at a frame limit (none configured, or the counter below
    it), a frame whose timecode is [T] is handed to the glue, first of
    all, if and only if [TC_in <= T < TC_out] and [T] differs from
    [TC_current]; with no frame limit the two hand-over calls are all
    that is emitted.  A frame that fails the test is discarded: nothing
    is emitted and [m_FramePos] keeps its value.  [TC_current] is the
    timecode observed last: the callback stores [T] there whatever
    becomes of the frame (forwarded, discarded, audio packet missing),
    so the frame delivered next, with timecode [T'], is handed over if
    and only if [TC_in <= T' < TC_out] and [T'] differs from [T], and
    is discarded otherwise. *)
Theorem bounded_capture_forwards_exactly_the_window
    (hw : Hardware) (w : World)
    (video : IDeckLinkVideoInputFrame) (audio : IDeckLinkAudioInputPacket)
    (T : Z) :
  status_of w = capturing ->
  Glue (self w) = true ->
  below_limit (self w) ->
  0 <= TC_in (Config_In (self w)) < TC_out (Config_In (self w)) ->
  TC_out (Config_In (self w)) < 2 ^ 31 ->
  - 2 ^ 31 <= TC_current (Config_Out (self w)) < 2 ^ 31 ->
  GetTimecode_Serial video = Some T ->
  0 <= T < 2 ^ 32 ->
  (ShouldDecode (self w) (Some T) = true
   <-> inside_window (self w) T (TC_current (Config_Out (self w)))) /\
  (firstn 2 (emitted (VideoInputFrameArrived hw (Some video) (Some audio)) w)
   = forwarding (m_FramePos (self w)) video audio
   <-> inside_window (self w) T (TC_current (Config_Out (self w)))) /\
  (FrameCount (Config_In (self w)) = -1 ->
   (emitted (VideoInputFrameArrived hw (Some video) (Some audio)) w
    = forwarding (m_FramePos (self w)) video audio
    <-> inside_window (self w) T (TC_current (Config_Out (self w))))) /\
  (~ inside_window (self w) T (TC_current (Config_Out (self w))) ->
   VideoInputFrameArrived hw (Some video) (Some audio) w
   = Returns S_OK (discarded_world w video) /\
   emitted (VideoInputFrameArrived hw (Some video) (Some audio)) w = [] /\
   m_FramePos (self (exec (VideoInputFrameArrived hw (Some video) (Some audio)) w))
   = m_FramePos (self w)) /\
  (forall a : option IDeckLinkAudioInputPacket,
      TC_current (Config_Out (self (exec (VideoInputFrameArrived hw (Some video) a) w)))
      = to_i32 T) /\
  (forall (a : option IDeckLinkAudioInputPacket)
          (video' : IDeckLinkVideoInputFrame)
          (audio' : IDeckLinkAudioInputPacket) (T' : Z),
      status_of (exec (VideoInputFrameArrived hw (Some video) a) w) = capturing ->
      below_limit (self (exec (VideoInputFrameArrived hw (Some video) a) w)) ->
      GetTimecode_Serial video' = Some T' ->
      0 <= T' < 2 ^ 32 ->
      (firstn 2 (emitted (VideoInputFrameArrived hw (Some video') (Some audio'))
                         (exec (VideoInputFrameArrived hw (Some video) a) w))
       = forwarding
           (m_FramePos (self (exec (VideoInputFrameArrived hw (Some video) a) w)))
           video' audio'
       <-> inside_window (self w) T' T) /\
      (~ inside_window (self w) T' T ->
       emitted (VideoInputFrameArrived hw (Some video') (Some audio'))
               (exec (VideoInputFrameArrived hw (Some video) a) w) = [] /\
       m_FramePos
         (self (exec (VideoInputFrameArrived hw (Some video') (Some audio'))
                     (exec (VideoInputFrameArrived hw (Some video) a) w)))
       = m_FramePos (self (exec (VideoInputFrameArrived hw (Some video) a) w)))).
Proof.
  intros Hst Hglue Hfc Hin Hout Hcur Htc HT.
  destruct (frame_of_bounded_capture hw w video audio T
              Hst Hglue Hfc Hin Hout Hcur Htc HT) as (Fw & Unl & Drop).
  split; [exact (ShouldDecode_inside_window (self w) T Hfc Hin Hout Hcur HT)|].
  split; [exact Fw|]. split; [exact Unl|]. split; [exact Drop|].
  split; [intros a; apply frame_leaves_its_timecode; assumption|].
  intros a video' audio' T' Hst1 Hfc1 Htc' HT'.
  remember (exec (VideoInputFrameArrived hw (Some video) a) w) as w1 eqn:Ew1.
  assert (Tc1 : TC_current (Config_Out (self w1)) = to_i32 T)
    by (rewrite Ew1; apply frame_leaves_its_timecode; assumption).
  destruct (VideoInputFrameArrived_keeps_glue hw (Some video) a w) as [Kept _].
  fold (exec (VideoInputFrameArrived hw (Some video) a) w) in Kept.
  rewrite <- Ew1 in Kept. injection Kept as Cfg1 Glue1.
  assert (Hin1 : 0 <= TC_in (Config_In (self w1)) < TC_out (Config_In (self w1)))
    by (rewrite Cfg1; exact Hin).
  assert (Hout1 : TC_out (Config_In (self w1)) < 2 ^ 31)
    by (rewrite Cfg1; exact Hout).
  assert (Hcur1 : - 2 ^ 31 <= TC_current (Config_Out (self w1)) < 2 ^ 31)
    by (rewrite Tc1; apply to_i32_range).
  assert (Hglue1 : Glue (self w1) = true) by congruence.
  destruct (frame_of_bounded_capture hw w1 video' audio' T'
              Hst1 Hglue1 Hfc1 Hin1 Hout1 Hcur1 Htc' HT') as (Fw1 & _ & Drop1).
  rewrite Tc1 in Fw1, Drop1.
  pose proof (inside_window_of_stored (self w) (self w1) T T' Cfg1
                (proj1 Hin) Hout HT) as Same.
  split.
  - rewrite Fw1. exact Same.
  - intros Out. apply Drop1. rewrite Same. exact Out.
Qed.

Lemma bounded_capture_forwards_exactly_the_window_witness :
  firstn 2
    (emitted (VideoInputFrameArrived hw_ok
                (Some (video_frame (Some 0x01000500) 7)) (Some (audio_packet 8)))
             (helper (config 3 0x01000000 0x01001000) capturing 0x01000000 1))
  = forwarding 1 (video_frame (Some 0x01000500) 7) (audio_packet 8) /\
  TC_current
    (Config_Out
       (self (exec (VideoInputFrameArrived hw_ok
                      (Some (video_frame (Some 0x01000500) 7))
                      (Some (audio_packet 8)))
                   (helper (config 3 0x01000000 0x01001000) capturing
                      0x01000000 1))))
  = to_i32 0x01000500 /\
  emitted (VideoInputFrameArrived hw_ok
             (Some (video_frame (Some 0x01000500) 9)) (Some (audio_packet 10)))
          (exec (VideoInputFrameArrived hw_ok
                   (Some (video_frame (Some 0x01000500) 7))
                   (Some (audio_packet 8)))
                (helper (config 3 0x01000000 0x01001000) capturing
                   0x01000000 1))
  = [].
Proof.
  assert (Hin : 0 <= 0x01000000 < 0x01001000) by (cbn; lia).
  assert (Hout : 0x01001000 < 2 ^ 31) by (cbn; lia).
  assert (Hcur : - 2 ^ 31 <= 0x01000000 < 2 ^ 31) by (cbn; lia).
  assert (HT : 0 <= 0x01000500 < 2 ^ 32) by (cbn; lia).
  destruct (bounded_capture_forwards_exactly_the_window hw_ok
              (helper (config 3 0x01000000 0x01001000) capturing 0x01000000 1)
              (video_frame (Some 0x01000500) 7) (audio_packet 8) 0x01000500
              eq_refl eq_refl (or_intror eq_refl) Hin Hout Hcur eq_refl HT)
    as (_ & Fw & _ & _ & Tc & Next).
  split; [|split].
  - apply Fw. split; [cbn; lia | cbn; discriminate].
  - exact (Tc (Some (audio_packet 8))).
  - apply (Next (Some (audio_packet 8)) (video_frame (Some 0x01000500) 9)
             (audio_packet 10) 0x01000500 eq_refl (or_intror eq_refl)
             eq_refl HT).
    intros [_ Ne]. apply Ne. reflexivity.
Defined.

(** ** C4: the frame position *)

#[local] Instance idle_means_untouched_PreOrder : PreOrder idle_means_untouched.
Proof.
  split.
  - intros w Idle. split; [exact Idle | reflexivity].
  - intros a b c Hab Hbc Idle.
    destruct (Hbc Idle) as [Idle_b Kbc].
    destruct (Hab Idle_b) as [Idle_a Kab].
    split; [exact Idle_a | transitivity b; assumption].
Qed.






(** Such a run, evaluated: the frame of the first attempt,
    begun from idle, is handed over at position 0; the second attempt
    begins from [finished] and its frame is handed over at position 1. *)
Example second_attempt_from_finished_continues_the_numbering :
  status_of (constructed hw_ok 0 (config (-1) (-1) (-1))
               {| Status := idle; TC_current := -1;
                  VideoInputConnections := 0 |}) = idle /\
  status_of
    (exec (run hw_ok 1
             [do_getTimeCode; do_startCapture;
              on_VideoInputFrameArrived
                (Some (video_frame (Some 1) 1)) (Some (audio_packet 11));
              do_stop])
          (constructed hw_ok 0 (config (-1) (-1) (-1))
             {| Status := idle; TC_current := -1;
                VideoInputConnections := 0 |})) = finished /\
  video_positions
    (calls (exec (run hw_ok 1
                    [do_getTimeCode; do_startCapture;
                     on_VideoInputFrameArrived
                       (Some (video_frame (Some 1) 1)) (Some (audio_packet 11));
                     do_stop; do_startCapture;
                     on_VideoInputFrameArrived
                       (Some (video_frame (Some 2) 2)) (Some (audio_packet 12))])
                 (constructed hw_ok 0 (config (-1) (-1) (-1))
                    {| Status := idle; TC_current := -1;
                       VideoInputConnections := 0 |})))
  = [0; 1].
Proof. vm_compute. repeat split. Qed.

(** ** C5: failures during setup, and the rejected start *)

(** With a card and no input yet, [setupInput] returns whether the
    driver granted every step. *)
Lemma setupInput_result (hw : Hardware) (w : World) :
  m_card (self w) = true ->
  m_input (self w) = false ->
  exists w', setupInput hw w = Returns (input_granted hw (now w)) w'.
Proof.
  intros Hc Hi. unfold setupInput, input_granted. run_monad.
  rewrite Hi. cbn. rewrite Hc. cbn.
  destruct (is_S_OK (QueryInterface_Input hw (now w))); cbn;
    [|eexists; reflexivity].
  destruct (GetDisplayModeIterator hw (S (now w))) as [hr modes]. cbn.
  destruct (is_S_OK hr); cbn; [|eexists; reflexivity].
  destruct (find _ modes) as [d|]; cbn; [|eexists; reflexivity].
  destruct (GetWidth d =? -1); cbn; [eexists; reflexivity|].
  destruct (is_S_OK (EnableVideoInput hw _)); cbn; [|eexists; reflexivity].
  destruct (is_S_OK (EnableAudioInput hw _)); cbn; [|eexists; reflexivity].
  destruct (is_S_OK (StartStreams hw _)); cbn; eexists; reflexivity.
Qed.

(** After the input, [setupControl] returns whether the deck control
    is or can be opened. *)
Lemma setupControl_result (hw : Hardware) (w w1 : World) (ok : bool) :
  setupInput hw w = Returns ok w1 ->
  m_card (self w1) = true ->
  exists w2,
    setupControl hw w
    = Returns (ok && control_granted hw (self w1) (now w1)) w2.
Proof.
  intros Run Hc. unfold setupControl, control_granted, bind. rewrite Run.
  destruct ok; cbn [negb andb]; [|eexists; reflexivity].
  run_monad. destruct (m_control (self w1)); cbn; [eexists; reflexivity|].
  rewrite Hc. cbn.
  destruct (is_S_OK (QueryInterface_DeckControl hw (now w1))); cbn;
    [|eexists; reflexivity].
  destruct (is_S_OK (Open hw (S (now w1)))); cbn; eexists; reflexivity.
Qed.

Lemma setupControl_true_sets_control (hw : Hardware) (w w' : World) :
  setupControl hw w = Returns true w' -> m_control (self w') = true.
Proof.
  unfold setupControl, bind.
  destruct (setupInput hw w) as [ok w1|f w1]; [|discriminate].
  destruct ok; cbn [negb]; [|discriminate]. run_monad.
  destruct (m_control (self w1)) eqn:Hk; cbn; [intros [= <-]; exact Hk|].
  destruct (m_card (self w1)); cbn; [|discriminate].
  destruct (is_S_OK (QueryInterface_DeckControl hw (now w1))); cbn;
    [|discriminate].
  destruct (is_S_OK (Open hw (S (now w1)))); cbn; [|discriminate].
  intros [= <-]. reflexivity.
Qed.

(** The input restart at the head of [startCapture] leaves
    configuration, status and deck control as they were. *)
Lemma startCapture_restart_keeps (hw : Hardware) (w w1 w3 : World)
    (r ok : bool) :
  setupInput hw (exec cleanupInput w) = Returns r w1 ->
  setupInput hw w1 = Returns ok w3 ->
  Config_In (self w3) = Config_In (self w) /\
  status_of w3 = status_of w /\
  m_control (self w3) = m_control (self w).
Proof.
  intros Run1 Run2.
  destruct (cleanupInput_result w)
    as (w0 & Clean & _ & _ & Hk0 & Hin0 & Hout0 & _ & _).
  unfold exec in Run1. rewrite Clean in Run1. cbn [world_of] in Run1.
  destruct (setupInput_keeps_capture_state hw w0) as [P1 _].
  rewrite Run1 in P1. cbn [world_of] in P1. unfold capture_state in P1.
  destruct (setupInput_keeps_capture_state hw w1) as [P3 _].
  rewrite Run2 in P3. cbn [world_of] in P3. unfold capture_state in P3.
  destruct (setupInput_keeps_control hw w0) as [Q1 _].
  rewrite Run1 in Q1. cbn [world_of] in Q1.
  destruct (setupInput_keeps_control hw w1) as [Q3 _].
  rewrite Run2 in Q3. cbn [world_of] in Q3.
  unfold status_of. repeat split; congruence.
Qed.

(** C5, as the code behaves.  [setupCard], [setupInput] and
    [setupControl] never write the status, whatever the driver
    answers, and each reports a failure by returning [false]:
    [setupCard] when no card is found, [setupInput] as soon as one of
    its six steps is refused (input interface, mode iterator, NTSC
    mode, video input, audio input, streams), [setupControl] when the
    input cannot be opened, the deck-control interface is refused or
    the connection to the deck cannot be opened.  [startCapture]
    returns nothing.  When the input cannot be opened, or, for a
    bounded capture, the deck cannot be opened, it returns with the
    status as it found it.  An unbounded capture with an open deck
    control ends in [capturing] right after the play command, whatever
    the deck answered.  A bounded capture whose deck is open ends with
    the capture command: in [capturing] when the deck accepted it, in
    [finished] when the deck rejected it. *)
Theorem setup_failures_keep_status_rejected_start_finishes
    (hw : Hardware) (w : World) (CardPos : nat) :
  status_of (exec (setupCard hw CardPos) w) = status_of w /\
  status_of (exec (setupInput hw) w) = status_of w /\
  status_of (exec (setupControl hw) w) = status_of w /\
  (forall ok w', setupCard hw CardPos w = Returns ok w' ->
                 ok = m_card (self w')) /\
  (m_card (self w) = false ->
   forall w1, getDeckLinkCard hw CardPos w = Returns false w1 ->
              exists w', setupCard hw CardPos w = Returns false w') /\
  (m_card (self w) = true -> m_input (self w) = false ->
   exists w', setupInput hw w = Returns (input_granted hw (now w)) w') /\
  (forall ok w1,
      setupInput hw w = Returns ok w1 ->
      m_card (self w1) = true ->
      exists w2,
        setupControl hw w
        = Returns (ok && control_granted hw (self w1) (now w1)) w2) /\
  (forall r w1 ok w3,
      setupInput hw (exec cleanupInput w) = Returns r w1 ->
      setupInput hw w1 = Returns ok w3 ->
      (ok = false ->
       startCapture hw w = Returns tt w3 /\ status_of w3 = status_of w) /\
      (ok = true ->
       TC_in (Config_In (self w)) = -1 ->
       m_control (self w) = true ->
       startCapture hw w
       = Returns tt {| self := set_Status capturing (self w3);
                       now := S (now w3);
                       calls := calls w3 ++ [control_Play] |}) /\
      (ok = true ->
       TC_in (Config_In (self w)) <> -1 ->
       forall opened w4,
         setupControl hw w3 = Returns opened w4 ->
         (opened = false ->
          startCapture hw w = Returns tt w4 /\ status_of w4 = status_of w) /\
         (opened = true ->
          startCapture hw w
          = Returns tt
              {| self := set_Status
                           (if is_S_OK (StartCapture hw (now w4))
                            then capturing else finished)
                           (self w4);
                 now := S (now w4);
                 calls := calls w4
                          ++ [control_StartCapture
                                (to_u32 (TC_in (Config_In (self w))))
                                (to_u32 (TC_out (Config_In (self w))))] |}) /\
         (opened = true ->
          is_S_OK (StartCapture hw (now w4)) = false ->
          status_of (exec (startCapture hw) w) = finished))) /\
  (status_of (exec (startCapture hw) w) = status_of w
   \/ (exists l,
          calls (exec (startCapture hw) w) = l ++ [control_Play]
          /\ status_of (exec (startCapture hw) w) = capturing)
   \/ (exists l tcIn tcOut n,
          calls (exec (startCapture hw) w)
          = l ++ [control_StartCapture tcIn tcOut]
          /\ now (exec (startCapture hw) w) = S n
          /\ status_of (exec (startCapture hw) w)
             = if is_S_OK (StartCapture hw n) then capturing else finished)).
Proof.
  split; [apply setupCard_keeps_status|].
  split; [apply setupInput_keeps_status|].
  split; [apply setupControl_keeps_status|].
  split; [intros ok w'; apply setupCard_result|].
  split.
  { intros Hc w1 Run. unfold setupCard, bind, this. rewrite Hc, Run.
    eexists. reflexivity. }
  split; [apply setupInput_result|].
  split; [intros ok w1; apply setupControl_result|].
  split; [|apply startCapture_status].
  intros r w1 ok w3 Run1 Run2.
  destruct (startCapture_restart_keeps hw w w1 w3 r ok Run1 Run2)
    as (Cfg3 & St3 & Ctl3).
  destruct (cleanupInput_result w) as (w0 & Clean & _).
  assert (Head : forall k : bool -> M unit,
             bind cleanupInput
                  (fun _ => bind (setupInput hw)
                              (fun _ => bind (setupInput hw) k)) w
             = k ok w3).
  { intros k. unfold bind at 1. rewrite Clean.
    unfold exec in Run1. rewrite Clean in Run1. cbn [world_of] in Run1.
    unfold bind at 1. rewrite Run1. unfold bind at 1. rewrite Run2.
    reflexivity. }
  assert (Bounded : ok = true ->
            TC_in (Config_In (self w)) <> -1 ->
            forall opened w4,
              setupControl hw w3 = Returns opened w4 ->
              startCapture hw w
              = if opened
                then Returns tt
                       {| self := set_Status
                                    (if is_S_OK (StartCapture hw (now w4))
                                     then capturing else finished)
                                    (self w4);
                          now := S (now w4);
                          calls := calls w4
                                   ++ [control_StartCapture
                                         (to_u32 (TC_in (Config_In (self w))))
                                         (to_u32 (TC_out (Config_In (self w))))] |}
                else Returns tt w4).
  { intros -> Htc opened w4 Run4. apply Z.eqb_neq in Htc.
    unfold startCapture. rewrite Head. cbn [negb].
    unfold bind at 1. unfold this at 1. cbn beta iota.
    rewrite Cfg3, Htc. unfold bind at 1. rewrite Run4.
    destruct opened; cbn [negb]; [|reflexivity].
    pose proof (setupControl_true_sets_control hw w3 w4 Run4) as Hk4.
    run_monad. rewrite Hk4. cbn -[to_u32].
    destruct (is_S_OK (StartCapture hw (now w4))); reflexivity. }
  split; [|split].
  - intros ->. split; [|exact St3].
    unfold startCapture. rewrite Head. reflexivity.
  - intros -> Htc Hk. unfold startCapture. rewrite Head. cbn [negb].
    run_monad. rewrite Cfg3, Htc. cbn. rewrite Ctl3, Hk. reflexivity.
  - intros -> Htc opened w4 Run4.
    pose proof (Bounded eq_refl Htc opened w4 Run4) as Run.
    split; [|split].
    + intros ->. split; [exact Run|].
      pose proof (setupControl_keeps_status hw w3) as K.
      unfold keeps_status in K. rewrite Run4 in K. cbn [world_of] in K.
      congruence.
    + intros ->. exact Run.
    + intros -> Rejected. unfold exec. rewrite Run, Rejected. reflexivity.
Qed.

Lemma setup_failures_keep_status_rejected_start_finishes_witness :
  status_of (exec (startCapture hw_rejecting)
                  (helper (config (-1) 0x01000000 0x01001000) idle (-1) 0))
  = finished.
Proof.
  destruct (setup_failures_keep_status_rejected_start_finishes hw_rejecting
              (helper (config (-1) 0x01000000 0x01001000) idle (-1) 0) O)
    as (_ & _ & _ & _ & _ & _ & _ & Start & _).
  assert (Run1 : setupInput hw_rejecting
                   (exec cleanupInput
                         (helper (config (-1) 0x01000000 0x01001000)
                                 idle (-1) 0))
                 = Returns true
                     (exec (setupInput hw_rejecting)
                           (exec cleanupInput
                                 (helper (config (-1) 0x01000000 0x01001000)
                                         idle (-1) 0))))
    by (vm_compute; reflexivity).
  assert (Run2 : setupInput hw_rejecting
                   (exec (setupInput hw_rejecting)
                         (exec cleanupInput
                               (helper (config (-1) 0x01000000 0x01001000)
                                       idle (-1) 0)))
                 = Returns true
                     (exec (setupInput hw_rejecting)
                           (exec cleanupInput
                                 (helper (config (-1) 0x01000000 0x01001000)
                                         idle (-1) 0))))
    by (vm_compute; reflexivity).
  destruct (Start _ _ _ _ Run1 Run2) as (_ & _ & Bounded).
  assert (Htc : TC_in (Config_In (self (helper (config (-1) 0x01000000 0x01001000)
                                          idle (-1) 0))) <> -1)
    by (vm_compute; discriminate).
  assert (Run4 : setupControl hw_rejecting
                   (exec (setupInput hw_rejecting)
                         (exec cleanupInput
                               (helper (config (-1) 0x01000000 0x01001000)
                                       idle (-1) 0)))
                 = Returns true
                     (exec (setupControl hw_rejecting)
                           (exec (setupInput hw_rejecting)
                                 (exec cleanupInput
                                       (helper (config (-1) 0x01000000 0x01001000)
                                               idle (-1) 0)))))
    by (vm_compute; reflexivity).
  destruct (Bounded eq_refl Htc _ _ Run4) as (_ & _ & Rejected).
  apply (Rejected eq_refl). vm_compute. reflexivity.
Defined.

(** The deck rejects the bounded capture command: the helper, idle
    before the attempt, is [finished] after it. *)
Lemma rejected_start_leaves_finished :
  ~ rejected_start_leaves_idle hw_rejecting
      (helper (config (-1) 0x01000000 0x01001000) idle (-1) 0).
Proof.
  intros Idle. specialize (Idle eq_refl (fun _ => eq_refl)).
  vm_compute in Idle. discriminate Idle.
Qed.

(** On the same input the code gives [finished]. *)
Lemma rejected_start_status :
  status_of (exec (startCapture hw_rejecting)
                  (helper (config (-1) 0x01000000 0x01001000) idle (-1) 0))
  = finished.
Proof. vm_compute. reflexivity. Qed.

(** A refused video input, one of the later steps of [setupInput]:
    the method returns [false] and the status is as before. *)
Example refused_video_input_is_reported :
  exists w',
    setupInput hw_no_video
      (helper_with true false false true (config (-1) (-1) (-1)) idle (-1) 0)
    = Returns false w' /\ status_of w' = idle.
Proof. eexists. split; vm_compute; reflexivity. Qed.

(** The same from the constructor on: a helper constructed in status
    idle, asked for a bounded capture that the deck rejects, is
    [finished]. *)
Example rejected_start_after_construction :
  status_of (constructed hw_rejecting 0 (config (-1) 0x01000000 0x01001000)
               {| Status := idle; TC_current := -1;
                  VideoInputConnections := 0 |}) = idle /\
  status_of
    (exec (startCapture hw_rejecting)
          (constructed hw_rejecting 0 (config (-1) 0x01000000 0x01001000)
             {| Status := idle; TC_current := -1;
                VideoInputConnections := 0 |})) = finished.
Proof. vm_compute. split; reflexivity. Qed.
